(** * Dashcam backend: the video-evidence extraction pipeline

    A shallow embedding of
      - [app/services/video_processor.py]  (frame sampling),
      - [app/services/ml_detector.py]      (vehicle detection, colour),
      - [app/services/ocr_service.py]      (plate location and reading),
      - [app/tasks/celery_tasks.py]        (the orchestrating task),
    followed by the properties of the pipeline.

    Conventions.  The floats that the detection and recognition engines
    return are [pyfloat] (a rational, NaN or an infinity); the frame rate of
    a video and the averages of pixels are plain rationals.  An exception is
    a value of [exn]; code that can raise returns [res].  The SQLAlchemy
    session, the UUID source and the external engines (OpenCV, YOLO, EasyOCR)
    are explicit parameters.  [print] calls are not modelled. *)

From Stdlib Require Import ZArith QArith Qround List String Ascii Bool Lia Sorted.
Import ListNotations.

Set Implicit Arguments.

(* ------------------------------------------------------------------ *)
(** * Python values and exceptions *)

Module Py.

Inductive exn : Type :=
| ValueError
| TypeError
| ZeroDivisionError
| OverflowError
| FileNotFoundError
| RuntimeError.

Inductive res (A : Type) : Type :=
| Ok (a : A)
| Raise (e : exn).

Arguments Ok {A} a.
Arguments Raise {A} e.

Definition is_raise {A} (r : res A) : bool :=
  match r with Ok _ => false | Raise _ => true end.

Definition rbind {A B} (r : res A) (k : A -> res B) : res B :=
  match r with
  | Ok a => k a
  | Raise e => Raise e
  end.

(** A Python [float]. *)
Inductive pyfloat : Type :=
| Fin (q : Q)
| NaN
| Inf (negative : bool).

(** [int(q)] on a finite value truncates toward zero. *)
Definition Qtrunc (q : Q) : Z := Z.quot (Qnum q) (Zpos (Qden q)).

(** [int(x)]: [ValueError] on NaN, [OverflowError] on an infinity. *)
Definition py_int (x : pyfloat) : res Z :=
  match x with
  | Fin q => Ok (Qtrunc q)
  | NaN => Raise ValueError
  | Inf _ => Raise OverflowError
  end.

Definition Qlt_bool (a b : Q) : bool := negb (Qle_bool b a).

(** [x < y] on floats; every comparison with NaN is [False]. *)
Definition float_lt (x y : pyfloat) : bool :=
  match x, y with
  | NaN, _ | _, NaN => false
  | Fin a, Fin b => Qlt_bool a b
  | Fin _, Inf neg => negb neg
  | Inf neg, Fin _ => neg
  | Inf n1, Inf n2 => n1 && negb n2
  end.

Definition float_gt (x y : pyfloat) : bool := float_lt y x.

(** [x >= y] on floats. *)
Definition float_ge (x y : pyfloat) : bool :=
  match x, y with
  | NaN, _ | _, NaN => false
  | Fin a, Fin b => Qle_bool b a
  | Fin _, Inf neg => neg
  | Inf neg, Fin _ => negb neg
  | Inf n1, Inf n2 => negb n1 || n2
  end.

(** [min(xs)] and [max(xs)]: [ValueError] on an empty sequence; the first
    extremal element is kept. *)
Fixpoint min_from (cur : pyfloat) (xs : list pyfloat) : pyfloat :=
  match xs with
  | [] => cur
  | x :: t => min_from (if float_lt x cur then x else cur) t
  end.

Fixpoint max_from (cur : pyfloat) (xs : list pyfloat) : pyfloat :=
  match xs with
  | [] => cur
  | x :: t => max_from (if float_gt x cur then x else cur) t
  end.

Definition py_min (xs : list pyfloat) : res pyfloat :=
  match xs with
  | [] => Raise ValueError
  | x :: t => Ok (min_from x t)
  end.

Definition py_max (xs : list pyfloat) : res pyfloat :=
  match xs with
  | [] => Raise ValueError
  | x :: t => Ok (max_from x t)
  end.

(** [max(xs, key=key)] on a non-empty sequence, started at [cur]. *)
Fixpoint max_by {A} (key : A -> pyfloat) (cur : A) (xs : list A) : A :=
  match xs with
  | [] => cur
  | x :: t => max_by key (if float_gt (key x) (key cur) then x else cur) t
  end.

(** A slice bound [i] of a sequence of length [len]: a negative bound counts
    from the end, and every bound is clamped to [0, len]. *)
Definition slice_bound (len i : Z) : Z :=
  (if i <? 0 then Z.max 0 (i + len) else Z.min i len)%Z.

(** [l[a:b]] *)
Definition slice {A} (l : list A) (a b : Z) : list A :=
  let len := Z.of_nat (List.length l) in
  let lo := slice_bound len a in
  let hi := slice_bound len b in
  firstn (Z.to_nat (hi - lo)%Z) (skipn (Z.to_nat lo) l).

(** [l[::k]], written with the number [c] of elements still to skip. *)
Fixpoint step_from {A} (k c : nat) (l : list A) : list A :=
  match l with
  | [] => []
  | x :: t =>
      match c with
      | O => x :: step_from k (k - 1) t
      | S c' => step_from k c' t
      end
  end.

Definition step_slice {A} (k : nat) (l : list A) : list A := step_from k 0 l.

(** [enumerate(l)], counting from [i]. *)
Fixpoint enumerate_from {A} (i : nat) (l : list A) : list (nat * A) :=
  match l with
  | [] => []
  | x :: t => (i, x) :: enumerate_from (S i) t
  end.

Definition enumerate {A} (l : list A) : list (nat * A) := enumerate_from 0 l.

End Py.

Import Py.

(* ------------------------------------------------------------------ *)
(** * Frames *)

(** A decoded frame is an array of shape (H, W, 3) of 8-bit channel values:
    a list of rows of pixels.  [cv2.VideoCapture.read] yields no other
    shape, so the test [len(small.shape) == 3] of [detect_vehicle_color]
    holds for every value of this type. *)
Definition Pixel : Type := (Z * Z * Z)%type.
Definition Image : Type := list (list Pixel).

(** [img.size] *)
Definition size (img : Image) : Z := (3 * Z.of_nat (List.length (List.concat img)))%Z.

Record BBox : Type := mkBBox { x1 : Z; y1 : Z; x2 : Z; y2 : Z }.

(** [frame[y1:y2, x1:x2]] *)
Definition crop (frame : Image) (b : BBox) : Image :=
  map (fun row => slice row (x1 b) (x2 b)) (slice frame (y1 b) (y2 b)).

(* ------------------------------------------------------------------ *)
(** * Mutable state with exceptions

    A Python block that mutates objects and may raise: the state reached
    when the exception is raised is kept, as [try]/[except] observes it. *)

Module SE.

Definition M (S A : Type) : Type := S -> S * res A.

Definition ret {S A} (a : A) : M S A := fun s => (s, Ok a).

Definition raise {S A} (e : exn) : M S A := fun s => (s, Raise e).

Definition lift {S A} (r : res A) : M S A := fun s => (s, r).

Definition bind {S A B} (m : M S A) (k : A -> M S B) : M S B :=
  fun s =>
    match m s with
    | (s', Ok a) => k a s'
    | (s', Raise e) => (s', Raise e)
    end.

Definition get {S} : M S S := fun s => (s, Ok s).

Definition modify {S} (f : S -> S) : M S unit := fun s => (f s, Ok tt).

(** [try: body  except Exception as e: handler e] *)
Definition try_except {S A} (body : M S A) (handler : exn -> M S A) : M S A :=
  fun s =>
    match body s with
    | (s', Ok a) => (s', Ok a)
    | (s', Raise e) => handler e s'
    end.

(** [for x in l: body x] *)
Fixpoint for_each {S A} (l : list A) (body : A -> M S unit) : M S unit :=
  match l with
  | [] => ret tt
  | x :: t => bind (body x) (fun _ => for_each t body)
  end.

(** [if c: body] *)
Definition when {S} (c : bool) (body : M S unit) : M S unit :=
  if c then body else ret tt.

End SE.

Import SE.

Declare Scope se_scope.
Delimit Scope se_scope with se.
Notation "x <- m ;; k" := (bind m (fun x => k))
  (at level 61, m at next level, right associativity) : se_scope.
Notation "m ;; k" := (bind m (fun _ => k))
  (at level 61, right associativity) : se_scope.

(* ------------------------------------------------------------------ *)
(** * [app/services/video_processor.py] *)

Module VideoProcessor.

(** An opened [cv2.VideoCapture]: the reported frame rate, the frames that
    successive [read()] calls return before [ret] is false, and the frames
    that remain after [set(CAP_PROP_POS_MSEC, ms)]. *)
Record Capture : Type := mkCapture {
  CAP_PROP_FPS : Q;
  stream : list Image;
  seek_msec : Q -> list Image
}.

(** What a path resolves to. *)
Inductive VideoFile : Type :=
| Absent                      (* os.path.exists(video_path) is False *)
| Unopenable                  (* video.isOpened() is False *)
| Opened (cap : Capture).

Definition FileSystem : Type := string -> VideoFile.

(** [int(video_fps / fps) if fps < video_fps else 1], with the exact
    quotient for the float division. *)
Definition frame_interval (video_fps : Q) (fps : Z) : res Z :=
  if Qlt_bool (inject_Z fps) video_fps then
    if (fps =? 0)%Z then Raise ZeroDivisionError
    else Ok (Qtrunc (video_fps / inject_Z fps))
  else Ok 1%Z.

(** The [while True] loop over [video.read()]. *)
Fixpoint read_loop (frame_interval : Z) (rest : list Image)
    (frame_count : Z) (frames : list Image) : res (list Image) :=
  match rest with
  | [] => Ok frames
  | frame :: rest' =>
      if (frame_interval =? 0)%Z then Raise ZeroDivisionError
      else
        read_loop frame_interval rest' (frame_count + 1)%Z
          (if (frame_count mod frame_interval =? 0)%Z
           then frames ++ [frame] else frames)
  end.

Definition extract_frames (fs : FileSystem) (video_path : string) (fps : Z)
  : res (list Image) :=
  match fs video_path with
  | Absent => Raise FileNotFoundError
  | Unopenable => Raise ValueError
  | Opened video =>
      rbind (frame_interval (CAP_PROP_FPS video) fps) (fun interval =>
      read_loop interval (stream video) 0%Z [])
  end.

(** The written image file is not read back by the pipeline and is left
    out of the model. *)
Definition generate_thumbnail (fs : FileSystem) (video_path output_path : string)
    (timestamp : Q) : res string :=
  match fs video_path with
  | Absent => Raise FileNotFoundError
  | Unopenable => Raise ValueError
  | Opened video =>
      match seek_msec video (timestamp * 1000) with
      | [] => Raise ValueError
      | _ :: _ => Ok output_path
      end
  end.

End VideoProcessor.

(* ------------------------------------------------------------------ *)
(** * [app/services/ml_detector.py] *)

Module MLDetector.

Local Open Scope string_scope.

(** Vehicle classes from the COCO dataset. *)
Definition VEHICLE_CLASSES : list (Z * string) :=
  [ (2%Z, "car"); (3%Z, "motorcycle"); (5%Z, "bus"); (7%Z, "truck") ].

Fixpoint lookup (d : list (Z * string)) (k : Z) : option string :=
  match d with
  | [] => None
  | (k', v) :: t => if (k =? k')%Z then Some v else lookup t k
  end.

(** One box of a YOLO result: [box.cls[0]], [box.conf[0]], [box.xyxy[0]]. *)
Record Box : Type := mkBox {
  cls : pyfloat;
  conf : pyfloat;
  xyxy : pyfloat * pyfloat * pyfloat * pyfloat
}.

(** [result.boxes] of one result *)
Definition Result : Type := list Box.

(** [self.model(frame, verbose=False)] *)
Definition Model : Type := Image -> res (list Result).

Record t : Type := mkDetector {
  model_path : string;
  model : option Model
}.

(** [MLDetector(model_path)]: [yolo] is [None] when [ultralytics] cannot be
    imported; loading the weights may raise. *)
Definition init (yolo : option (string -> res Model)) (model_path : string) : t :=
  {| model_path := model_path;
     model := match yolo with
              | None => None
              | Some load =>
                  match load model_path with
                  | Ok m => Some m
                  | Raise _ => None
                  end
              end |}.

(** The detection dictionary; ["color"] is an optional key. *)
Record Detection : Type := mkDetection {
  vehicle_type : string;
  confidence : pyfloat;
  bounding_box : BBox;
  color : option string
}.

(** The chain of colour tests of [detect_vehicle_color], on the averages. *)
Definition classify_color (r g b : Q) : string :=
  if Qlt_bool 200 r && Qlt_bool 200 g && Qlt_bool 200 b then "white"
  else if Qlt_bool r 50 && Qlt_bool g 50 && Qlt_bool b 50 then "black"
  else if Qlt_bool 150 r && Qlt_bool g 100 && Qlt_bool b 100 then "red"
  else if Qlt_bool r 100 && Qlt_bool 150 g && Qlt_bool b 100 then "green"
  else if Qlt_bool r 100 && Qlt_bool g 100 && Qlt_bool 150 b then "blue"
  else if Qlt_bool 150 r && Qlt_bool 150 g && Qlt_bool b 100 then "yellow"
  else if Qlt_bool 100 r && Qlt_bool 100 g && Qlt_bool 100 b then "gray"
  else "other".

Definition channel_sum (ch : Pixel -> Z) (pixels : list Pixel) : Z :=
  fold_right (fun p acc => (ch p + acc)%Z) 0%Z pixels.

(** [pixels.mean(axis=0)], as exact rationals.  The float64 mean of 8-bit
    values compares with the integer thresholds of [classify_color] as the
    exact mean does, as long as fewer than 2^45 pixels are averaged. *)
Definition mean_color (pixels : list Pixel) : Q * Q * Q :=
  let n := inject_Z (Z.of_nat (List.length pixels)) in
  (inject_Z (channel_sum (fun p => fst (fst p)) pixels) / n,
   inject_Z (channel_sum (fun p => snd (fst p)) pixels) / n,
   inject_Z (channel_sum (fun p => snd p) pixels) / n).

(** [cropped_image[::4, ::4].reshape(-1, 3)] *)
Definition sampled_pixels (cropped_image : Image) : list Pixel :=
  List.concat (map (step_slice 4) (step_slice 4 cropped_image)).

Definition detect_vehicle_color (cropped_image : Image) : string :=
  if (size cropped_image =? 0)%Z then "unknown"
  else
    let avg_color := mean_color (sampled_pixels cropped_image) in
    let '(r, g, b) := avg_color in
    classify_color r g b.

Local Open Scope se_scope.

(** The body of the inner [for box in boxes] loop; the state is the list
    [detections]. *)
Definition process_box (frame : Image) (confidence_threshold : pyfloat)
    (box : Box) : M (list Detection) unit :=
  class_id <- lift (py_int (cls box)) ;;
  let confidence := conf box in
  match lookup VEHICLE_CLASSES class_id with
  | Some vtype =>
      if float_ge confidence confidence_threshold then
        let '(fx1, fy1, fx2, fy2) := xyxy box in
        ix1 <- lift (py_int fx1) ;;
        iy1 <- lift (py_int fy1) ;;
        ix2 <- lift (py_int fx2) ;;
        iy2 <- lift (py_int fy2) ;;
        let bbox := mkBBox ix1 iy1 ix2 iy2 in
        let cropped := crop frame bbox in
        let detection :=
          {| vehicle_type := vtype;
             confidence := confidence;
             bounding_box := bbox;
             color := if (size cropped >? 0)%Z
                      then Some (detect_vehicle_color cropped) else None |} in
        modify (fun detections => (detections ++ [detection])%list)
      else ret tt
  | None => ret tt
  end.

(** The [try] block of [detect_vehicles]. *)
Definition detect_body (m : Model) (frame : Image)
    (confidence_threshold : pyfloat) : M (list Detection) unit :=
  results <- lift (m frame) ;;
  for_each results (fun result =>
    for_each result (process_box frame confidence_threshold)).

Definition detect_vehicles (self : t) (frame : Image)
    (confidence_threshold : pyfloat) : list Detection :=
  match model self with
  | None => []
  | Some m =>
      fst (try_except (detect_body m frame confidence_threshold)
             (fun _ => ret tt) [])
  end.

(** The default [confidence_threshold=0.5]. *)
Definition default_threshold : pyfloat := Fin (1 # 2).

Close Scope se_scope.

End MLDetector.

(* ------------------------------------------------------------------ *)
(** * [app/services/ocr_service.py] *)

Module OCRService.

Local Open Scope string_scope.

(** ** Text and the regular expressions of [validate_plate_format]

    Recognised text is ASCII (the English character set of the recogniser);
    [upper] maps [a-z] to [A-Z] and leaves every other character as it is. *)

Definition in_range (lo hi : nat) (c : ascii) : bool :=
  (lo <=? nat_of_ascii c)%nat && (nat_of_ascii c <=? hi)%nat.

Definition is_lower : ascii -> bool := in_range 97 122.
Definition is_letter : ascii -> bool := in_range 65 90.     (* [A-Z] *)
Definition is_digit : ascii -> bool := in_range 48 57.      (* [0-9] *)
Definition is_alnum (c : ascii) : bool := is_letter c || is_digit c.   (* [A-Z0-9] *)

Definition upper_char (c : ascii) : ascii :=
  if is_lower c then ascii_of_nat (nat_of_ascii c - 32) else c.

(** [text.upper()] *)
Fixpoint upper (s : string) : string :=
  match s with
  | EmptyString => EmptyString
  | String c t => String (upper_char c) (upper t)
  end.

(** [text.replace(c, "")] for a one-character [c] *)
Fixpoint remove_char (c : ascii) (s : string) : string :=
  match s with
  | EmptyString => EmptyString
  | String d t => if Ascii.eqb d c then remove_char c t else String d (remove_char c t)
  end.

(** [re.search(r'[class]', text)] as a boolean *)
Fixpoint search (class : ascii -> bool) (s : string) : bool :=
  match s with
  | EmptyString => false
  | String c t => class c || search class t
  end.

(** An anchored pattern [^ c1{lo1,hi1} ... cn{lon,hin} $]. *)
Definition Pattern : Type := list ((ascii -> bool) * nat * nat).

(** Consume exactly [n] characters of a class. *)
Fixpoint take_class (class : ascii -> bool) (n : nat) (s : string) : option string :=
  match n with
  | O => Some s
  | S n' =>
      match s with
      | String c t => if class c then take_class class n' t else None
      | EmptyString => None
      end
  end.

(** [$] matches at the end of the string and just before a final newline. *)
Definition at_end (s : string) : bool :=
  match s with
  | EmptyString => true
  | String c EmptyString => Ascii.eqb c "010"%char
  | _ => false
  end.

(** [re.match(pattern, text)] as a boolean *)
Fixpoint re_match (p : Pattern) (s : string) : bool :=
  match p with
  | [] => at_end s
  | (class, lo, hi) :: p' =>
      existsb
        (fun n => match take_class class n s with
                  | Some rest => re_match p' rest
                  | None => false
                  end)
        (seq lo (hi - lo + 1))
  end.

(** Common patterns. *)
Definition pattern_letters_digits : Pattern :=      (* ^[A-Z]{2,3}[0-9]{3,4}$ *)
  [ (is_letter, 2, 3)%nat; (is_digit, 3, 4)%nat ].
Definition pattern_digits_letters : Pattern :=      (* ^[0-9]{3}[A-Z]{3}$ *)
  [ (is_digit, 3, 3)%nat; (is_letter, 3, 3)%nat ].
Definition pattern_generic : Pattern :=             (* ^[A-Z0-9]{5,8}$ *)
  [ (is_alnum, 5, 8)%nat ].

Definition patterns : list Pattern :=
  [ pattern_letters_digits; pattern_digits_letters; pattern_generic ].

Definition validate_plate_format (text : string) : bool :=
  if (String.length text <? 2)%nat || (10 <? String.length text)%nat then false
  else if negb (search is_alnum text) then false
  else if negb (search is_digit text) then false
  else if existsb (fun pattern => re_match pattern text) patterns then true
  else
    let has_letter := search is_letter text in
    let has_number := search is_digit text in
    has_letter && has_number.

(** ** The recogniser *)

Definition Point : Type := (pyfloat * pyfloat)%type.

(** One [readtext] result: [(bbox, text, confidence)]. *)
Definition Reading : Type := (list Point * string * pyfloat)%type.

(** An [easyocr.Reader]: [readtext], and [detect] with the result shape the
    service unpacks ([boxes, probs]); [None] stands for a falsy result. *)
Record Reader : Type := mkReader {
  readtext : Image -> res (list Reading);
  detect : Image -> res (option (list (list Point) * list pyfloat))
}.

Record t : Type := mkService {
  languages : list string;
  reader : option Reader
}.

(** [OCRService(languages)]: [easyocr] is [None] when the import fails. *)
Definition init (easyocr : option (list string -> res Reader))
    (languages : option (list string)) : t :=
  let languages := match languages with None => ["en"] | Some l => l end in
  {| languages := languages;
     reader := match easyocr with
               | None => None
               | Some mk =>
                   match mk languages with
                   | Ok r => Some r
                   | Raise _ => None
                   end
               end |}.

Record PlateRegion : Type := mkPlateRegion {
  region_bounding_box : BBox;
  region_confidence : pyfloat
}.

Record PlateResult : Type := mkPlateResult {
  plate_number : string;
  confidence : pyfloat;
  bounding_box : BBox
}.

(** The "convert box format" step of both methods: the integer hull of the
    points, in the coordinates of the image that was read. *)
Definition box_of_points (points : list Point) : res BBox :=
  let x_coords := map fst points in
  let y_coords := map snd points in
  rbind (rbind (py_min x_coords) py_int) (fun bx1 =>
  rbind (rbind (py_min y_coords) py_int) (fun by1 =>
  rbind (rbind (py_max x_coords) py_int) (fun bx2 =>
  rbind (rbind (py_max y_coords) py_int) (fun by2 =>
  Ok (mkBBox bx1 by1 bx2 by2))))).

Local Open Scope se_scope.

(** The [try] block of [detect_license_plate]; the state is [detections]. *)
Definition locate_body (r : Reader) (frame : Image) : M (list PlateRegion) unit :=
  results <- lift (detect r frame) ;;
  match results with
  | None => ret tt
  | Some (boxes, probs) =>
      for_each (combine boxes probs) (fun '(box, prob) =>
        if float_gt prob (Fin (1 # 2)) then
          b <- lift (box_of_points box) ;;
          modify (fun detections =>
            (detections ++ [ {| region_bounding_box := b;
                                region_confidence := prob |} ])%list)
        else ret tt)
  end.

Definition detect_license_plate (self : t) (frame : Image) : list PlateRegion :=
  match reader self with
  | None => []
  | Some r => fst (try_except (locate_body r frame) (fun _ => ret tt) [])
  end.

Close Scope se_scope.

(** [text.upper().replace(" ", "").replace("-", "")] *)
Definition clean_text (text : string) : string :=
  remove_char "-"%char (remove_char " "%char (upper text)).

(** The [try] block of [read_plate_text]. *)
Definition read_body (r : Reader) (plate_image : Image) : res (option PlateResult) :=
  rbind (readtext r plate_image) (fun results =>
  match results with
  | [] => Ok None
  | first :: others =>
      let best_result := max_by (fun x => snd x) first others in
      let '(bbox, text, confidence) := best_result in
      let text := clean_text text in
      if negb (validate_plate_format text) then Ok None
      else
        rbind (box_of_points bbox) (fun b =>
        Ok (Some {| plate_number := text;
                    confidence := confidence;
                    bounding_box := b |}))
  end).

Definition read_plate_text (self : t) (plate_image : Image) : option PlateResult :=
  match reader self with
  | None => None
  | Some r =>
      if (size plate_image =? 0)%Z then None
      else
        match read_body r plate_image with
        | Ok result => result
        | Raise _ => None
        end
  end.

End OCRService.

(* ------------------------------------------------------------------ *)
(** * [app/models]: the rows the task reads and writes *)

Module Models.

Inductive ProcessingStatus : Type := PENDING | PROCESSING | COMPLETED | FAILED.

(** The columns of [incidents] that the task touches. *)
Record Incident : Type := mkIncident {
  incident_id : string;
  video_path : string;
  processing_status : ProcessingStatus
}.

Record DetectedVehicle : Type := mkDetectedVehicle {
  v_detection_id : string;
  v_incident_id : string;
  v_vehicle_type : string;
  v_make : option string;
  v_model : option string;
  v_color : option string;
  v_confidence : pyfloat;
  v_bounding_box : BBox;
  v_frame_timestamp : pyfloat
}.

Record LicensePlate : Type := mkLicensePlate {
  p_plate_id : string;
  p_incident_id : string;
  p_detection_id : option string;
  p_plate_number : string;
  p_confidence : pyfloat;
  p_state_region : option string;
  p_country : option string;
  p_frame_timestamp : pyfloat;
  p_bounding_box : BBox
}.

Inductive Row : Type :=
| VehicleRow (v : DetectedVehicle)
| PlateRow (p : LicensePlate).

Definition row_incident_id (r : Row) : string :=
  match r with
  | VehicleRow v => v_incident_id v
  | PlateRow p => p_incident_id p
  end.

Definition row_frame_timestamp (r : Row) : pyfloat :=
  match r with
  | VehicleRow v => v_frame_timestamp v
  | PlateRow p => p_frame_timestamp p
  end.

Fixpoint vehicles_of (rows : list Row) : list DetectedVehicle :=
  match rows with
  | [] => []
  | VehicleRow v :: t => v :: vehicles_of t
  | PlateRow _ :: t => vehicles_of t
  end.

Fixpoint plates_of (rows : list Row) : list LicensePlate :=
  match rows with
  | [] => []
  | VehicleRow _ :: t => plates_of t
  | PlateRow p :: t => p :: plates_of t
  end.

End Models.

Import Models.

(* ------------------------------------------------------------------ *)
(** * The SQLAlchemy session *)

Module Db.

(** The committed tables. *)
Record Database : Type := mkDatabase {
  incidents : list Incident;
  detected_vehicles : list DetectedVehicle;
  license_plates : list LicensePlate
}.

(** What the session does, in order. *)
Inductive Event : Type :=
| EvStatus (s : ProcessingStatus)   (* incident.processing_status = s *)
| EvAdd (r : Row)                   (* db.add(r) *)
| EvCommit                          (* a db.commit() that succeeded *)
| EvRollback.                       (* a db.commit() that raised *)

(** A session over the database: the uncommitted status assignment of the
    loaded incident, the rows added and not yet committed, the number of
    round trips made so far, the number of UUIDs drawn, and the events.
    The round trips are the queries and the commits of the task; the reload
    of an expired attribute is not counted as one. *)
Record World : Type := mkWorld {
  stored : Database;
  dirty : option (string * ProcessingStatus);
  added : list Row;
  db_calls : nat;
  uuid_calls : nat;
  trace : list Event
}.

(** [db.query(Incident).filter(Incident.incident_id == id).first()] *)
Fixpoint find_incident (id : string) (l : list Incident) : option Incident :=
  match l with
  | [] => None
  | i :: t => if String.eqb (incident_id i) id then Some i else find_incident id t
  end.

(** [UPDATE incidents SET processing_status = s WHERE incident_id = id] *)
Definition update_status (id : string) (s : ProcessingStatus) (l : list Incident)
  : list Incident :=
  map (fun i => if String.eqb (incident_id i) id
                then mkIncident (incident_id i) (video_path i) s else i) l.

(** The flush of a successful commit. *)
Definition flush (w : World) : Database :=
  let d := stored w in
  {| incidents := match dirty w with
                  | Some (id, s) => update_status id s (incidents d)
                  | None => incidents d
                  end;
     detected_vehicles := detected_vehicles d ++ vehicles_of (added w);
     license_plates := license_plates d ++ plates_of (added w) |}.

Definition status_of (id : string) (d : Database) : option ProcessingStatus :=
  option_map processing_status (find_incident id (incidents d)).

(** A session that holds nothing uncommitted. *)
Definition fresh (d : Database) : World :=
  {| stored := d; dirty := None; added := []; db_calls := 0; uuid_calls := 0;
     trace := [] |}.

Section Operations.

(** Whether the [n]-th round trip to the database raises. *)
Variable db_fails : nat -> bool.

Definition query_incident (id : string) : M World (option Incident) :=
  fun w =>
    let w' := mkWorld (stored w) (dirty w) (added w) (S (db_calls w))
                (uuid_calls w) (trace w) in
    if db_fails (db_calls w) then (w', Raise RuntimeError)
    else (w', Ok (find_incident id (incidents (stored w)))).

(** [db.commit()]: a commit that raises rolls the session back. *)
Definition commit : M World unit :=
  fun w =>
    if db_fails (db_calls w) then
      (mkWorld (stored w) None [] (S (db_calls w)) (uuid_calls w)
         (trace w ++ [EvRollback]), Raise RuntimeError)
    else
      (mkWorld (flush w) None [] (S (db_calls w)) (uuid_calls w)
         (trace w ++ [EvCommit]), Ok tt).

End Operations.

(** [incident.processing_status = s] on the incident loaded as [id] *)
Definition set_status (id : string) (s : ProcessingStatus) : M World unit :=
  modify (fun w =>
    mkWorld (stored w) (Some (id, s)) (added w) (db_calls w) (uuid_calls w)
      (trace w ++ [EvStatus s])).

(** [db.add(r)] *)
Definition add (r : Row) : M World unit :=
  modify (fun w =>
    mkWorld (stored w) (dirty w) (added w ++ [r]) (db_calls w) (uuid_calls w)
      (trace w ++ [EvAdd r])).

(** [db.close()] drops whatever is uncommitted. *)
Definition close (w : World) : World :=
  mkWorld (stored w) None [] (db_calls w) (uuid_calls w) (trace w).

(** [str(uuid.uuid4())]: the next identifier of the source [uuid4]. *)
Definition new_uuid (uuid4 : nat -> string) : M World string :=
  fun w =>
    (mkWorld (stored w) (dirty w) (added w) (db_calls w) (S (uuid_calls w))
       (trace w), Ok (uuid4 (uuid_calls w))).

End Db.

Import Db.

(* ------------------------------------------------------------------ *)
(** * [app/tasks/celery_tasks.py] *)

Module Task.

Local Open Scope string_scope.

(** [os.path.dirname] and [os.path.join] (POSIX). *)
Fixpoint drop_while {A} (f : A -> bool) (l : list A) : list A :=
  match l with
  | [] => []
  | x :: t => if f x then drop_while f t else l
  end.

Definition is_sep (c : ascii) : bool := Ascii.eqb c "/"%char.

Definition dirname (p : string) : string :=
  let head_rev := drop_while (fun c => negb (is_sep c)) (rev (list_ascii_of_string p)) in
  if forallb is_sep head_rev then string_of_list_ascii (rev head_rev)
  else string_of_list_ascii (rev (drop_while is_sep head_rev)).

Definition ends_with_sep (p : string) : bool :=
  match rev (list_ascii_of_string p) with
  | c :: _ => is_sep c
  | [] => false
  end.

(** [os.path.join(a, b)] for a relative [b] *)
Definition join (a b : string) : string :=
  if (String.length a =? 0)%nat || ends_with_sep a then a ++ b
  else a ++ "/" ++ b.

(** The three service objects the task builds, as the task uses them: any
    of their methods may raise. *)
Record Services : Type := mkServices {
  extract_frames : string -> Z -> res (list Image);
  generate_thumbnail : string -> string -> res string;
  detect_vehicles : Image -> res (list MLDetector.Detection);
  detect_license_plate : Image -> res (list OCRService.PlateRegion);
  read_plate_text : Image -> res (option OCRService.PlateResult)
}.

(** Everything outside the task: the database's failures, the UUID source
    and the services. *)
Record Env : Type := mkEnv {
  db_fails : nat -> bool;
  uuid4 : nat -> string;
  services : Services
}.

(** [settings] *)
Definition YOLO_MODEL : string := "yolov8n.pt".
Definition OCR_LANGUAGES : string := "en".

(** The services as the repository's classes implement them:
    [VideoProcessor()], [MLDetector(settings.YOLO_MODEL)] and
    [OCRService(languages=[settings.OCR_LANGUAGES])]. *)
Definition repository_services (fs : VideoProcessor.FileSystem)
    (yolo : option (string -> res MLDetector.Model))
    (easyocr : option (list string -> res OCRService.Reader)) : Services :=
  let ml_detector := MLDetector.init yolo YOLO_MODEL in
  let ocr_service := OCRService.init easyocr (Some [OCR_LANGUAGES]) in
  {| extract_frames := VideoProcessor.extract_frames fs;
     generate_thumbnail := fun video_path output_path =>
       VideoProcessor.generate_thumbnail fs video_path output_path 0;
     detect_vehicles := fun frame =>
       Ok (MLDetector.detect_vehicles ml_detector frame MLDetector.default_threshold);
     detect_license_plate := fun frame =>
       Ok (OCRService.detect_license_plate ocr_service frame);
     read_plate_text := fun plate_image =>
       Ok (OCRService.read_plate_text ocr_service plate_image) |}.

Section Run.

Variable env : Env.

Let svc : Services := services env.

Local Open Scope se_scope.

Definition plate_row (plate_id incident_id : string) (detection_id : option string)
    (plate_result : OCRService.PlateResult) (frame_timestamp : pyfloat) : Row :=
  PlateRow
    {| p_plate_id := plate_id;
       p_incident_id := incident_id;
       p_detection_id := detection_id;
       p_plate_number := OCRService.plate_number plate_result;
       p_confidence := OCRService.confidence plate_result;
       p_state_region := None;
       p_country := None;
       p_frame_timestamp := frame_timestamp;
       p_bounding_box := OCRService.bounding_box plate_result |}.

(** Crop a region, run OCR on it when it is not empty, and add the plate
    that was read (lines 86-107 and 117-138). *)
Definition read_and_add (incident_id : string) (detection_id : option string)
    (frame : Image) (frame_timestamp : pyfloat) (bbox : BBox) : M World unit :=
  let region := crop frame bbox in
  when (size region >? 0)%Z
    (plate_result <- lift (read_plate_text svc region) ;;
     match plate_result with
     | Some plate_result =>
         plate_id <- new_uuid (uuid4 env) ;;
         add (plate_row plate_id incident_id detection_id plate_result frame_timestamp)
     | None => ret tt
     end).

Definition vehicle_row (detection_id incident_id : string)
    (detection : MLDetector.Detection) (frame_timestamp : pyfloat) : DetectedVehicle :=
  {| v_detection_id := detection_id;
     v_incident_id := incident_id;
     v_vehicle_type := MLDetector.vehicle_type detection;
     v_make := None;                       (* detection.get("make") *)
     v_model := None;                      (* detection.get("model") *)
     v_color := MLDetector.color detection;
     v_confidence := MLDetector.confidence detection;
     v_bounding_box := MLDetector.bounding_box detection;
     v_frame_timestamp := frame_timestamp |}.

(** The body of [for detection in vehicle_detections]. *)
Definition save_vehicle (incident_id : string) (frame : Image)
    (frame_timestamp : pyfloat) (detection : MLDetector.Detection) : M World unit :=
  detection_id <- new_uuid (uuid4 env) ;;
  let detected_vehicle := vehicle_row detection_id incident_id detection frame_timestamp in
  add (VehicleRow detected_vehicle) ;;
  let bbox := MLDetector.bounding_box detection in
  try_except
    (read_and_add incident_id (Some (v_detection_id detected_vehicle))
       frame frame_timestamp bbox)
    (fun _ => ret tt).

(** General plate detection on the full frame. *)
Definition general_plates (incident_id : string) (frame : Image)
    (frame_timestamp : pyfloat) : M World unit :=
  try_except
    (plate_detections <- lift (detect_license_plate svc frame) ;;
     for_each plate_detections (fun plate_det =>
       read_and_add incident_id None frame frame_timestamp
         (OCRService.region_bounding_box plate_det)))
    (fun _ => ret tt).

(** [float(frame_idx)] *)
Definition timestamp_of (frame_idx : nat) : pyfloat :=
  Fin (inject_Z (Z.of_nat frame_idx)).

(** The body of [for frame_idx, frame in enumerate(frames)]. *)
Definition process_frame (incident_id : string) (indexed : nat * Image) : M World unit :=
  let '(frame_idx, frame) := indexed in
  let frame_timestamp := timestamp_of frame_idx in
  try_except
    (vehicle_detections <- lift (detect_vehicles svc frame) ;;
     for_each vehicle_detections (save_vehicle incident_id frame frame_timestamp) ;;
     general_plates incident_id frame frame_timestamp)
    (fun _ => ret tt).

(** The frame loop (lines 60-144). *)
Definition process_frames (incident_id : string) (frames : list Image) : M World unit :=
  for_each (enumerate frames) (process_frame incident_id).

(** Thumbnail generation (lines 149-158): a failure is swallowed. *)
Definition thumbnail (incident : Incident) : M World unit :=
  try_except
    (let thumbnail_path := join (dirname (video_path incident)) "thumbnail.jpg" in
     _ <- lift (generate_thumbnail svc (video_path incident) thumbnail_path) ;;
     ret tt)
    (fun _ => ret tt).

(** The outer [try] block. *)
Definition task_body (incident_id : string) : M World unit :=
  incident <- query_incident (db_fails env) incident_id ;;
  match incident with
  | None => ret tt
  | Some incident =>
      set_status incident_id PROCESSING ;;
      commit (db_fails env) ;;
      match extract_frames svc (video_path incident) 1 with
      | Raise _ =>
          set_status incident_id FAILED ;;
          commit (db_fails env)
      | Ok frames =>
          process_frames incident_id frames ;;
          commit (db_fails env) ;;
          thumbnail incident ;;
          set_status incident_id COMPLETED ;;
          commit (db_fails env)
      end
  end.

(** The outer [except Exception] block. *)
Definition on_error (incident_id : string) : M World unit :=
  try_except
    (incident <- query_incident (db_fails env) incident_id ;;
     match incident with
     | Some _ =>
         set_status incident_id FAILED ;;
         commit (db_fails env)
     | None => ret tt
     end)
    (fun _ => ret tt).

(** The task: body, outer handler, and [db.close()] in the [finally] block. *)
Definition process_incident_video (incident_id : string) (w : World) : World :=
  close (fst (try_except (task_body incident_id)
                (fun _ => on_error incident_id) w)).

Close Scope se_scope.

End Run.

End Task.

(* ------------------------------------------------------------------ *)
(** * The rows a run adds, as functions of the frame

    Every row draws one UUID just before it is added, so the UUID counter
    advances with the rows.  These functions describe what the frame loop
    adds to the session; [process_frames_run] below proves that the task
    adds exactly these rows. *)

Module Rows.

Section Rows.

Variable env : Task.Env.
Variable incident_id : string.

Let svc : Task.Services := Task.services env.

(** The session after [rows] have been added to it. *)
Definition extend (w : World) (rows : list Row) : World :=
  mkWorld (stored w) (dirty w) (added w ++ rows) (db_calls w)
    (uuid_calls w + List.length rows) (trace w ++ map EvAdd rows).

(** One OCR attempt on a region of the frame, with [n] UUIDs drawn before. *)
Definition plate_attempt (detection_id : option string) (frame : Image)
    (ts : pyfloat) (bbox : BBox) (n : nat) : list Row * res unit :=
  if (size (crop frame bbox) >? 0)%Z then
    match Task.read_plate_text svc (crop frame bbox) with
    | Ok (Some plate_result) =>
        ([Task.plate_row (Task.uuid4 env n) incident_id detection_id plate_result ts],
         Ok tt)
    | Ok None => ([], Ok tt)
    | Raise e => ([], Raise e)
    end
  else ([], Ok tt).

Definition vehicle_rows (frame : Image) (ts : pyfloat) (n : nat)
    (d : MLDetector.Detection) : list Row :=
  VehicleRow (Task.vehicle_row (Task.uuid4 env n) incident_id d ts)
  :: fst (plate_attempt (Some (Task.uuid4 env n)) frame ts
            (MLDetector.bounding_box d) (S n)).

Fixpoint vehicles_rows (frame : Image) (ts : pyfloat) (n : nat)
    (dets : list MLDetector.Detection) : list Row :=
  match dets with
  | [] => []
  | d :: t =>
      let r := vehicle_rows frame ts n d in
      r ++ vehicles_rows frame ts (n + List.length r) t
  end.

Fixpoint regions_rows (frame : Image) (ts : pyfloat) (n : nat)
    (regions : list OCRService.PlateRegion) : list Row :=
  match regions with
  | [] => []
  | region :: t =>
      let attempt :=
        plate_attempt None frame ts (OCRService.region_bounding_box region) n in
      match snd attempt with
      | Ok _ => fst attempt ++ regions_rows frame ts (n + List.length (fst attempt)) t
      | Raise _ => fst attempt
      end
  end.

Definition general_rows (frame : Image) (ts : pyfloat) (n : nat) : list Row :=
  match Task.detect_license_plate svc frame with
  | Ok regions => regions_rows frame ts n regions
  | Raise _ => []
  end.

Definition frame_rows (n : nat) (indexed : nat * Image) : list Row :=
  let '(frame_idx, frame) := indexed in
  let ts := Task.timestamp_of frame_idx in
  match Task.detect_vehicles svc frame with
  | Ok dets =>
      let r := vehicles_rows frame ts n dets in
      r ++ general_rows frame ts (n + List.length r)
  | Raise _ => []
  end.

Fixpoint frames_rows (n : nat) (l : list (nat * Image)) : list Row :=
  match l with
  | [] => []
  | x :: t =>
      let r := frame_rows n x in
      r ++ frames_rows (n + List.length r) t
  end.

End Rows.

End Rows.
(* ------------------------------------------------------------------ *)
(** * Vocabulary of the statements *)

Module Phase.

(** Whether every row is created while the incident is in [PROCESSING]:
    the trace is replayed from the stored status of the incident, with the
    status the session holds and the rows it has not committed yet.  Every
    added row must belong to incident [id] and find both statuses at
    [PROCESSING]; a commit that writes rows must write them with the status
    [PROCESSING]. *)
Fixpoint created_while_processing (id : string)
    (stored session : option ProcessingStatus) (pending : list Row)
    (tr : list Event) : Prop :=
  match tr with
  | [] => True
  | EvStatus s :: tr' => created_while_processing id stored (Some s) pending tr'
  | EvAdd r :: tr' =>
      row_incident_id r = id
      /\ stored = Some PROCESSING /\ session = Some PROCESSING
      /\ created_while_processing id stored session (pending ++ [r]) tr'
  | EvCommit :: tr' =>
      (pending <> [] -> session = Some PROCESSING)
      /\ created_while_processing id session session [] tr'
  | EvRollback :: tr' => created_while_processing id stored stored [] tr'
  end.

(** The stored status of the incident after the events. *)
Fixpoint final_status (stored session : option ProcessingStatus) (tr : list Event)
  : option ProcessingStatus :=
  match tr with
  | [] => stored
  | EvStatus s :: tr' => final_status stored (Some s) tr'
  | EvAdd _ :: tr' => final_status stored session tr'
  | EvCommit :: tr' => final_status session session tr'
  | EvRollback :: tr' => final_status stored stored tr'
  end.


(** The rows that the events add. *)
Fixpoint added_rows (tr : list Event) : list Row :=
  match tr with
  | [] => []
  | EvAdd r :: tr' => r :: added_rows tr'
  | _ :: tr' => added_rows tr'
  end.

End Phase.

Module Provenance.

(** Plate row [p] carries what the plate reader returned for the region
    [bbox] of [frame]: the row stores the reader's text, confidence and
    bounding box as they are. *)
Definition read_from (svc : Task.Services) (frame : Image) (bbox : BBox)
    (p : LicensePlate) : Prop :=
  (size (crop frame bbox) > 0)%Z
  /\ exists plate_result,
       Task.read_plate_text svc (crop frame bbox) = Ok (Some plate_result)
       /\ p_plate_number p = OCRService.plate_number plate_result
       /\ p_confidence p = OCRService.confidence plate_result
       /\ p_bounding_box p = OCRService.bounding_box plate_result.

End Provenance.

(* ------------------------------------------------------------------ *)
(** * Further vocabulary *)

Module Vocabulary.

Local Open Scope string_scope.

(** Two triples of channel averages are equal as rationals. *)
Definition same_averages (a b : Q * Q * Q) : Prop :=
  fst (fst a) == fst (fst b) /\ snd (fst a) == snd (fst b) /\ snd a == snd b.

Definition is_space (c : ascii) : bool := Ascii.eqb c " "%char.
Definition is_hyphen (c : ascii) : bool := Ascii.eqb c "-"%char.

(** [ceil(n / k)] for a positive [k] *)
Definition ceil_div (n k : Z) : Z := ((n + k - 1) / k)%Z.

(** The closed set of vehicle types. *)
Definition vehicle_types : list string := ["car"; "motorcycle"; "bus"; "truck"].

Definition detection_ok (threshold : pyfloat) (d : MLDetector.Detection) : Prop :=
  float_ge (MLDetector.confidence d) threshold = true
  /\ In (MLDetector.vehicle_type d) vehicle_types.

End Vocabulary.

Import Vocabulary.

(* ------------------------------------------------------------------ *)
(** * Concrete runs *)

Module Scenario.

Local Open Scope string_scope.

(** A 4x4 frame of one grey level. *)
Definition frame_of (level : Z) : Image :=
  let p : Pixel := (level, level, level) in
  [ [p; p; p; p]; [p; p; p; p]; [p; p; p; p]; [p; p; p; p] ].

Definition level_of (frame : Image) : Z :=
  match frame with
  | ((level, _, _) :: _) :: _ => level
  | _ => (-1)%Z
  end.

Fixpoint tally (n : nat) : string :=
  match n with
  | O => ""
  | S k => String "i"%char (tally k)
  end.

Definition uuid4 (n : nat) : string := "uuid-" ++ tally n.

Definition incident : Incident := mkIncident "inc-1" "/var/data/videos/inc-1/video.mp4" PENDING.

Definition db : Database := mkDatabase [incident] [] [].

Definition car : MLDetector.Detection :=
  MLDetector.mkDetection "car" (Fin (9 # 10)) (mkBBox 1 1 3 3) (Some "gray").

Definition plate : OCRService.PlateResult :=
  OCRService.mkPlateResult "AB1234" (Fin (8 # 10)) (mkBBox 0 0 2 1).

(** Three frames; the detector raises on the second one. *)
Definition three_frames : list Image := [frame_of 10; frame_of 20; frame_of 30].

Definition flaky_services : Task.Services :=
  {| Task.extract_frames := fun _ _ => Ok three_frames;
     Task.generate_thumbnail := fun _ out => Ok out;
     Task.detect_vehicles := fun frame =>
       if (level_of frame =? 20)%Z then Raise RuntimeError else Ok [car];
     Task.detect_license_plate := fun _ => Ok [];
     Task.read_plate_text := fun _ => Ok None |}.

Definition flaky_env : Task.Env := Task.mkEnv (fun _ => false) uuid4 flaky_services.





(** One frame with one car; the crop of the car and a region found on the
    whole frame both read the same plate. *)
Definition region : OCRService.PlateRegion :=
  OCRService.mkPlateRegion (mkBBox 0 1 4 3) (Fin (7 # 10)).

Definition plate_services : Task.Services :=
  {| Task.extract_frames := fun _ _ => Ok [frame_of 10];
     Task.generate_thumbnail := fun _ out => Ok out;
     Task.detect_vehicles := fun _ => Ok [car];
     Task.detect_license_plate := fun _ => Ok [region];
     Task.read_plate_text := fun _ => Ok (Some plate) |}.

Definition plate_env : Task.Env := Task.mkEnv (fun _ => false) uuid4 plate_services.

(** The engines behind the repository's services: a one-frame video, a YOLO
    model that reports one car at (1,1)-(3,3), and a recogniser that reads
    one text with corners (0,0) and (2,1) on whatever image it is given. *)
Definition one_frame_fs : VideoProcessor.FileSystem :=
  fun _ => VideoProcessor.Opened
             (VideoProcessor.mkCapture 1 [frame_of 10] (fun _ => [frame_of 10])).

Definition car_box : MLDetector.Box :=
  MLDetector.mkBox (Fin 2) (Fin (9 # 10)) (Fin 1, Fin 1, Fin 3, Fin 3).

Definition yolo : option (string -> res MLDetector.Model) :=
  Some (fun _ => Ok (fun _ => Ok [[car_box]])).

Definition reading : OCRService.Reading :=
  ([(Fin 0, Fin 0); (Fin 2, Fin 0); (Fin 2, Fin 1); (Fin 0, Fin 1)], "ab-1234", Fin (8 # 10)).

Definition easyocr : option (list string -> res OCRService.Reader) :=
  Some (fun _ => Ok (OCRService.mkReader (fun _ => Ok [reading]) (fun _ => Ok None))).

Definition repository_env : Task.Env :=
  Task.mkEnv (fun _ => false) uuid4 (Task.repository_services one_frame_fs yolo easyocr).

(** A recogniser that reads an all-digit text. *)
Definition digits_reader : OCRService.Reader :=
  OCRService.mkReader
    (fun _ => Ok [([(Fin 0, Fin 0); (Fin 9, Fin 4)], "12345", Fin (9 # 10))])
    (fun _ => Ok None).

Definition digits_service : OCRService.t := OCRService.mkService ["en"] (Some digits_reader).

(** What the detector returns for [car_box] on a dark frame, and a box of
    the class "person". *)
Definition detected_car : MLDetector.Detection :=
  MLDetector.mkDetection "car" (Fin (9 # 10)) (mkBBox 1 1 3 3) (Some "black").

Definition person_box : MLDetector.Box :=
  MLDetector.mkBox (Fin 0) (Fin (9 # 10)) (Fin 0, Fin 0, Fin 2, Fin 2).

(** A model whose second box has a NaN coordinate. *)
Definition nan_box : MLDetector.Box :=
  MLDetector.mkBox (Fin 2) (Fin (9 # 10)) (NaN, Fin 0, Fin 1, Fin 1).

Definition nan_model : MLDetector.Model := fun _ => Ok [[car_box; nan_box]].

Definition nan_detector : MLDetector.t := MLDetector.mkDetector "yolov8n.pt" (Some nan_model).

(** A 3 fps video of ten frames. *)
Definition ten_frames : list Image := map (fun n => frame_of (Z.of_nat n)) (seq 0 10).

Definition three_fps_fs : VideoProcessor.FileSystem :=
  fun _ => VideoProcessor.Opened (VideoProcessor.mkCapture 3 ten_frames (fun _ => ten_frames)).

End Scenario.

(* ------------------------------------------------------------------ *)
(** * [get_video_info] of [app/services/video_processor.py] *)

Module VideoInfo.
Import VideoProcessor.

(** The properties of an opened capture that [get_video_info] reads besides
    the frame rate, as [video.get] returns them. *)
Record Properties : Type := mkProperties {
  CAP_PROP_FRAME_COUNT : pyfloat;
  CAP_PROP_FRAME_WIDTH : pyfloat;
  CAP_PROP_FRAME_HEIGHT : pyfloat;
  CAP_PROP_FOURCC : pyfloat
}.

(** The dictionary that [get_video_info] returns. *)
Record Info : Type := mkInfo {
  duration : pyfloat;
  width : Z;
  height : Z;
  fps : Q;
  frame_count : Z;
  codec : Z
}.

(** [x / y] for a float [x] and a finite [y], with the exact quotient. *)
Definition float_div (x : pyfloat) (y : Q) : res pyfloat :=
  if Qeq_bool y 0 then Raise ZeroDivisionError
  else Ok match x with
          | Fin a => Fin (a / y)
          | NaN => NaN
          | Inf negative => Inf (if Qlt_bool y 0 then negb negative else negative)
          end.

Definition get_video_info (fs : FileSystem) (properties : Capture -> Properties)
    (video_path : string) : res Info :=
  match fs video_path with
  | Absent => Raise FileNotFoundError
  | Unopenable => Raise ValueError
  | Opened video =>
      let p := properties video in
      rbind (float_div (CAP_PROP_FRAME_COUNT p) (CAP_PROP_FPS video)) (fun duration =>
      rbind (py_int (CAP_PROP_FRAME_WIDTH p)) (fun width =>
      rbind (py_int (CAP_PROP_FRAME_HEIGHT p)) (fun height =>
      rbind (py_int (CAP_PROP_FRAME_COUNT p)) (fun frame_count =>
      rbind (py_int (CAP_PROP_FOURCC p)) (fun codec =>
      Ok {| duration := duration;
            width := width;
            height := height;
            fps := CAP_PROP_FPS video;
            frame_count := frame_count;
            codec := codec |})))))
  end.

End VideoInfo.

(* ------------------------------------------------------------------ *)
(** * Further concrete cases *)

Module Cases.
Local Open Scope string_scope.

(** A recogniser whose most confident reading is a word without digit and
    whose second reading is a plate. *)
Definition word_first_reader : OCRService.Reader :=
  OCRService.mkReader
    (fun _ => Ok [ ([(Fin 0, Fin 0); (Fin 9, Fin 4)], "ab-1234", Fin (8 # 10));
                   ([(Fin 0, Fin 5); (Fin 9, Fin 9)], "taxi", Fin (9 # 10)) ])
    (fun _ => Ok None).

Definition word_first_service : OCRService.t :=
  OCRService.mkService ["en"] (Some word_first_reader).

(** A video whose container reports no frame rate. *)
Definition no_rate_video : VideoProcessor.Capture :=
  VideoProcessor.mkCapture 0 Scenario.three_frames (fun _ => Scenario.three_frames).

Definition no_rate_fs : VideoProcessor.FileSystem :=
  fun _ => VideoProcessor.Opened no_rate_video.

Definition no_rate_properties (video : VideoProcessor.Capture) : VideoInfo.Properties :=
  VideoInfo.mkProperties (Fin 3) (Fin 4) (Fin 4) (Fin 0).

End Cases.

(* ------------------------------------------------------------------ *)
(** * Vocabulary of the further properties *)

Module Extra.
(** [kept] is made of elements of [l], in the order of [l]. *)
Inductive subseq {A : Type} : list A -> list A -> Prop :=
| subseq_nil : subseq [] []
| subseq_skip (x : A) (kept l : list A) : subseq kept l -> subseq kept (x :: l)
| subseq_keep (x : A) (kept l : list A) : subseq kept l -> subseq (x :: kept) (x :: l).

(** The boxes of all results of the model on a frame, in order; none when
    there is no model or the model raises. *)
Definition model_output (self : MLDetector.t) (frame : Image) : list MLDetector.Box :=
  match MLDetector.model self with
  | Some m => match m frame with Ok results => List.concat results | Raise _ => [] end
  | None => []
  end.

Definition finite (x : pyfloat) : bool :=
  match x with Fin _ => true | _ => false end.

(** The class and the four coordinates of a box are finite numbers. *)
Definition finite_box (box : MLDetector.Box) : bool :=
  let '(fx1, fy1, fx2, fy2) := MLDetector.xyxy box in
  finite (MLDetector.cls box) && finite fx1 && finite fy1 && finite fx2 && finite fy2.

(** The box has a vehicle class and a confidence at or above the threshold. *)
Definition qualifies (threshold : pyfloat) (box : MLDetector.Box) : bool :=
  match py_int (MLDetector.cls box) with
  | Ok class_id =>
      match MLDetector.lookup MLDetector.VEHICLE_CLASSES class_id with
      | Some _ => float_ge (MLDetector.conf box) threshold
      | None => false
      end
  | Raise _ => false
  end.

(** The detection [d] is what the detector reports for [box] on [frame]. *)
Definition reported (frame : Image) (box : MLDetector.Box) (d : MLDetector.Detection) : Prop :=
  (exists class_id,
      py_int (MLDetector.cls box) = Ok class_id
      /\ MLDetector.lookup MLDetector.VEHICLE_CLASSES class_id
         = Some (MLDetector.vehicle_type d))
  /\ MLDetector.confidence d = MLDetector.conf box
  /\ (let '(fx1, fy1, fx2, fy2) := MLDetector.xyxy box in
      py_int fx1 = Ok (x1 (MLDetector.bounding_box d))
      /\ py_int fy1 = Ok (y1 (MLDetector.bounding_box d))
      /\ py_int fx2 = Ok (x2 (MLDetector.bounding_box d))
      /\ py_int fy2 = Ok (y2 (MLDetector.bounding_box d)))
  /\ MLDetector.color d
     = (if (size (crop frame (MLDetector.bounding_box d)) >? 0)%Z
        then Some (MLDetector.detect_vehicle_color (crop frame (MLDetector.bounding_box d)))
        else None).


(** The candidate regions with their probabilities that the recogniser's
    detector yields on a frame, paired as [zip] pairs them; none when there
    is no reader, the detector raises or its result is falsy. *)
Definition locator_output (self : OCRService.t) (frame : Image)
  : list (list OCRService.Point * pyfloat) :=
  match OCRService.reader self with
  | Some r =>
      match OCRService.detect r frame with
      | Ok (Some (boxes, probs)) => combine boxes probs
      | _ => []
      end
  | None => []
  end.

(** The region [rg] is what the locator reports for a candidate. *)
Definition located (candidate : list OCRService.Point * pyfloat)
    (rg : OCRService.PlateRegion) : Prop :=
  float_gt (snd candidate) (Fin (1 # 2)) = true
  /\ OCRService.box_of_points (fst candidate) = Ok (OCRService.region_bounding_box rg)
  /\ OCRService.region_confidence rg = snd candidate.

(** [all(class(c) for c in s)] *)
Fixpoint all_chars (class : ascii -> bool) (s : string) : bool :=
  match s with
  | EmptyString => true
  | String c t => class c && all_chars class t
  end.

(** The identifier of a stored row. *)
Definition row_id (r : Row) : string :=
  match r with
  | VehicleRow v => v_detection_id v
  | PlateRow p => p_plate_id p
  end.

(** The detections of the frames whose detection step returned, each with
    the index of its frame, in frame order. *)
Definition detections_of (svc : Task.Services) (frames : list Image)
  : list (nat * MLDetector.Detection) :=
  flat_map (fun indexed : nat * Image =>
              match Task.detect_vehicles svc (snd indexed) with
              | Ok dets => map (pair (fst indexed)) dets
              | Raise _ => []
              end)
           (enumerate frames).

Definition attached (p : LicensePlate) : bool :=
  match p_detection_id p with
  | Some _ => true
  | None => false
  end.

(** The vehicle row [v] holds the detection [snd x] of the frame of index
    [fst x]. *)
Definition is_row_of (incident_id : string) (v : DetectedVehicle)
    (x : nat * MLDetector.Detection) : Prop :=
  exists vid, v = Task.vehicle_row vid incident_id (snd x) (Task.timestamp_of (fst x)).

(** The services [svc] with another thumbnail generator. *)
Definition with_thumbnail (svc : Task.Services)
    (generate_thumbnail : string -> string -> res string) : Task.Services :=
  Task.mkServices (Task.extract_frames svc) generate_thumbnail
    (Task.detect_vehicles svc) (Task.detect_license_plate svc) (Task.read_plate_text svc).

End Extra.

Import Extra.

(* ------------------------------------------------------------------ *)
(** * Properties of the services *)

(* ------------------------------------------------------------------ *)
(** * Colour classification *)

Section Colour.
Import MLDetector.
Open Scope string_scope.


#[local] Instance Qlt_bool_comp : Proper (Qeq ==> Qeq ==> eq) Qlt_bool.
Proof. intros a a' Ha b b' Hb. unfold Qlt_bool. now rewrite Ha, Hb. Qed.

Lemma classify_color_comp (r g b r' g' b' : Q) :
  r == r' -> g == g' -> b == b' -> classify_color r g b = classify_color r' g' b'.
Proof.
  intros Hr Hg Hb. unfold classify_color.
  assert (Lr : forall k, Qlt_bool k r = Qlt_bool k r') by (intros k; now rewrite Hr).
  assert (Rr : forall k, Qlt_bool r k = Qlt_bool r' k) by (intros k; now rewrite Hr).
  assert (Lg : forall k, Qlt_bool k g = Qlt_bool k g') by (intros k; now rewrite Hg).
  assert (Rg : forall k, Qlt_bool g k = Qlt_bool g' k) by (intros k; now rewrite Hg).
  assert (Lb : forall k, Qlt_bool k b = Qlt_bool k b') by (intros k; now rewrite Hb).
  assert (Rb : forall k, Qlt_bool b k = Qlt_bool b' k) by (intros k; now rewrite Hb).
  now rewrite !Lr, !Rr, !Lg, !Rg, !Lb, !Rb.
Qed.

Lemma detect_vehicle_color_averages (img : Image) :
  size img <> 0%Z ->
  detect_vehicle_color img =
    let '(r, g, b) := mean_color (sampled_pixels img) in classify_color r g b.
Proof.
  intros H. unfold detect_vehicle_color.
  destruct (size img =? 0)%Z eqn:E; [apply Z.eqb_eq in E; contradiction|reflexivity].
Qed.

(** C9, as amended.  The colour of a non-empty crop depends on the averages
    of its sampled pixels only, and the chain of tests maps the averages
    (210,215,220) to "white", (10,10,10) to "black", (180,60,50) to "red"
    and (120,120,0) to "other". *)
Theorem color_reference_values :
  (forall img1 img2 : Image,
      size img1 <> 0%Z -> size img2 <> 0%Z ->
      same_averages (mean_color (sampled_pixels img1)) (mean_color (sampled_pixels img2)) ->
      detect_vehicle_color img1 = detect_vehicle_color img2)
  /\ classify_color 210 215 220 = "white"
  /\ classify_color 10 10 10 = "black"
  /\ classify_color 180 60 50 = "red"
  /\ classify_color 120 120 0 = "other".
Proof.
  split; [|repeat split; reflexivity].
  intros img1 img2 H1 H2 (Hr & Hg & Hb).
  rewrite !detect_vehicle_color_averages by assumption.
  destruct (mean_color (sampled_pixels img1)) as [[r g] b].
  destruct (mean_color (sampled_pixels img2)) as [[r' g'] b'].
  simpl in *. now apply classify_color_comp.
Qed.

Lemma color_reference_values_witness :
  detect_vehicle_color [[(200, 100, 0)%Z]]
  = detect_vehicle_color
      [[(190, 90, 0)%Z; (0, 0, 0)%Z; (0, 0, 0)%Z; (0, 0, 0)%Z; (210, 110, 0)%Z]].
Proof.
  apply (proj1 color_reference_values).
  - vm_compute. discriminate.
  - vm_compute. discriminate.
  - repeat split; vm_compute; reflexivity.
Defined.

(** C9, the counterexample: the averages (120,120,0) are not "yellow",
    which needs both the first and the second channel above 150. *)
Lemma yellow_reference_fails :
  classify_color 120 120 0 <> "yellow"
  /\ classify_color 120 120 0 = "other"
  /\ detect_vehicle_color [[(120, 120, 0)%Z]] = "other".
Proof. repeat split. discriminate. Qed.
End Colour.

(* ------------------------------------------------------------------ *)
(** * Plate text *)

Section Plate.
Import OCRService.
Open Scope string_scope.


Lemma upper_char_not_lower (c : ascii) : is_lower (upper_char c) = false.
Proof. destruct c as [[] [] [] [] [] [] [] []]; reflexivity. Qed.

Lemma search_upper_lower (s : string) : search is_lower (upper s) = false.
Proof.
  induction s as [|c s IH]; simpl; [reflexivity|].
  now rewrite upper_char_not_lower, IH.
Qed.

Lemma search_remove_char (f : ascii -> bool) (c : ascii) (s : string) :
  search f s = false -> search f (remove_char c s) = false.
Proof.
  induction s as [|d s IH]; simpl; [reflexivity|].
  intros H. apply orb_false_iff in H as [Hd Hs].
  destruct (Ascii.eqb d c); simpl; [auto|]. now rewrite Hd, IH.
Qed.

Lemma search_removed (c : ascii) (s : string) :
  search (fun d => Ascii.eqb d c) (remove_char c s) = false.
Proof.
  induction s as [|d s IH]; simpl; [reflexivity|].
  destruct (Ascii.eqb d c) eqn:E; simpl; [assumption|]. now rewrite E, IH.
Qed.

Lemma clean_text_shape (text : string) :
  search is_lower (clean_text text) = false
  /\ search is_space (clean_text text) = false
  /\ search is_hyphen (clean_text text) = false.
Proof.
  unfold clean_text. repeat split.
  - do 2 apply search_remove_char. apply search_upper_lower.
  - apply search_remove_char. apply (search_removed " "%char).
  - apply (search_removed "-"%char).
Qed.

Lemma take_class_search (class : ascii -> bool) (n : nat) (s rest : string) :
  take_class class (S n) s = Some rest -> search class s = true.
Proof.
  simpl. destruct s as [|c s]; [discriminate|].
  destruct (class c) eqn:E; [|discriminate]. intros _. simpl. now rewrite E.
Qed.

Lemma take_class_suffix (class f : ascii -> bool) (n : nat) (s rest : string) :
  take_class class n s = Some rest -> search f rest = true -> search f s = true.
Proof.
  revert s. induction n as [|n IH]; simpl; intros s H Hr.
  - now inversion H; subst.
  - destruct s as [|c s]; [discriminate|].
    destruct (class c); [|discriminate].
    simpl. rewrite (IH _ H Hr). apply orb_true_r.
Qed.

Lemma letters_digits_has_letter (s : string) :
  re_match pattern_letters_digits s = true -> search is_letter s = true.
Proof.
  unfold pattern_letters_digits. cbn [re_match existsb seq Nat.sub Nat.add].
  intros H. rewrite !orb_true_iff in H.
  destruct H as [H|[H|H]]; [| |discriminate].
  - destruct (take_class is_letter 2 s) eqn:E; [|discriminate].
    now apply take_class_search in E.
  - destruct (take_class is_letter 3 s) eqn:E; [|discriminate].
    now apply take_class_search in E.
Qed.

Lemma digits_letters_has_letter (s : string) :
  re_match pattern_digits_letters s = true -> search is_letter s = true.
Proof.
  unfold pattern_digits_letters. cbn [re_match existsb seq Nat.sub Nat.add].
  intros H. rewrite !orb_true_iff in H.
  destruct H as [H|H]; [|discriminate].
  destruct (take_class is_digit 3 s) as [rest|] eqn:E; [|discriminate].
  rewrite !orb_true_iff in H. destruct H as [H|H]; [|discriminate].
  destruct (take_class is_letter 3 rest) eqn:E'; [|discriminate].
  apply take_class_search in E'. eapply take_class_suffix; eauto.
Qed.

Lemma validate_plate_format_sound (text : string) :
  validate_plate_format text = true ->
  (2 <= String.length text <= 10)%nat
  /\ search is_digit text = true
  /\ (search is_letter text = true \/ re_match pattern_generic text = true).
Proof.
  unfold validate_plate_format.
  destruct (String.length text <? 2)%nat eqn:E1; [discriminate|].
  destruct (10 <? String.length text)%nat eqn:E2; [discriminate|].
  apply Nat.ltb_ge in E1, E2. cbn [orb].
  destruct (search is_alnum text); [|discriminate]. cbn [negb].
  destruct (search is_digit text) eqn:Ed; [|discriminate]. cbn [negb].
  unfold patterns. cbn [existsb].
  destruct (re_match pattern_letters_digits text) eqn:P1.
  { intros _. repeat split; auto. left. now apply letters_digits_has_letter. }
  destruct (re_match pattern_digits_letters text) eqn:P2.
  { intros _. repeat split; auto. left. now apply digits_letters_has_letter. }
  destruct (re_match pattern_generic text) eqn:P3.
  { intros _. repeat split; auto. }
  cbn [orb]. intros H. apply andb_true_iff in H as [Hl _]. repeat split; auto.
Qed.

Lemma read_plate_text_text (self : OCRService.t) (img : Image) (r : PlateResult) :
  read_plate_text self img = Some r ->
  exists raw, plate_number r = clean_text raw
              /\ validate_plate_format (clean_text raw) = true.
Proof.
  unfold read_plate_text.
  destruct (reader self) as [rd|]; [|discriminate].
  destruct (size img =? 0)%Z; [discriminate|].
  unfold read_body. destruct (readtext rd img) as [results|e]; [|discriminate].
  cbn [rbind]. destruct results as [|first others]; [discriminate|].
  destruct (max_by (fun x => snd x) first others) as [[bbox text] c].
  destruct (validate_plate_format (clean_text text)) eqn:V; cbn [negb]; [|discriminate].
  destruct (box_of_points bbox) as [b|e]; cbn [rbind]; [|discriminate].
  intros H. inversion H; subst. exists text. auto.
Qed.

(** C4, as amended.  Every plate that [read_plate_text] returns has a text
    of 2 to 10 characters, without lower-case letter, space or hyphen, with
    at least one digit, and with at least one letter unless the text matches
    the generic pattern of 5 to 8 letters or digits. *)
Theorem plate_text_postcondition (self : OCRService.t) (img : Image) (r : PlateResult) :
  read_plate_text self img = Some r ->
  (2 <= String.length (plate_number r) <= 10)%nat
  /\ search is_lower (plate_number r) = false
  /\ search is_space (plate_number r) = false
  /\ search is_hyphen (plate_number r) = false
  /\ search is_digit (plate_number r) = true
  /\ (search is_letter (plate_number r) = true
      \/ re_match pattern_generic (plate_number r) = true).
Proof.
  intros H. apply read_plate_text_text in H as (raw & -> & V).
  destruct (clean_text_shape raw) as (L & S & Hy).
  destruct (validate_plate_format_sound _ V) as (Len & D & Lt).
  repeat split; auto; lia.
Qed.

Lemma plate_text_postcondition_witness :
  read_plate_text (OCRService.init Scenario.easyocr None) (Scenario.frame_of 10)
    = Some Scenario.plate
  /\ search is_digit "AB1234" = true
  /\ search is_lower "AB1234" = false.
Proof.
  pose proof (@plate_text_postcondition (OCRService.init Scenario.easyocr None)
                (Scenario.frame_of 10) Scenario.plate eq_refl) as (_ & Hl & _ & _ & Hd & _).
  split; [reflexivity|]. split; [exact Hd|exact Hl].
Defined.

(** C4, the counterexample: the all-digit text "12345" matches the generic
    pattern and is returned as a plate, without any letter. *)
Lemma all_digit_plate_accepted :
  exists r,
    read_plate_text Scenario.digits_service (Scenario.frame_of 10) = Some r
    /\ plate_number r = "12345"
    /\ search is_letter (plate_number r) = false.
Proof. eexists. repeat split. Qed.
End Plate.

(* ------------------------------------------------------------------ *)
(** * Frame sampling *)

Section Sampler.
Import VideoProcessor.


Lemma ceil_div_succ (n k : Z) :
  (0 <= n)%Z -> (0 < k)%Z ->
  ceil_div (n + 1) k = (ceil_div n k + (if (n mod k =? 0)%Z then 1 else 0))%Z.
Proof.
  intros Hn Hk. unfold ceil_div.
  pose proof (Z.div_mod n k ltac:(lia)) as E.
  pose proof (Z.mod_pos_bound n k Hk) as B.
  destruct (n mod k =? 0)%Z eqn:M.
  - apply Z.eqb_eq in M.
    replace (n + 1 + k - 1)%Z with (n mod k + (n / k + 1) * k)%Z by lia.
    replace (n + k - 1)%Z with ((k - 1) + (n / k) * k)%Z by lia.
    rewrite !Z.div_add by lia. rewrite M.
    rewrite Z.div_0_l by lia. rewrite (Z.div_small (k - 1) k) by lia. lia.
  - apply Z.eqb_neq in M.
    replace (n + 1 + k - 1)%Z with (n mod k + (n / k + 1) * k)%Z by lia.
    replace (n + k - 1)%Z with ((n mod k - 1) + (n / k + 1) * k)%Z by lia.
    rewrite !Z.div_add by lia.
    rewrite (Z.div_small (n mod k) k) by lia.
    rewrite (Z.div_small (n mod k - 1) k) by lia. lia.
Qed.

Lemma ceil_div_exact (n k : Z) :
  (0 <= n)%Z -> (0 < k)%Z -> (n mod k = 0)%Z -> (ceil_div n k * k = n)%Z.
Proof.
  intros Hn Hk M. unfold ceil_div.
  pose proof (Z.div_mod n k ltac:(lia)) as E.
  replace (n + k - 1)%Z with ((k - 1) + (n / k) * k)%Z by lia.
  rewrite Z.div_add by lia. rewrite (Z.div_small (k - 1) k) by lia. lia.
Qed.

Lemma read_loop_snoc (k : Z) (rest : list Image) (x : Image) (c : Z) (acc : list Image) :
  k <> 0%Z ->
  read_loop k (rest ++ [x]) c acc =
    rbind (read_loop k rest c acc) (fun frames =>
      Ok (if ((c + Z.of_nat (List.length rest)) mod k =? 0)%Z
          then frames ++ [x] else frames)).
Proof.
  intros Hk. apply Z.eqb_neq in Hk.
  revert c acc. induction rest as [|y rest IH]; intros c acc; simpl.
  - rewrite Hk. now rewrite Z.add_0_r.
  - rewrite Hk. rewrite IH.
    replace (c + 1 + Z.of_nat (List.length rest))%Z
      with (c + Z.pos (Pos.of_succ_nat (List.length rest)))%Z by lia.
    reflexivity.
Qed.

(** Reading a whole stream with a positive interval, from count 0. *)
Lemma read_loop_spec (k : Z) (decoded : list Image) :
  (0 < k)%Z ->
  exists frames,
    read_loop k decoded 0 [] = Ok frames
    /\ Z.of_nat (List.length frames) = ceil_div (Z.of_nat (List.length decoded)) k
    /\ forall j, (j < List.length frames)%nat ->
         nth_error frames j = nth_error decoded (j * Z.to_nat k).
Proof.
  intros Hk. induction decoded as [|x decoded IH] using rev_ind.
  - exists []. simpl. repeat split.
    + unfold ceil_div. simpl. rewrite Z.div_small; lia.
    + intros j Hj. inversion Hj.
  - destruct IH as (frames & Hrun & Hlen & Hnth).
    rewrite read_loop_snoc by lia. rewrite Hrun. cbn [rbind].
    rewrite Z.add_0_l, length_app. cbn [List.length].
    rewrite Nat2Z.inj_add. change (Z.of_nat 1) with 1%Z.
    rewrite ceil_div_succ by lia.
    assert (Hin : forall j, (j < List.length frames)%nat ->
                            (j * Z.to_nat k < List.length decoded)%nat).
    { intros j Hj. apply nth_error_Some. rewrite <- Hnth by assumption.
      now apply nth_error_Some. }
    destruct (Z.of_nat (List.length decoded) mod k =? 0)%Z eqn:M.
    + eexists. split; [reflexivity|]. split.
      * rewrite length_app. cbn [List.length]. lia.
      * intros j Hj. rewrite length_app in Hj. cbn [List.length] in Hj.
        destruct (Nat.eq_dec j (List.length frames)) as [->|Hne].
        -- rewrite nth_error_app2 by lia. rewrite Nat.sub_diag.
           apply Z.eqb_eq in M.
           pose proof (@ceil_div_exact (Z.of_nat (List.length decoded)) k ltac:(lia) Hk M) as Ex.
           assert (List.length frames * Z.to_nat k = List.length decoded)%nat as -> by nia.
           rewrite nth_error_app2 by lia. now rewrite Nat.sub_diag.
        -- assert (j < List.length frames)%nat as Hj' by lia.
           rewrite nth_error_app1 by assumption.
           rewrite nth_error_app1 by (now apply Hin).
           now apply Hnth.
    + exists frames. split; [reflexivity|]. split; [lia|].
      intros j Hj. rewrite nth_error_app1 by (now apply Hin). now apply Hnth.
Qed.

Lemma read_loop_all (decoded : list Image) (c : Z) (acc : list Image) :
  read_loop 1 decoded c acc = Ok (acc ++ decoded).
Proof.
  revert c acc. induction decoded as [|x decoded IH]; intros c acc; simpl.
  - now rewrite app_nil_r.
  - rewrite Z.mod_1_r. simpl. rewrite IH. now rewrite <- app_assoc.
Qed.

Lemma Qtrunc_floor (q : Q) : 0 <= q -> Qtrunc q = Qfloor q.
Proof.
  destruct q as [n d]. unfold Qle, Qtrunc, Qfloor. simpl. intros H.
  apply Z.quot_div_nonneg; lia.
Qed.

Lemma frame_interval_floor (R : Q) (T : Z) :
  (0 < T)%Z -> inject_Z T <= R ->
  frame_interval R T = Ok (Qfloor (R / inject_Z T)) /\ (1 <= Qfloor (R / inject_Z T))%Z.
Proof.
  intros HT HR.
  assert (HT' : 0 < inject_Z T) by (change 0 with (inject_Z 0); rewrite <- Zlt_Qlt; lia).
  assert (H1 : 1 <= R / inject_Z T).
  { apply Qle_shift_div_l; [assumption|]. now rewrite Qmult_1_l. }
  assert (F1 : (1 <= Qfloor (R / inject_Z T))%Z).
  { change 1%Z with (Qfloor 1). now apply Qfloor_resp_le. }
  split; [|assumption].
  unfold frame_interval, Qlt_bool.
  destruct (Qle_bool R (inject_Z T)) eqn:E; cbn [negb].
  - apply Qle_bool_iff in E.
    assert (Heq : R == inject_Z T) by (now apply Qle_antisym).
    assert (Hone : R / inject_Z T == 1).
    { rewrite Heq. apply Qmult_inv_r. intros Hz. rewrite Hz in HT'. discriminate. }
    assert (Hf : Qfloor (R / inject_Z T) = 1%Z) by (now rewrite Hone).
    now rewrite Hf.
  - destruct (T =? 0)%Z eqn:Z0; [apply Z.eqb_eq in Z0; lia|].
    f_equal. apply Qtrunc_floor. apply Qle_trans with 1; [discriminate|assumption].
Qed.

(** C5.  Frame-sampling count and order.  For a video that opens, with
    source rate [R] and [N] decoded frames, and a target rate [T] with
    [0 < T <= R], [extract_frames] returns [ceil (N / floor (R / T))] frames,
    the [j]-th of which is the decoded frame of index [j * floor (R / T)];
    and when [R <= T] it returns every decoded frame. *)
Theorem extract_frames_count_and_order (fs : FileSystem) (video_path : string)
    (video : Capture) (T : Z) :
  fs video_path = Opened video ->
  (0 < T)%Z ->
  (inject_Z T <= CAP_PROP_FPS video ->
     let interval := Qfloor (CAP_PROP_FPS video / inject_Z T) in
     exists frames,
       extract_frames fs video_path T = Ok frames
       /\ Z.of_nat (List.length frames)
          = ceil_div (Z.of_nat (List.length (stream video))) interval
       /\ forall j, (j < List.length frames)%nat ->
            nth_error frames j = nth_error (stream video) (j * Z.to_nat interval))
  /\ (CAP_PROP_FPS video <= inject_Z T ->
      extract_frames fs video_path T = Ok (stream video)).
Proof.
  intros Hfs HT. unfold extract_frames. rewrite Hfs. split.
  - intros HR.
    destruct (frame_interval_floor HT HR) as (Hi & Hpos). rewrite Hi. cbn [rbind].
    apply read_loop_spec. lia.
  - intros HR. unfold frame_interval, Qlt_bool.
    apply Qle_bool_iff in HR. rewrite HR. cbn [negb rbind].
    apply read_loop_all.
Qed.

Lemma extract_frames_count_and_order_witness :
  exists frames,
    extract_frames Scenario.three_fps_fs "video.mp4" 1 = Ok frames
    /\ Z.of_nat (List.length frames) = 4%Z.
Proof.
  destruct (@extract_frames_count_and_order Scenario.three_fps_fs "video.mp4"
              (mkCapture 3 Scenario.ten_frames (fun _ => Scenario.ten_frames)) 1
              eq_refl eq_refl) as (H & _).
  destruct (H ltac:(vm_compute; discriminate)) as (frames & Hrun & Hlen & _).
  exists frames. split; [exact Hrun|exact Hlen].
Defined.
End Sampler.

(* ------------------------------------------------------------------ *)
(** * Loops in the state and exception monad *)

Section MonadFacts.
Context {S A : Type}.

Lemma for_each_invariant (I : S -> Prop) (body : A -> M S unit) (l : list A) :
  (forall x s, In x l -> I s -> I (fst (body x s))) ->
  forall s, I s -> I (fst (for_each l body s)).
Proof.
  induction l as [|x l IH]; intros Hb s Hs; simpl; [assumption|].
  unfold bind. specialize (Hb x s (or_introl eq_refl) Hs) as Hx.
  destruct (body x s) as [s' [[]|e]]; simpl in *; [|assumption].
  apply IH; [|assumption]. intros y t Hy. apply Hb. now right.
Qed.

Lemma for_each_app (body : A -> M S unit) (l1 l2 : list A) (s : S) :
  for_each (l1 ++ l2) body s = bind (for_each l1 body) (fun _ => for_each l2 body) s.
Proof.
  revert s. induction l1 as [|x l1 IH]; intros s; simpl; [reflexivity|].
  unfold bind. destruct (body x s) as [s' [[]|e]]; [|reflexivity].
  rewrite IH. reflexivity.
Qed.

Lemma for_each_concat (body : A -> M S unit) (ls : list (list A)) (s : S) :
  for_each ls (fun l => for_each l body) s = for_each (List.concat ls) body s.
Proof.
  revert s. induction ls as [|l ls IH]; intros s; simpl; [reflexivity|].
  rewrite for_each_app. unfold bind.
  destruct (for_each l body s) as [s' [[]|e]]; [apply IH|reflexivity].
Qed.
End MonadFacts.

(** A handler that swallows the exception keeps the state of the body. *)
Lemma try_except_pass_fst {S A} (body : M S A) (a : A) (s : S) :
  fst (try_except body (fun _ => ret a) s) = fst (body s).
Proof. unfold try_except, ret. now destruct (body s) as [s' [x|e]]. Qed.

Lemma try_except_pass_snd {S} (body : M S unit) (s : S) :
  snd (try_except body (fun _ => ret tt) s) = Ok tt.
Proof. unfold try_except, ret. now destruct (body s) as [s' [[]|e]]. Qed.

Lemma try_except_pass {S} (body : M S unit) (s : S) :
  try_except body (fun _ => ret tt) s = (fst (body s), Ok tt).
Proof.
  rewrite (surjective_pairing (try_except _ _ _)).
  now rewrite try_except_pass_fst, try_except_pass_snd.
Qed.

(* ------------------------------------------------------------------ *)
(** * The vehicle detector *)

Section Detector.
Import MLDetector.
Open Scope string_scope.



Lemma lookup_vehicle_type (c : Z) (v : string) :
  lookup VEHICLE_CLASSES c = Some v -> In v vehicle_types.
Proof.
  unfold VEHICLE_CLASSES, vehicle_types. simpl.
  repeat match goal with
         | |- context [(c =? ?k)%Z] => destruct (c =? k)%Z
         end; intros H; inversion H; subst; simpl; auto.
Qed.

Lemma process_box_ok (frame : Image) (th : pyfloat) (box : Box) (dets : list Detection) :
  Forall (detection_ok th) dets ->
  Forall (detection_ok th) (fst (process_box frame th box dets)).
Proof.
  intros H. unfold process_box, bind, lift, ret, modify.
  destruct (py_int (cls box)) as [c|e]; [|assumption].
  destruct (lookup VEHICLE_CLASSES c) as [v|] eqn:L; [|assumption].
  destruct (float_ge (conf box) th) eqn:G; [|assumption].
  destruct (xyxy box) as [[[fx1 fy1] fx2] fy2].
  destruct (py_int fx1); [|assumption].
  destruct (py_int fy1); [|assumption].
  destruct (py_int fx2); [|assumption].
  destruct (py_int fy2); [|assumption].
  cbn [fst]. apply Forall_app. split; [assumption|].
  constructor; [|constructor]. split; cbn [confidence vehicle_type]; [assumption|].
  eapply lookup_vehicle_type; eauto.
Qed.

Lemma detect_body_ok (m : Model) (frame : Image) (th : pyfloat) (dets : list Detection) :
  Forall (detection_ok th) dets ->
  Forall (detection_ok th) (fst (detect_body m frame th dets)).
Proof.
  intros H. unfold detect_body, bind, lift.
  destruct (m frame) as [results|e]; [|assumption].
  apply for_each_invariant; [|assumption].
  intros result s _ Hs. apply for_each_invariant; [|assumption].
  intros box s' _ Hs'. now apply process_box_ok.
Qed.

(** C7.  Vehicle-detector postcondition.  Every detection returned has a
    confidence at or above the threshold and a type among car, motorcycle,
    bus and truck; a box whose class is not a vehicle class leaves the
    detections as they are and raises nothing. *)
Theorem detect_vehicles_postcondition (self : MLDetector.t) (frame : Image) (th : pyfloat) :
  (forall d, In d (detect_vehicles self frame th) ->
     float_ge (confidence d) th = true /\ In (vehicle_type d) vehicle_types)
  /\ (forall (box : Box) (class_id : Z) (dets : list Detection),
        py_int (cls box) = Ok class_id ->
        ~ In class_id (map fst VEHICLE_CLASSES) ->
        process_box frame th box dets = (dets, Ok tt)).
Proof.
  split.
  - intros d Hd. unfold detect_vehicles in Hd.
    destruct (model self) as [m|]; [|inversion Hd].
    rewrite try_except_pass_fst in Hd.
    pose proof (@detect_body_ok m frame th [] (Forall_nil _)) as H.
    rewrite Forall_forall in H. exact (H d Hd).
  - intros box c dets Hc Hn. unfold process_box, bind, lift. rewrite Hc.
    assert (L : lookup VEHICLE_CLASSES c = None).
    { unfold VEHICLE_CLASSES in *. simpl in *.
      repeat match goal with
             | |- context [(c =? ?k)%Z] =>
                 destruct (Z.eqb_spec c k); [exfalso; apply Hn; subst; auto 6|]
             end. reflexivity. }
    now rewrite L.
Qed.

Lemma process_box_raise (frame : Image) (th : pyfloat) (box : Box) (e : exn) :
  snd (process_box frame th box []) = Raise e ->
  forall dets, process_box frame th box dets = (dets, Raise e).
Proof.
  unfold process_box, bind, lift, ret, modify. intros H dets.
  destruct (py_int (cls box)) as [c|e0]; [|cbn in H; congruence].
  destruct (lookup VEHICLE_CLASSES c) as [v|]; [|discriminate].
  destruct (float_ge (conf box) th); [|discriminate].
  destruct (xyxy box) as [[[fx1 fy1] fx2] fy2].
  destruct (py_int fx1); [|cbn in H; congruence].
  destruct (py_int fy1); [|cbn in H; congruence].
  destruct (py_int fx2); [|cbn in H; congruence].
  destruct (py_int fy2); [|cbn in H; congruence].
  discriminate.
Qed.

Lemma detect_vehicles_postcondition_witness :
  detection_ok default_threshold Scenario.detected_car
  /\ process_box (Scenario.frame_of 10) default_threshold Scenario.person_box []
     = ([], Ok tt).
Proof.
  destruct (detect_vehicles_postcondition Scenario.nan_detector
              (Scenario.frame_of 10) default_threshold) as (Hin & Hout).
  split.
  - apply (Hin Scenario.detected_car). left. reflexivity.
  - apply (Hout Scenario.person_box 0%Z []); [reflexivity|].
    vm_compute. intuition discriminate.
Defined.

(** C8, as amended.  Without a model [detect_vehicles] returns the empty
    list; when inference raises it returns the empty list; when the
    processing of a box raises, it returns the detections of the boxes
    before that one.  No exception leaves the call. *)
Theorem detect_vehicles_degradation (self : MLDetector.t) (frame : Image) (th : pyfloat) :
  (model self = None -> detect_vehicles self frame th = [])
  /\ (forall m e, model self = Some m -> m frame = Raise e ->
        detect_vehicles self frame th = [])
  /\ (forall m results before box after e,
        model self = Some m -> m frame = Ok results ->
        List.concat results = (before ++ box :: after)%list ->
        snd (for_each before (process_box frame th) []) = Ok tt ->
        snd (process_box frame th box []) = Raise e ->
        detect_vehicles self frame th = fst (for_each before (process_box frame th) [])).
Proof.
  unfold detect_vehicles. repeat split.
  - now intros ->.
  - intros m e -> Hm. rewrite try_except_pass_fst.
    unfold detect_body, bind, lift. now rewrite Hm.
  - intros m results before box after e -> Hm Hc Hb He.
    rewrite try_except_pass_fst. unfold detect_body, bind at 1, lift. rewrite Hm.
    cbv beta iota.
    rewrite (for_each_concat (process_box frame th) results), Hc, for_each_app. unfold bind.
    destruct (for_each before (process_box frame th) []) as [s [[]|e']];
      [|discriminate].
    cbn [for_each]. unfold bind. now rewrite (process_box_raise _ _ _ He).
Qed.

Lemma detect_vehicles_degradation_witness :
  detect_vehicles Scenario.nan_detector (Scenario.frame_of 10) default_threshold
  = fst (for_each [Scenario.car_box] (process_box (Scenario.frame_of 10) default_threshold) []).
Proof.
  destruct (detect_vehicles_degradation Scenario.nan_detector (Scenario.frame_of 10)
              default_threshold) as (_ & _ & H).
  exact (H Scenario.nan_model [[Scenario.car_box; Scenario.nan_box]]
           [Scenario.car_box] Scenario.nan_box [] ValueError
           eq_refl eq_refl eq_refl eq_refl eq_refl).
Defined.

(** C8, the counterexample: the second box of the model's result has a NaN
    coordinate; its processing raises [ValueError], and the call returns the
    detection of the first box, not the empty list. *)
Lemma partial_detections_survive :
  let frame := Scenario.frame_of 10 in
  snd (detect_body Scenario.nan_model frame default_threshold
         []) = Raise ValueError
  /\ List.length (detect_vehicles Scenario.nan_detector frame default_threshold) = 1%nat
  /\ detect_vehicles Scenario.nan_detector frame default_threshold <> [].
Proof. repeat split. discriminate. Qed.
End Detector.

(* ------------------------------------------------------------------ *)
(** * The frame loop adds the rows of [Rows.frames_rows] *)

Section Refinement.
Import Rows.
Local Open Scope nat_scope.
Variable env : Task.Env.
Variable incident_id : string.

Lemma extend_nil (w : World) : extend w [] = w.
Proof.
  destruct w. unfold extend. cbn. now rewrite !app_nil_r, Nat.add_0_r.
Qed.

Lemma extend_extend (w : World) (r1 r2 : list Row) :
  extend (extend w r1) r2 = extend w (r1 ++ r2).
Proof.
  unfold extend. cbn. now rewrite <- !app_assoc, length_app, map_app, Nat.add_assoc.
Qed.

Lemma read_and_add_run (detection_id : option string) (frame : Image) (ts : pyfloat)
    (bbox : BBox) (w : World) :
  Task.read_and_add env incident_id detection_id frame ts bbox w =
    (extend w (fst (plate_attempt env incident_id detection_id frame ts bbox (uuid_calls w))),
     snd (plate_attempt env incident_id detection_id frame ts bbox (uuid_calls w))).
Proof.
  unfold Task.read_and_add, plate_attempt, when.
  destruct (size (crop frame bbox) >? 0)%Z; cbn [fst snd].
  - unfold bind, lift.
    destruct (Task.read_plate_text (Task.services env) (crop frame bbox)) as [[pr|]|e];
      cbn [fst snd]; unfold ret; rewrite ?extend_nil; try reflexivity.
    unfold new_uuid, add, modify, extend. cbn. now rewrite Nat.add_1_r.
  - unfold ret. now rewrite extend_nil.
Qed.

Lemma save_vehicle_run (frame : Image) (ts : pyfloat) (d : MLDetector.Detection) (w : World) :
  Task.save_vehicle env incident_id frame ts d w =
    (extend w (vehicle_rows env incident_id frame ts (uuid_calls w) d), Ok tt).
Proof.
  unfold Task.save_vehicle, vehicle_rows.
  unfold bind at 1. unfold new_uuid at 1. cbv beta iota.
  unfold bind at 1. unfold add at 1, modify. cbv beta iota.
  unfold try_except. rewrite read_and_add_run. cbn [uuid_calls Task.vehicle_row v_detection_id].
  set (a := plate_attempt _ _ _ _ _ _ _).
  assert (E : forall rows,
             extend (mkWorld (stored w) (dirty w)
                       (added w ++ [VehicleRow (Task.vehicle_row (Task.uuid4 env (uuid_calls w)) incident_id d ts)])
                       (db_calls w) (S (uuid_calls w))
                       (trace w ++ [EvAdd (VehicleRow (Task.vehicle_row (Task.uuid4 env (uuid_calls w)) incident_id d ts))]))
               rows
             = extend w (VehicleRow (Task.vehicle_row (Task.uuid4 env (uuid_calls w)) incident_id d ts) :: rows)).
  { intros rows. unfold extend. cbn.
    rewrite <- !app_assoc. cbn. now rewrite Nat.add_succ_r. }
  unfold Task.vehicle_row in *. cbn [v_detection_id] in *.
  destruct (snd a) as [[]|]; unfold ret; now rewrite E.
Qed.

Lemma vehicles_loop_run (frame : Image) (ts : pyfloat) (dets : list MLDetector.Detection)
    (w : World) :
  for_each dets (Task.save_vehicle env incident_id frame ts) w =
    (extend w (vehicles_rows env incident_id frame ts (uuid_calls w) dets), Ok tt).
Proof.
  revert w. induction dets as [|d dets IH]; intros w; cbn [for_each vehicles_rows].
  - unfold ret. now rewrite extend_nil.
  - unfold bind. rewrite save_vehicle_run, IH, extend_extend. reflexivity.
Qed.

Lemma regions_loop_run (frame : Image) (ts : pyfloat)
    (regions : list OCRService.PlateRegion) (w : World) :
  fst (for_each regions
         (fun plate_det =>
            Task.read_and_add env incident_id None frame ts
              (OCRService.region_bounding_box plate_det)) w) =
    extend w (regions_rows env incident_id frame ts (uuid_calls w) regions).
Proof.
  revert w. induction regions as [|rg regions IH]; intros w; cbn [for_each regions_rows].
  - unfold ret. cbn [fst]. now rewrite extend_nil.
  - unfold bind. rewrite read_and_add_run.
    destruct (snd (plate_attempt env incident_id None frame ts
                     (OCRService.region_bounding_box rg) (uuid_calls w))) as [[]|e].
    + rewrite IH, extend_extend. reflexivity.
    + reflexivity.
Qed.

Lemma general_plates_run (frame : Image) (ts : pyfloat) (w : World) :
  Task.general_plates env incident_id frame ts w =
    (extend w (general_rows env incident_id frame ts (uuid_calls w)), Ok tt).
Proof.
  unfold Task.general_plates, general_rows. rewrite try_except_pass. f_equal.
  unfold bind, lift.
  destruct (Task.detect_license_plate (Task.services env) frame) as [regions|e].
  - apply regions_loop_run.
  - cbn [fst]. now rewrite extend_nil.
Qed.

Lemma process_frame_run (indexed : nat * Image) (w : World) :
  Task.process_frame env incident_id indexed w =
    (extend w (frame_rows env incident_id (uuid_calls w) indexed), Ok tt).
Proof.
  destruct indexed as [frame_idx frame].
  unfold Task.process_frame, frame_rows. rewrite try_except_pass. f_equal.
  unfold bind at 1, lift.
  destruct (Task.detect_vehicles (Task.services env) frame) as [dets|e].
  - unfold bind. rewrite vehicles_loop_run, general_plates_run, extend_extend.
    reflexivity.
  - cbn [fst]. now rewrite extend_nil.
Qed.

Lemma process_frames_run (frames : list Image) (w : World) :
  Task.process_frames env incident_id frames w =
    (extend w (frames_rows env incident_id (uuid_calls w) (enumerate frames)), Ok tt).
Proof.
  unfold Task.process_frames, enumerate. generalize 0 as i.
  revert w. induction frames as [|frame frames IH]; intros w i;
    cbn [enumerate_from for_each frames_rows].
  - unfold ret. now rewrite extend_nil.
  - unfold bind. rewrite process_frame_run, IH, extend_extend. reflexivity.
Qed.
End Refinement.

(* ------------------------------------------------------------------ *)
(** * Membership in the rows of a loop *)

Section RowsFacts.
Import Rows.
Local Open Scope nat_scope.
Variable env : Task.Env.
Variable incident_id : string.

Let svc : Task.Services := Task.services env.

Lemma plate_attempt_in (did : option string) (frame : Image) (ts : pyfloat)
    (bbox : BBox) (n : nat) (r : Row) :
  In r (fst (plate_attempt env incident_id did frame ts bbox n)) ->
  (size (crop frame bbox) > 0)%Z
  /\ exists pr, Task.read_plate_text svc (crop frame bbox) = Ok (Some pr)
                /\ r = Task.plate_row (Task.uuid4 env n) incident_id did pr ts.
Proof.
  unfold plate_attempt. fold svc.
  destruct (size (crop frame bbox) >? 0)%Z eqn:E; [|intros []].
  apply Z.gtb_lt in E.
  destruct (Task.read_plate_text svc (crop frame bbox)) as [[pr|]|e]; cbn [fst];
    [|intros []|intros []].
  intros [<-|[]]. split; [lia|]. now exists pr.
Qed.

Lemma plate_attempt_hit (did : option string) (frame : Image) (ts : pyfloat)
    (bbox : BBox) (n : nat) (pr : OCRService.PlateResult) :
  (size (crop frame bbox) > 0)%Z ->
  Task.read_plate_text svc (crop frame bbox) = Ok (Some pr) ->
  plate_attempt env incident_id did frame ts bbox n =
    ([Task.plate_row (Task.uuid4 env n) incident_id did pr ts], Ok tt).
Proof.
  intros Hs Hr. unfold plate_attempt. fold svc. rewrite Hr.
  destruct (size (crop frame bbox) >? 0)%Z eqn:E; [reflexivity|].
  rewrite Z.gtb_ltb in E. apply Z.ltb_ge in E. lia.
Qed.

Lemma plate_attempt_no_raise (did : option string) (frame : Image) (ts : pyfloat)
    (bbox : BBox) (n : nat) :
  ((size (crop frame bbox) > 0)%Z ->
   is_raise (Task.read_plate_text svc (crop frame bbox)) = false) ->
  snd (plate_attempt env incident_id did frame ts bbox n) = Ok tt.
Proof.
  intros H. unfold plate_attempt. fold svc.
  destruct (size (crop frame bbox) >? 0)%Z eqn:E; [|reflexivity].
  apply Z.gtb_lt in E. specialize (H ltac:(lia)).
  destruct (Task.read_plate_text svc (crop frame bbox)) as [[pr|]|e];
    [reflexivity|reflexivity|discriminate].
Qed.

Lemma vehicles_rows_in (frame : Image) (ts : pyfloat) (dets : list MLDetector.Detection)
    (n : nat) (r : Row) :
  In r (vehicles_rows env incident_id frame ts n dets) ->
  exists n' d,
    In d dets
    /\ In r (vehicle_rows env incident_id frame ts n' d)
    /\ incl (vehicle_rows env incident_id frame ts n' d)
         (vehicles_rows env incident_id frame ts n dets).
Proof.
  revert n. induction dets as [|d dets IH]; intros n; cbn [vehicles_rows]; [intros []|].
  intros H. apply in_app_or in H as [H|H].
  - exists n, d. repeat split; [now left|assumption|apply incl_appl, incl_refl].
  - destruct (IH _ H) as (n' & d' & Hd & Hr & Hi). exists n', d'.
    repeat split; [now right|assumption|now apply incl_appr].
Qed.

Lemma vehicles_rows_incl (frame : Image) (ts : pyfloat) (dets : list MLDetector.Detection)
    (n : nat) (d : MLDetector.Detection) :
  In d dets ->
  exists n', incl (vehicle_rows env incident_id frame ts n' d)
               (vehicles_rows env incident_id frame ts n dets).
Proof.
  revert n. induction dets as [|d' dets IH]; intros n; [intros []|].
  cbn [vehicles_rows]. intros [->|H].
  - exists n. apply incl_appl, incl_refl.
  - destruct (IH (n + List.length (vehicle_rows env incident_id frame ts n d')) H) as (n' & Hin).
    exists n'. now apply incl_appr.
Qed.

Lemma regions_rows_in (frame : Image) (ts : pyfloat)
    (regions : list OCRService.PlateRegion) (n : nat) (r : Row) :
  In r (regions_rows env incident_id frame ts n regions) ->
  exists n' rg,
    In rg regions
    /\ In r (fst (plate_attempt env incident_id None frame ts
                    (OCRService.region_bounding_box rg) n')).
Proof.
  revert n. induction regions as [|rg regions IH]; intros n; cbn [regions_rows];
    [intros []|].
  intros H.
  assert (Hcase : In r (fst (plate_attempt env incident_id None frame ts
                               (OCRService.region_bounding_box rg) n))
                  \/ In r (regions_rows env incident_id frame ts
                             (n + List.length (fst (plate_attempt env incident_id None frame ts
                                                      (OCRService.region_bounding_box rg) n)))
                             regions)).
  { destruct (snd (plate_attempt env incident_id None frame ts
                     (OCRService.region_bounding_box rg) n));
      [now apply in_app_or|now left]. }
  destruct Hcase as [H'|H'].
  - exists n, rg. split; [now left|assumption].
  - destruct (IH _ H') as (n' & rg' & Hd & Hr). exists n', rg'. split; [now right|assumption].
Qed.

Lemma regions_rows_incl (frame : Image) (ts : pyfloat)
    (regions : list OCRService.PlateRegion) (n : nat) (rg : OCRService.PlateRegion) :
  (forall rg', In rg' regions ->
     (size (crop frame (OCRService.region_bounding_box rg')) > 0)%Z ->
     is_raise (Task.read_plate_text svc (crop frame (OCRService.region_bounding_box rg')))
       = false) ->
  In rg regions ->
  exists n', incl (fst (plate_attempt env incident_id None frame ts
                          (OCRService.region_bounding_box rg) n'))
               (regions_rows env incident_id frame ts n regions).
Proof.
  revert n. induction regions as [|rg' regions IH]; intros n Hok; [intros []|].
  cbn [regions_rows].
  rewrite (@plate_attempt_no_raise None frame ts (OCRService.region_bounding_box rg') n)
    by (apply Hok; now left).
  intros [->|H].
  - exists n. apply incl_appl, incl_refl.
  - destruct (IH (n + List.length (fst (plate_attempt env incident_id None frame ts
                                          (OCRService.region_bounding_box rg') n)))
                (fun r Hr => Hok r (or_intror Hr)) H) as (n' & Hin).
    exists n'. now apply incl_appr.
Qed.

Lemma frames_rows_in (l : list (nat * Image)) (n : nat) (r : Row) :
  In r (frames_rows env incident_id n l) ->
  exists n' x,
    In x l
    /\ In r (frame_rows env incident_id n' x)
    /\ incl (frame_rows env incident_id n' x) (frames_rows env incident_id n l).
Proof.
  revert n. induction l as [|x l IH]; intros n; cbn [frames_rows]; [intros []|].
  intros H. apply in_app_or in H as [H|H].
  - exists n, x. repeat split; [now left|assumption|apply incl_appl, incl_refl].
  - destruct (IH _ H) as (n' & x' & Hx & Hr & Hi). exists n', x'.
    repeat split; [now right|assumption|now apply incl_appr].
Qed.

Lemma frames_rows_incl (l : list (nat * Image)) (n : nat) (x : nat * Image) :
  In x l ->
  exists n', incl (frame_rows env incident_id n' x) (frames_rows env incident_id n l).
Proof.
  revert n. induction l as [|x' l IH]; intros n; [intros []|].
  cbn [frames_rows]. intros [->|H].
  - exists n. apply incl_appl, incl_refl.
  - destruct (IH (n + List.length (frame_rows env incident_id n x')) H) as (n' & Hin).
    exists n'. now apply incl_appr.
Qed.

Lemma enumerate_from_in {A} (l : list A) (i j : nat) (x : A) :
  In (j, x) (enumerate_from i l) <-> i <= j /\ nth_error l (j - i) = Some x.
Proof.
  revert i. induction l as [|y l IH]; intros i; cbn [enumerate_from].
  - split; [intros []|]. intros [_ H]. now destruct (j - i).
  - split.
    + intros [H|H].
      * inversion H; subst. rewrite Nat.sub_diag. auto.
      * apply IH in H as [Hle Hn]. split; [lia|].
        replace (j - i) with (S (j - S i)) by lia. assumption.
    + intros [Hle Hn]. destruct (Nat.eq_dec i j) as [->|Hne].
      * rewrite Nat.sub_diag in Hn. inversion Hn. now left.
      * right. apply IH. split; [lia|].
        replace (j - i) with (S (j - S i)) in Hn by lia. assumption.
Qed.

Lemma enumerate_in {A} (l : list A) (j : nat) (x : A) :
  In (j, x) (enumerate l) <-> nth_error l j = Some x.
Proof.
  unfold enumerate. rewrite enumerate_from_in, Nat.sub_0_r.
  split; [now intros [_ H]|]. intros H. split; [lia|assumption].
Qed.
End RowsFacts.

(* ------------------------------------------------------------------ *)
(** * Where the rows of a run come from *)

Section FrameFacts.
Import Rows Provenance.
Local Open Scope nat_scope.
Variable env : Task.Env.
Variable incident_id : string.

Let svc : Task.Services := Task.services env.

Lemma in_vehicles_of (v : DetectedVehicle) (rows : list Row) :
  In v (vehicles_of rows) <-> In (VehicleRow v) rows.
Proof.
  induction rows as [|[v'|p'] rows IH]; cbn; [tauto| |].
  - rewrite IH. split; intros [H|H]; auto; left; congruence.
  - rewrite IH. split; [auto|]. intros [H|H]; [discriminate|assumption].
Qed.

Lemma in_plates_of (p : LicensePlate) (rows : list Row) :
  In p (plates_of rows) <-> In (PlateRow p) rows.
Proof.
  induction rows as [|[v'|p'] rows IH]; cbn; [tauto| |].
  - rewrite IH. split; [auto|]. intros [H|H]; [discriminate|assumption].
  - rewrite IH. split; intros [H|H]; auto; left; congruence.
Qed.

(** Where a row of one frame comes from. *)
Lemma frame_rows_in (n i : nat) (frame : Image) (r : Row) :
  In r (frame_rows env incident_id n (i, frame)) ->
  exists dets,
    Task.detect_vehicles svc frame = Ok dets
    /\ ((exists n' d,
           In d dets
           /\ In r (vehicle_rows env incident_id frame (Task.timestamp_of i) n' d)
           /\ incl (vehicle_rows env incident_id frame (Task.timestamp_of i) n' d)
                (frame_rows env incident_id n (i, frame)))
        \/ (exists regions n' rg,
              Task.detect_license_plate svc frame = Ok regions
              /\ In rg regions
              /\ In r (fst (plate_attempt env incident_id None frame
                              (Task.timestamp_of i)
                              (OCRService.region_bounding_box rg) n')))).
Proof.
  unfold frame_rows. fold svc.
  destruct (Task.detect_vehicles svc frame) as [dets|e]; [|intros []].
  intros H. exists dets. split; [reflexivity|].
  apply in_app_or in H as [H|H].
  - left. apply vehicles_rows_in in H as (n' & d & Hd & Hr & Hi).
    exists n', d. repeat split; [assumption|assumption|now apply incl_appl].
  - right. unfold general_rows in H. fold svc in H.
    destruct (Task.detect_license_plate svc frame) as [regions|e]; [|destruct H].
    apply regions_rows_in in H as (n' & rg & Hrg & Hr).
    now exists regions, n', rg.
Qed.

Lemma frame_rows_vehicles (n i : nat) (frame : Image)
    (dets : list MLDetector.Detection) (d : MLDetector.Detection) :
  Task.detect_vehicles svc frame = Ok dets -> In d dets ->
  exists n', incl (vehicle_rows env incident_id frame (Task.timestamp_of i) n' d)
               (frame_rows env incident_id n (i, frame)).
Proof.
  intros Hd Hin. unfold frame_rows. fold svc. rewrite Hd.
  destruct (@vehicles_rows_incl env incident_id frame (Task.timestamp_of i) dets n d Hin)
    as (n' & Hincl).
  exists n'. now apply incl_appl.
Qed.

Lemma frame_rows_regions (n i : nat) (frame : Image)
    (dets : list MLDetector.Detection) (regions : list OCRService.PlateRegion)
    (rg : OCRService.PlateRegion) :
  Task.detect_vehicles svc frame = Ok dets ->
  Task.detect_license_plate svc frame = Ok regions ->
  (forall rg', In rg' regions ->
     (size (crop frame (OCRService.region_bounding_box rg')) > 0)%Z ->
     is_raise (Task.read_plate_text svc (crop frame (OCRService.region_bounding_box rg')))
       = false) ->
  In rg regions ->
  exists n', incl (fst (plate_attempt env incident_id None frame (Task.timestamp_of i)
                          (OCRService.region_bounding_box rg) n'))
               (frame_rows env incident_id n (i, frame)).
Proof.
  intros Hd Hl Hok Hin. unfold frame_rows, general_rows. fold svc. rewrite Hd, Hl.
  destruct (@regions_rows_incl env incident_id frame (Task.timestamp_of i) regions
              (n + List.length (vehicles_rows env incident_id frame (Task.timestamp_of i) n dets))
              rg Hok Hin) as (n' & Hincl).
  exists n'. now apply incl_appr.
Qed.

Variable frames : list Image.
Variable start : nat.

Let rows : list Row := frames_rows env incident_id start (enumerate frames).

(** Every row belongs to the incident and to a frame whose detection step
    returned. *)
Lemma rows_basic (r : Row) :
  In r rows ->
  row_incident_id r = incident_id
  /\ exists i frame,
       nth_error frames i = Some frame
       /\ row_frame_timestamp r = Task.timestamp_of i
       /\ is_raise (Task.detect_vehicles svc frame) = false.
Proof.
  intros H. apply frames_rows_in in H as (n & [i frame] & Hx & Hr & _).
  apply enumerate_in in Hx.
  apply frame_rows_in in Hr as (dets & Hd & Hr). fold svc in Hd.
  assert (Hok : is_raise (Task.detect_vehicles svc frame) = false) by now rewrite Hd.
  destruct Hr as [(n' & d & _ & Hr & _)|(regions & n' & rg & _ & _ & Hr)].
  - destruct Hr as [<-|Hr].
    + split; [reflexivity|]. now exists i, frame.
    + apply plate_attempt_in in Hr as (_ & pr & _ & ->).
      split; [reflexivity|]. now exists i, frame.
  - apply plate_attempt_in in Hr as (_ & pr & _ & ->).
    split; [reflexivity|]. now exists i, frame.
Qed.

(** Every plate row was read from the crop of a vehicle row of the same
    frame, whose identifier it carries, or from a region of the whole-frame
    locator, without identifier. *)
Lemma plates_sound (p : LicensePlate) :
  In (PlateRow p) rows ->
  exists i frame,
    nth_error frames i = Some frame
    /\ p_frame_timestamp p = Task.timestamp_of i
    /\ match p_detection_id p with
       | Some vid =>
           exists v, In (VehicleRow v) rows
                     /\ v_detection_id v = vid
                     /\ v_frame_timestamp v = Task.timestamp_of i
                     /\ read_from svc frame (v_bounding_box v) p
       | None =>
           exists regions rg,
             Task.detect_license_plate svc frame = Ok regions
             /\ In rg regions
             /\ read_from svc frame (OCRService.region_bounding_box rg) p
       end.
Proof.
  intros H.
  apply frames_rows_in in H as (n & [i frame] & Hx & Hr & Hincl).
  apply enumerate_in in Hx.
  exists i, frame. split; [assumption|].
  apply frame_rows_in in Hr as (dets & Hd & Hr). fold svc in Hd.
  destruct Hr as [(n' & d & Hin & Hr & Hi)|(regions & n' & rg & Hl & Hin & Hr)].
  - pose proof (Hincl _ (Hi _ (in_eq _ _))) as Hv.
    destruct Hr as [Hr|Hr]; [discriminate|].
    apply plate_attempt_in in Hr as (Hs & pr & Hread & Hp).
    inversion Hp; subst p; cbn. split; [reflexivity|].
    eexists. split; [exact Hv|]. cbn. repeat split; auto.
    exists pr. auto.
  - apply plate_attempt_in in Hr as (Hs & pr & Hread & Hp).
    inversion Hp; subst p; cbn. split; [reflexivity|].
    exists regions, rg. repeat split; auto. exists pr. auto.
Qed.

(** Every detection of a frame whose detection step returned is stored as
    a vehicle row, and a plate read from its crop as a plate row that
    carries the identifier of that vehicle row. *)
Lemma vehicles_complete (i : nat) (frame : Image) (dets : list MLDetector.Detection)
    (d : MLDetector.Detection) :
  nth_error frames i = Some frame ->
  Task.detect_vehicles svc frame = Ok dets ->
  In d dets ->
  exists vid,
    In (VehicleRow (Task.vehicle_row vid incident_id d (Task.timestamp_of i))) rows
    /\ forall pr,
         (size (crop frame (MLDetector.bounding_box d)) > 0)%Z ->
         Task.read_plate_text svc (crop frame (MLDetector.bounding_box d)) = Ok (Some pr) ->
         exists pid,
           In (Task.plate_row pid incident_id (Some vid) pr (Task.timestamp_of i)) rows.
Proof.
  intros Hnth Hd Hin. apply enumerate_in in Hnth.
  destruct (frames_rows_incl env incident_id _ start _ Hnth) as (n0 & Hincl0).
  destruct (@frame_rows_vehicles n0 i frame dets d Hd Hin) as (n1 & Hincl1).
  exists (Task.uuid4 env n1). split.
  - apply Hincl0, Hincl1. now left.
  - intros pr Hs Hr. exists (Task.uuid4 env (S n1)).
    apply Hincl0, Hincl1. right.
    rewrite (@plate_attempt_hit env incident_id _ frame _ _ (S n1) pr Hs Hr). now left.
Qed.

(** A plate read from a region of the whole-frame locator is stored
    without vehicle identifier, when no read of the frame's regions raises. *)
Lemma locator_complete (i : nat) (frame : Image) (dets : list MLDetector.Detection)
    (regions : list OCRService.PlateRegion) (rg : OCRService.PlateRegion)
    (pr : OCRService.PlateResult) :
  nth_error frames i = Some frame ->
  Task.detect_vehicles svc frame = Ok dets ->
  Task.detect_license_plate svc frame = Ok regions ->
  (forall rg', In rg' regions ->
     (size (crop frame (OCRService.region_bounding_box rg')) > 0)%Z ->
     is_raise (Task.read_plate_text svc (crop frame (OCRService.region_bounding_box rg')))
       = false) ->
  In rg regions ->
  (size (crop frame (OCRService.region_bounding_box rg)) > 0)%Z ->
  Task.read_plate_text svc (crop frame (OCRService.region_bounding_box rg)) = Ok (Some pr) ->
  exists pid, In (Task.plate_row pid incident_id None pr (Task.timestamp_of i)) rows.
Proof.
  intros Hnth Hd Hl Hok Hin Hs Hr. apply enumerate_in in Hnth.
  destruct (frames_rows_incl env incident_id _ start _ Hnth) as (n0 & Hincl0).
  destruct (@frame_rows_regions n0 i frame dets regions rg Hd Hl Hok Hin) as (n1 & Hincl1).
  exists (Task.uuid4 env n1). apply Hincl0, Hincl1.
  rewrite (@plate_attempt_hit env incident_id _ frame _ _ n1 pr Hs Hr). now left.
Qed.
End FrameFacts.

(* ------------------------------------------------------------------ *)
(** * Whole runs *)

Section Run.
Import Rows Phase.
Local Open Scope nat_scope.
Variable env : Task.Env.
Variable incident_id : string.

Lemma find_update_status (id : string) (s : ProcessingStatus) (l : list Incident) :
  find_incident id (update_status id s l) =
    option_map (fun i => mkIncident (Models.incident_id i) (video_path i) s)
      (find_incident id l).
Proof.
  induction l as [|i l IH]; cbn; [reflexivity|].
  destruct (String.eqb (Models.incident_id i) id) eqn:E; cbn; rewrite E;
    [reflexivity|assumption].
Qed.

Lemma thumbnail_run (inc : Incident) (w : World) :
  Task.thumbnail env inc w = (w, Ok tt).
Proof.
  unfold Task.thumbnail. rewrite try_except_pass. unfold bind, lift.
  now destruct (Task.generate_thumbnail _ _ _).
Qed.

Lemma added_rows_app (t1 t2 : list Event) :
  added_rows (t1 ++ t2) = added_rows t1 ++ added_rows t2.
Proof.
  induction t1 as [|e t1 IH]; [reflexivity|].
  destruct e; cbn; now rewrite ?IH.
Qed.

Lemma added_rows_map (rows : list Row) : added_rows (map EvAdd rows) = rows.
Proof. induction rows as [|r rows IH]; cbn; [reflexivity|now rewrite IH]. Qed.

Lemma created_adds (id : string) (rows pending : list Row) (tail : list Event) :
  (forall r, In r rows -> row_incident_id r = id) ->
  created_while_processing id (Some PROCESSING) (Some PROCESSING) (pending ++ rows) tail ->
  created_while_processing id (Some PROCESSING) (Some PROCESSING) pending
    (map EvAdd rows ++ tail).
Proof.
  revert pending. induction rows as [|r rows IH]; intros pending Hid Ht; cbn.
  - now rewrite app_nil_r in Ht.
  - repeat split; auto using in_eq.
    apply IH; [intros r' Hr'; apply Hid; now right|].
    now rewrite <- app_assoc.
Qed.

Lemma final_status_adds (stored session : option ProcessingStatus)
    (rows : list Row) (tail : list Event) :
  final_status stored session (map EvAdd rows ++ tail) = final_status stored session tail.
Proof. induction rows as [|r rows IH]; cbn; [reflexivity|assumption]. Qed.

Lemma frames_rows_incident (frames : list Image) (n : nat) (r : Row) :
  In r (frames_rows env incident_id n (enumerate frames)) ->
  row_incident_id r = incident_id.
Proof. intros H. now apply rows_basic in H. Qed.

(** One step of the case analysis of a run: the outcome of the next round
    trip, query or service call. *)
Ltac run_step :=
  match goal with
  | |- context [find_incident _ (update_status _ _ _)] => rewrite find_update_status
  | |- context [Task.db_fails env ?n] => destruct (Task.db_fails env n) eqn:?
  | |- context [find_incident ?i ?l] => destruct (find_incident i l) eqn:?
  | |- context [Task.extract_frames ?s ?p ?f] =>
      destruct (Task.extract_frames s p f) eqn:?
  | |- context [Task.process_frames env ?i ?f ?w] =>
      rewrite (process_frames_run env i f w)
  | |- context [Task.thumbnail env ?i ?w] => rewrite (thumbnail_run i w)
  end;
  cbn [fst snd stored dirty added db_calls uuid_calls trace incidents option_map].

Ltac run_cases :=
  cbv zeta;
  unfold Task.process_incident_video, Task.task_body, Task.on_error, try_except,
    bind, query_incident, commit, set_status, modify, ret, fresh;
  cbn [fst snd stored dirty added db_calls uuid_calls trace incidents];
  repeat run_step;
  unfold close, flush, extend;
  cbn [fst snd stored dirty added db_calls uuid_calls trace incidents
       detected_vehicles license_plates app vehicles_of plates_of];
  rewrite <- ?app_assoc;
  cbn [app].

(** Rows are created only while the incident is in [PROCESSING]. *)
Lemma run_phase (db : Database) :
  created_while_processing incident_id
    (status_of incident_id db) (status_of incident_id db) []
    (trace (Task.process_incident_video env incident_id (fresh db))).
Proof.
  run_cases.
  all: cbn [created_while_processing];
    try (split; [congruence|]);
    try (apply created_adds; [apply frames_rows_incident|]);
    cbn [created_while_processing app];
    repeat split; congruence.
Qed.

(** The statuses replayed from the trace end at the stored status. *)
Lemma run_status (db : Database) :
  let w := Task.process_incident_video env incident_id (fresh db) in
  final_status (status_of incident_id db) (status_of incident_id db) (trace w)
  = status_of incident_id (stored w).
Proof.
  run_cases.
  all: unfold status_of; cbn [incidents]; rewrite ?find_update_status.
  all: repeat match goal with
         | H : find_incident _ _ = _ |- _ => rewrite H
         end.
  all: cbn [final_status option_map processing_status];
    rewrite ?final_status_adds;
    cbn [final_status option_map processing_status]; reflexivity.
Qed.

(** What a run stores: nothing, or the rows of the frame loop. *)
Lemma run_rows (db : Database) :
  let w := Task.process_incident_video env incident_id (fresh db) in
  exists rows,
    detected_vehicles (stored w) = detected_vehicles db ++ vehicles_of rows
    /\ license_plates (stored w) = license_plates db ++ plates_of rows
    /\ incl rows (added_rows (trace w))
    /\ (rows = []
        \/ exists inc frames,
             find_incident incident_id (incidents db) = Some inc
             /\ Task.extract_frames (Task.services env) (video_path inc) 1 = Ok frames
             /\ rows = frames_rows env incident_id 0 (enumerate frames)).
Proof.
  run_cases.
  all: rewrite ?app_nil_r.
  all: first
    [ exists []; cbn [vehicles_of plates_of]; rewrite ?app_nil_r;
      solve [repeat split; auto using incl_nil_l]
    | eexists; split; [reflexivity|]; split; [reflexivity|]; split;
      [ cbn [added_rows]; rewrite added_rows_app, added_rows_map;
        apply incl_appl, incl_refl
      | right; eauto ] ].
Qed.

(** Rows are added only to an incident that exists. *)
Lemma run_adds (db : Database) (r : Row) :
  In r (added_rows (trace (Task.process_incident_video env incident_id (fresh db)))) ->
  row_incident_id r = incident_id
  /\ exists inc, find_incident incident_id (incidents db) = Some inc.
Proof.
  run_cases.
  all: cbn [added_rows]; rewrite ?added_rows_app, ?added_rows_map;
    cbn [added_rows]; rewrite ?app_nil_r; try (intros []).
  all: intros H; split; [now apply frames_rows_incident in H|eauto].
Qed.

(** A run whose round trips all succeed, on a video that decodes. *)
Lemma run_completed (db : Database) (inc : Incident) (frames : list Image) :
  (forall n, Task.db_fails env n = false) ->
  find_incident incident_id (incidents db) = Some inc ->
  Task.extract_frames (Task.services env) (video_path inc) 1 = Ok frames ->
  let rows := frames_rows env incident_id 0 (enumerate frames) in
  Task.process_incident_video env incident_id (fresh db) =
    mkWorld
      (mkDatabase
         (update_status incident_id COMPLETED
            (update_status incident_id PROCESSING (incidents db)))
         (detected_vehicles db ++ vehicles_of rows)
         (license_plates db ++ plates_of rows))
      None [] 4 (List.length rows)
      ([EvStatus PROCESSING; EvCommit] ++ map EvAdd rows
         ++ [EvCommit; EvStatus COMPLETED; EvCommit]).
Proof.
  intros Hdb Hfind Hext rows.
  unfold Task.process_incident_video, try_except, Task.task_body.
  unfold bind at 1. unfold query_incident at 1. rewrite Hdb. cbn [fresh stored incidents].
  rewrite Hfind.
  unfold bind at 1. unfold set_status at 1, modify. cbv beta iota.
  unfold bind at 1. unfold commit at 1. cbn [db_calls]. rewrite Hdb. cbv beta iota.
  rewrite Hext.
  unfold bind at 1. rewrite process_frames_run. cbn [uuid_calls]. fold rows.
  unfold bind at 1. unfold commit at 1. cbn [db_calls extend]. rewrite Hdb. cbv beta iota.
  unfold bind at 1. rewrite thumbnail_run.
  unfold bind at 1. unfold set_status at 1, modify. cbv beta iota.
  unfold commit. cbn [db_calls]. rewrite Hdb.
  unfold close, flush, extend. cbn. rewrite !app_nil_r. rewrite <- !app_assoc. reflexivity.
Qed.

(** A run whose round trips all succeed, on a video that does not decode. *)
Lemma run_failed (db : Database) (inc : Incident) (e : exn) :
  (forall n, Task.db_fails env n = false) ->
  find_incident incident_id (incidents db) = Some inc ->
  Task.extract_frames (Task.services env) (video_path inc) 1 = Raise e ->
  Task.process_incident_video env incident_id (fresh db) =
    mkWorld
      (mkDatabase
         (update_status incident_id FAILED
            (update_status incident_id PROCESSING (incidents db)))
         (detected_vehicles db) (license_plates db))
      None [] 3 0
      [EvStatus PROCESSING; EvCommit; EvStatus FAILED; EvCommit].
Proof.
  intros Hdb Hfind Hext.
  unfold Task.process_incident_video, try_except, Task.task_body.
  unfold bind at 1. unfold query_incident at 1. rewrite Hdb. cbn [fresh stored incidents].
  rewrite Hfind.
  unfold bind at 1. unfold set_status at 1, modify. cbv beta iota.
  unfold bind at 1. unfold commit at 1. cbn [db_calls]. rewrite Hdb. cbv beta iota.
  rewrite Hext.
  unfold bind at 1. unfold set_status at 1, modify. cbv beta iota.
  unfold commit. cbn [db_calls]. rewrite Hdb.
  unfold close, flush. cbn. rewrite !app_nil_r. reflexivity.
Qed.

Lemma status_after_updates (db : Database) (inc : Incident) (s1 s2 : ProcessingStatus)
    (vs : list DetectedVehicle) (ps : list LicensePlate) :
  find_incident incident_id (incidents db) = Some inc ->
  status_of incident_id
    (mkDatabase (update_status incident_id s2 (update_status incident_id s1 (incidents db)))
       vs ps) = Some s2.
Proof.
  intros H. unfold status_of. cbn [incidents].
  now rewrite !find_update_status, H.
Qed.
End Run.

(* ------------------------------------------------------------------ *)
(** * The pipeline: failure isolation and the status state machine *)

Section Pipeline.
Import Rows Phase Provenance.
Local Open Scope nat_scope.

Lemma timestamp_of_inj (i j : nat) : Task.timestamp_of i = Task.timestamp_of j -> i = j.
Proof.
  unfold Task.timestamp_of, inject_Z. intros H. inversion H. lia.
Qed.

(** C1.  Per-frame failure isolation.  In a run whose database round trips
    succeed, on a video that decodes, if the vehicle-detection step raises
    on exactly one frame (index [k]), the final status is [COMPLETED], no
    stored row belongs to frame [k], and every detection of every other
    frame is stored as a vehicle row of that frame. *)
Theorem frame_failure_isolation (env : Task.Env) (incident_id : string) (db : Database)
    (inc : Incident) (frames : list Image) (k : nat) (failing : Image) :
  (forall n, Task.db_fails env n = false) ->
  find_incident incident_id (incidents db) = Some inc ->
  Task.extract_frames (Task.services env) (video_path inc) 1 = Ok frames ->
  nth_error frames k = Some failing ->
  is_raise (Task.detect_vehicles (Task.services env) failing) = true ->
  (forall i frame, i <> k -> nth_error frames i = Some frame ->
     is_raise (Task.detect_vehicles (Task.services env) frame) = false) ->
  let w := Task.process_incident_video env incident_id (fresh db) in
  status_of incident_id (stored w) = Some COMPLETED
  /\ exists rows,
       detected_vehicles (stored w) = detected_vehicles db ++ vehicles_of rows
       /\ license_plates (stored w) = license_plates db ++ plates_of rows
       /\ (forall r, In r rows -> row_frame_timestamp r <> Task.timestamp_of k)
       /\ (forall i frame, i <> k -> nth_error frames i = Some frame ->
             exists dets,
               Task.detect_vehicles (Task.services env) frame = Ok dets
               /\ forall d, In d dets ->
                    exists vid,
                      In (Task.vehicle_row vid incident_id d (Task.timestamp_of i))
                         (vehicles_of rows)).
Proof.
  intros Hdb Hfind Hext Hk Hfail Hothers w. subst w.
  rewrite (run_completed env incident_id db Hdb Hfind Hext). cbn [stored].
  split; [now apply status_after_updates with (inc := inc)|].
  exists (frames_rows env incident_id 0 (enumerate frames)).
  repeat split.
  - intros r Hr Hts. apply rows_basic in Hr as (_ & i & frame & Hnth & Hi & Hok).
    rewrite Hi in Hts. apply timestamp_of_inj in Hts. subst i.
    rewrite Hk in Hnth. inversion Hnth; subst frame. congruence.
  - intros i frame Hne Hnth. specialize (Hothers i frame Hne Hnth).
    destruct (Task.detect_vehicles (Task.services env) frame) as [dets|e] eqn:Hd;
      [|discriminate].
    exists dets. split; [reflexivity|]. intros d Hin.
    destruct (vehicles_complete env incident_id frames 0 i d Hnth Hd Hin) as (vid & Hv & _).
    exists vid. now apply in_vehicles_of.
Qed.

Lemma frame_failure_isolation_witness :
  let w := Task.process_incident_video Scenario.flaky_env "inc-1" (fresh Scenario.db) in
  status_of "inc-1" (stored w) = Some COMPLETED
  /\ List.length (detected_vehicles (stored w)) = 2.
Proof.
  pose proof (@frame_failure_isolation Scenario.flaky_env "inc-1" Scenario.db
                Scenario.incident Scenario.three_frames 1 (Scenario.frame_of 20)
                (fun _ => eq_refl) eq_refl eq_refl eq_refl eq_refl) as H.
  assert (Hothers : forall i frame, i <> 1 ->
            nth_error Scenario.three_frames i = Some frame ->
            is_raise (Task.detect_vehicles (Task.services Scenario.flaky_env) frame) = false).
  { intros [|[|[|[|i]]]] frame Hne Hnth; cbn in Hnth; try congruence;
      inversion Hnth; reflexivity. }
  destruct (H Hothers) as (Hstatus & _).
  split; [exact Hstatus|reflexivity].
Defined.




(** C6.  Status-phase invariant.  In every run, rows are added and
    committed only while the incident is in [PROCESSING], where the statuses
    replayed from the events end at the status that is stored; every stored
    row was added by the run; and every row added belongs to the incident of
    the run, which exists. *)
Theorem rows_created_while_processing (env : Task.Env) (incident_id : string)
    (db : Database) :
  let w := Task.process_incident_video env incident_id (fresh db) in
  created_while_processing incident_id
    (status_of incident_id db) (status_of incident_id db) [] (trace w)
  /\ final_status (status_of incident_id db) (status_of incident_id db) (trace w)
     = status_of incident_id (stored w)
  /\ (exists rows,
        detected_vehicles (stored w) = detected_vehicles db ++ vehicles_of rows
        /\ license_plates (stored w) = license_plates db ++ plates_of rows
        /\ incl rows (added_rows (trace w)))
  /\ (forall r, In r (added_rows (trace w)) ->
        row_incident_id r = incident_id
        /\ exists inc, find_incident incident_id (incidents db) = Some inc).
Proof.
  cbv zeta. split; [apply run_phase|]. split; [apply run_status|]. split.
  - destruct (run_rows env incident_id db) as (rows & Hv & Hp & Hi & _).
    exists rows. auto.
  - intros r. apply run_adds.
Qed.
End Pipeline.

(* ------------------------------------------------------------------ *)
(** * The pipeline: plates and vehicles *)

Section Association.
Import Rows Phase Provenance.
Local Open Scope nat_scope.

(** C3.  Plate-to-vehicle association.  In a run whose database round trips
    succeed, on a video that decodes: a plate read from the crop of a
    vehicle detection is stored with the identifier of that detection's
    vehicle row; a plate read from a region of the whole-frame locator is
    stored without vehicle identifier (when no read of that frame's regions
    raises); every stored plate row is of one of these two kinds; and when
    both paths read the same plate text on one frame, both rows are stored. *)
Theorem plate_vehicle_association (env : Task.Env) (incident_id : string)
    (db : Database) (inc : Incident) (frames : list Image) :
  (forall n, Task.db_fails env n = false) ->
  find_incident incident_id (incidents db) = Some inc ->
  Task.extract_frames (Task.services env) (video_path inc) 1 = Ok frames ->
  let w := Task.process_incident_video env incident_id (fresh db) in
  let svc := Task.services env in
  let regions_read (frame : Image) (regions : list OCRService.PlateRegion) :=
    forall rg, In rg regions ->
      (size (crop frame (OCRService.region_bounding_box rg)) > 0)%Z ->
      is_raise (Task.read_plate_text svc (crop frame (OCRService.region_bounding_box rg)))
        = false in
  exists rows,
    detected_vehicles (stored w) = detected_vehicles db ++ vehicles_of rows
    /\ license_plates (stored w) = license_plates db ++ plates_of rows
    /\ (forall i frame dets d pr,
          nth_error frames i = Some frame ->
          Task.detect_vehicles svc frame = Ok dets -> In d dets ->
          (size (crop frame (MLDetector.bounding_box d)) > 0)%Z ->
          Task.read_plate_text svc (crop frame (MLDetector.bounding_box d)) = Ok (Some pr) ->
          exists vid pid,
            In (VehicleRow (Task.vehicle_row vid incident_id d (Task.timestamp_of i))) rows
            /\ In (Task.plate_row pid incident_id (Some vid) pr (Task.timestamp_of i)) rows)
    /\ (forall i frame dets regions rg pr,
          nth_error frames i = Some frame ->
          Task.detect_vehicles svc frame = Ok dets ->
          Task.detect_license_plate svc frame = Ok regions ->
          regions_read frame regions -> In rg regions ->
          (size (crop frame (OCRService.region_bounding_box rg)) > 0)%Z ->
          Task.read_plate_text svc (crop frame (OCRService.region_bounding_box rg))
            = Ok (Some pr) ->
          exists pid,
            In (Task.plate_row pid incident_id None pr (Task.timestamp_of i)) rows)
    /\ (forall p, In (PlateRow p) rows ->
          exists i frame,
            nth_error frames i = Some frame
            /\ p_frame_timestamp p = Task.timestamp_of i
            /\ match p_detection_id p with
               | Some vid =>
                   exists v, In (VehicleRow v) rows
                             /\ v_detection_id v = vid
                             /\ v_frame_timestamp v = Task.timestamp_of i
                             /\ read_from svc frame (v_bounding_box v) p
               | None =>
                   exists regions rg,
                     Task.detect_license_plate svc frame = Ok regions
                     /\ In rg regions
                     /\ read_from svc frame (OCRService.region_bounding_box rg) p
               end)
    /\ (forall i frame dets d regions rg pr1 pr2,
          nth_error frames i = Some frame ->
          Task.detect_vehicles svc frame = Ok dets -> In d dets ->
          (size (crop frame (MLDetector.bounding_box d)) > 0)%Z ->
          Task.read_plate_text svc (crop frame (MLDetector.bounding_box d)) = Ok (Some pr1) ->
          Task.detect_license_plate svc frame = Ok regions ->
          regions_read frame regions -> In rg regions ->
          (size (crop frame (OCRService.region_bounding_box rg)) > 0)%Z ->
          Task.read_plate_text svc (crop frame (OCRService.region_bounding_box rg))
            = Ok (Some pr2) ->
          OCRService.plate_number pr1 = OCRService.plate_number pr2 ->
          exists p1 p2,
            In (PlateRow p1) rows /\ In (PlateRow p2) rows
            /\ p_detection_id p1 <> None /\ p_detection_id p2 = None
            /\ p_frame_timestamp p1 = p_frame_timestamp p2
            /\ p_plate_number p1 = p_plate_number p2).
Proof.
  intros Hdb Hfind Hext w svc regions_read. subst w.
  rewrite (run_completed env incident_id db Hdb Hfind Hext). cbn [stored].
  exists (frames_rows env incident_id 0 (enumerate frames)).
  split; [reflexivity|]. split; [reflexivity|].
  assert (Hveh : forall i frame dets d pr,
            nth_error frames i = Some frame ->
            Task.detect_vehicles svc frame = Ok dets -> In d dets ->
            (size (crop frame (MLDetector.bounding_box d)) > 0)%Z ->
            Task.read_plate_text svc (crop frame (MLDetector.bounding_box d)) = Ok (Some pr) ->
            exists vid pid,
              In (VehicleRow (Task.vehicle_row vid incident_id d (Task.timestamp_of i)))
                 (frames_rows env incident_id 0 (enumerate frames))
              /\ In (Task.plate_row pid incident_id (Some vid) pr (Task.timestamp_of i))
                   (frames_rows env incident_id 0 (enumerate frames))).
  { intros i frame dets d pr Hnth Hd Hin Hs Hr.
    destruct (vehicles_complete env incident_id frames 0 i d Hnth Hd Hin) as (vid & Hv & Hp).
    destruct (Hp pr Hs Hr) as (pid & Hpid). now exists vid, pid. }
  assert (Hloc : forall i frame dets regions rg pr,
            nth_error frames i = Some frame ->
            Task.detect_vehicles svc frame = Ok dets ->
            Task.detect_license_plate svc frame = Ok regions ->
            regions_read frame regions -> In rg regions ->
            (size (crop frame (OCRService.region_bounding_box rg)) > 0)%Z ->
            Task.read_plate_text svc (crop frame (OCRService.region_bounding_box rg))
              = Ok (Some pr) ->
            exists pid,
              In (Task.plate_row pid incident_id None pr (Task.timestamp_of i))
                 (frames_rows env incident_id 0 (enumerate frames))).
  { intros i frame dets regions rg pr Hnth Hd Hl Hok Hin Hs Hr.
    exact (locator_complete env incident_id frames 0 i rg Hnth Hd Hl Hok Hin Hs Hr). }
  split; [exact Hveh|]. split; [exact Hloc|]. split.
  - intros p Hp. now apply plates_sound.
  - intros i frame dets d regions rg pr1 pr2 Hnth Hd Hin Hs1 Hr1 Hl Hok Hrg Hs2 Hr2 Hsame.
    destruct (Hveh i frame dets d pr1 Hnth Hd Hin Hs1 Hr1) as (vid & pid1 & _ & H1).
    destruct (Hloc i frame dets regions rg pr2 Hnth Hd Hl Hok Hrg Hs2 Hr2) as (pid2 & H2).
    unfold Task.plate_row in H1, H2.
    eexists. eexists. split; [exact H1|]. split; [exact H2|].
    cbn. repeat split; [discriminate|assumption].
Qed.

Lemma plate_vehicle_association_witness :
  let w := Task.process_incident_video Scenario.plate_env "inc-1" (fresh Scenario.db) in
  exists rows p1 p2,
    license_plates (stored w) = plates_of rows
    /\ In (PlateRow p1) rows /\ In (PlateRow p2) rows
    /\ p_detection_id p1 <> None /\ p_detection_id p2 = None
    /\ p_plate_number p1 = p_plate_number p2.
Proof.
  destruct (@plate_vehicle_association Scenario.plate_env "inc-1" Scenario.db
              Scenario.incident [Scenario.frame_of 10] (fun _ => eq_refl) eq_refl eq_refl)
    as (rows & _ & Hp & _ & _ & _ & Hboth).
  destruct (Hboth 0 (Scenario.frame_of 10) [Scenario.car] Scenario.car
              [Scenario.region] Scenario.region Scenario.plate Scenario.plate
              eq_refl eq_refl (or_introl eq_refl) eq_refl eq_refl eq_refl
              (fun _ _ _ => eq_refl) (or_introl eq_refl) eq_refl eq_refl eq_refl)
    as (p1 & p2 & H1 & H2 & Hd1 & Hd2 & _ & Hn).
  exists rows, p1, p2. repeat split; assumption.
Defined.

(** What [read_plate_text] returns as bounding box: the hull of the corner
    points that the recogniser reported for the image it was given. *)
Lemma read_plate_text_box (self : OCRService.t) (img : Image)
    (pr : OCRService.PlateResult) :
  OCRService.read_plate_text self img = Some pr ->
  exists rd first others,
    OCRService.reader self = Some rd
    /\ OCRService.readtext rd img = Ok (first :: others)
    /\ OCRService.box_of_points (fst (fst (max_by (fun x => snd x) first others)))
       = Ok (OCRService.bounding_box pr).
Proof.
  unfold OCRService.read_plate_text.
  destruct (OCRService.reader self) as [rd|]; [|discriminate].
  destruct (size img =? 0)%Z; [discriminate|].
  unfold OCRService.read_body.
  destruct (OCRService.readtext rd img) as [[|first others]|e] eqn:Hrt;
    cbn [rbind]; [discriminate| |discriminate].
  destruct (max_by (fun x => snd x) first others) as [[bbox text] c] eqn:Hbest.
  destruct (OCRService.validate_plate_format (OCRService.clean_text text));
    cbn [negb]; [|discriminate].
  destruct (OCRService.box_of_points bbox) as [b|e] eqn:Hb; cbn [rbind]; [|discriminate].
  intros H. inversion H; subst.
  exists rd, first, others. split; [reflexivity|]. split; [exact Hrt|].
  pose proof (f_equal (fun r => fst (fst r)) Hbest) as Hfst. cbn [fst] in Hfst.
  exact (eq_trans (f_equal OCRService.box_of_points Hfst) Hb).
Qed.

(** C10.  Plate bounding boxes are crop-local.  In every run over the
    repository's services, every stored plate row, of either path, carries
    as bounding box the hull of the points that the recogniser reported for
    the cropped region it was given: nothing of the region's origin in the
    frame is added to it. *)
Theorem plate_boxes_are_crop_local (fs : VideoProcessor.FileSystem)
    (yolo : option (string -> res MLDetector.Model))
    (easyocr : option (list string -> res OCRService.Reader))
    (db_fails : nat -> bool) (uuid4 : nat -> string)
    (incident_id : string) (db : Database) :
  let env := Task.mkEnv db_fails uuid4 (Task.repository_services fs yolo easyocr) in
  let ocr_service := OCRService.init easyocr (Some [Task.OCR_LANGUAGES]) in
  let w := Task.process_incident_video env incident_id (fresh db) in
  exists rows,
    detected_vehicles (stored w) = detected_vehicles db ++ vehicles_of rows
    /\ license_plates (stored w) = license_plates db ++ plates_of rows
    /\ forall p, In p (plates_of rows) ->
         exists inc frames i frame region rd first others,
           find_incident incident_id (incidents db) = Some inc
           /\ VideoProcessor.extract_frames fs (video_path inc) 1 = Ok frames
           /\ nth_error frames i = Some frame
           /\ match p_detection_id p with
              | Some vid =>
                  exists v, In v (vehicles_of rows)
                            /\ v_detection_id v = vid /\ region = v_bounding_box v
              | None =>
                  exists rg, In rg (OCRService.detect_license_plate ocr_service frame)
                             /\ region = OCRService.region_bounding_box rg
              end
           /\ OCRService.reader ocr_service = Some rd
           /\ OCRService.readtext rd (crop frame region) = Ok (first :: others)
           /\ OCRService.box_of_points (fst (fst (max_by (fun x => snd x) first others)))
              = Ok (p_bounding_box p).
Proof.
  intros env ocr_service w.
  destruct (run_rows env incident_id db) as (rows & Hv & Hp & _ & Hrows).
  exists rows. split; [exact Hv|]. split; [exact Hp|].
  intros p Hin. apply in_plates_of in Hin.
  destruct Hrows as [->|(inc & frames & Hfind & Hext & ->)]; [destruct Hin|].
  apply plates_sound in Hin as (i & frame & Hnth & _ & Hkind).
  assert (Hbox : forall region, read_from (Task.services env) frame region p ->
            exists rd first others,
              OCRService.reader ocr_service = Some rd
              /\ OCRService.readtext rd (crop frame region) = Ok (first :: others)
              /\ OCRService.box_of_points (fst (fst (max_by (fun x => snd x) first others)))
                 = Ok (p_bounding_box p)).
  { intros region (_ & pr & Hread & _ & _ & Hb).
    cbv [env Task.services Task.repository_services Task.read_plate_text] in Hread.
    fold ocr_service in Hread. inversion Hread as [Hread'].
    apply read_plate_text_box in Hread' as (rd & first & others & Hrd & Hrt & Hbx).
    exists rd, first, others. rewrite Hb. auto. }
  destruct (p_detection_id p) as [vid|].
  - destruct Hkind as (v & Hv' & Hid & _ & Hread).
    destruct (Hbox _ Hread) as (rd & first & others & Hrd & Hrt & Hbx).
    exists inc, frames, i, frame, (v_bounding_box v), rd, first, others.
    repeat split; auto.
    exists v. repeat split; auto. now apply in_vehicles_of.
  - destruct Hkind as (regions & rg & Hl & Hrg & Hread).
    destruct (Hbox _ Hread) as (rd & first & others & Hrd & Hrt & Hbx).
    exists inc, frames, i, frame, (OCRService.region_bounding_box rg), rd, first, others.
    repeat split; auto.
    exists rg. split; [|reflexivity].
    assert (Hl' : regions = OCRService.detect_license_plate ocr_service frame).
    { cbv [env Task.services Task.repository_services Task.detect_license_plate] in Hl.
      fold ocr_service in Hl. congruence. }
    now rewrite <- Hl'.
Qed.

(** C10, on a concrete run: the car is found at (1,1)-(3,3) of the frame,
    the recogniser reports corners (0,0) and (2,1) inside the crop, and the
    stored plate box is (0,0)-(2,1). *)
Lemma plate_box_example :
  let w := Task.process_incident_video Scenario.repository_env "inc-1" (fresh Scenario.db) in
  map v_bounding_box (detected_vehicles (stored w)) = [mkBBox 1 1 3 3]
  /\ map p_bounding_box (license_plates (stored w)) = [mkBBox 0 0 2 1]
  /\ map p_plate_number (license_plates (stored w)) = ["AB1234"%string].
Proof. repeat split. Qed.
End Association.

(* ------------------------------------------------------------------ *)
(** * Frame sampling and video information, continued *)

Section SamplerExtras.
Import VideoProcessor.

Lemma subseq_refl {A} (l : list A) : subseq l l.
Proof. induction l; constructor; assumption. Qed.

Lemma subseq_empty {A} (l : list A) : subseq [] l.
Proof. induction l; constructor; assumption. Qed.

Lemma subseq_length {A} (kept l : list A) :
  subseq kept l -> (List.length kept <= List.length l)%nat.
Proof. induction 1; cbn; lia. Qed.

Lemma subseq_app {A} (k1 l1 k2 l2 : list A) :
  subseq k1 l1 -> subseq k2 l2 -> subseq (k1 ++ k2) (l1 ++ l2).
Proof.
  intros H1 H2. induction H1; cbn [app].
  - assumption.
  - now constructor.
  - now constructor.
Qed.

Lemma read_loop_subseq (k : Z) (rest : list Image) (c : Z) (acc frames : list Image) :
  read_loop k rest c acc = Ok frames ->
  exists kept, frames = acc ++ kept /\ subseq kept rest.
Proof.
  revert c acc. induction rest as [|x rest IH]; intros c acc; cbn [read_loop].
  - intros H. inversion H. exists []. split; [now rewrite app_nil_r|constructor].
  - destruct (k =? 0)%Z; [discriminate|].
    intros H. apply IH in H as (kept & -> & Hs).
    destruct (c mod k =? 0)%Z.
    + exists (x :: kept). split; [now rewrite <- app_assoc|now constructor].
    + exists kept. split; [reflexivity|now constructor].
Qed.

(** X1.  Whatever the requested rate, the frames that [extract_frames]
    returns are frames of the decoded stream in decoding order, none
    repeated or invented, and the first decoded frame is always the first
    frame returned. *)
Theorem extract_frames_keeps_order (fs : FileSystem) (video_path : string) (fps : Z)
    (frames : list Image) :
  extract_frames fs video_path fps = Ok frames ->
  exists video,
    fs video_path = Opened video
    /\ subseq frames (stream video)
    /\ (List.length frames <= List.length (stream video))%nat
    /\ hd_error frames = hd_error (stream video).
Proof.
  unfold extract_frames.
  destruct (fs video_path) as [| |video]; [discriminate|discriminate|].
  destruct (frame_interval (CAP_PROP_FPS video) fps) as [k|e]; [|discriminate].
  cbn [rbind]. intros H. exists video. split; [reflexivity|].
  pose proof (read_loop_subseq _ _ _ _ H) as (kept & -> & Hs). cbn [app] in *.
  split; [assumption|]. split; [now apply subseq_length|].
  destruct (stream video) as [|x rest]; [now inversion Hs|].
  cbn [read_loop] in H. destruct (k =? 0)%Z; [discriminate|].
  rewrite Zmod_0_l in H. cbn [Z.eqb app] in H.
  apply read_loop_subseq in H as (kept' & H & _). cbn [app] in H.
  rewrite H. reflexivity.
Qed.
End SamplerExtras.

Lemma extract_frames_keeps_order_witness :
  exists video,
    Scenario.three_fps_fs "video.mp4"%string = VideoProcessor.Opened video
    /\ subseq (map Scenario.frame_of [0; 3; 6; 9]%Z) (VideoProcessor.stream video)
    /\ (List.length (map Scenario.frame_of [0; 3; 6; 9]%Z)
        <= List.length (VideoProcessor.stream video))%nat
    /\ hd_error (map Scenario.frame_of [0; 3; 6; 9]%Z)
       = hd_error (VideoProcessor.stream video).
Proof.
  apply (@extract_frames_keeps_order Scenario.three_fps_fs "video.mp4"%string 1%Z).
  vm_compute. reflexivity.
Defined.

Section InfoExtras.
Import VideoProcessor VideoInfo.

(** X2.  On a video whose container reports a frame rate of 0,
    [extract_frames] returns every decoded frame for any requested rate of
    at least 1, while [get_video_info] raises [ZeroDivisionError] when it
    computes the duration. *)
Theorem video_without_frame_rate (fs : FileSystem) (properties : Capture -> Properties)
    (video_path : string) (video : Capture) (fps : Z) :
  fs video_path = Opened video ->
  CAP_PROP_FPS video == 0 ->
  (1 <= fps)%Z ->
  extract_frames fs video_path fps = Ok (stream video)
  /\ get_video_info fs properties video_path = Raise ZeroDivisionError.
Proof.
  intros Hfs Hr Hf. unfold extract_frames, get_video_info. rewrite Hfs. split.
  - unfold frame_interval.
    assert (E : Qlt_bool (inject_Z fps) (CAP_PROP_FPS video) = false).
    { unfold Qlt_bool. rewrite negb_false_iff. apply Qle_bool_iff.
      rewrite Hr. change 0 with (inject_Z 0).
      rewrite <- Zle_Qle. lia. }
    rewrite E. cbn [rbind]. apply (read_loop_all (stream video) 0 []).
  - cbv zeta. unfold float_div.
    assert (E : Qeq_bool (CAP_PROP_FPS video) 0 = true) by now apply Qeq_bool_iff.
    rewrite E. reflexivity.
Qed.

Lemma video_without_frame_rate_witness :
  extract_frames Cases.no_rate_fs "video.mp4"%string 1 = Ok Scenario.three_frames
  /\ get_video_info Cases.no_rate_fs Cases.no_rate_properties "video.mp4"%string
     = Raise ZeroDivisionError.
Proof.
  apply (@video_without_frame_rate Cases.no_rate_fs Cases.no_rate_properties
           "video.mp4"%string Cases.no_rate_video 1%Z).
  - reflexivity.
  - reflexivity.
  - lia.
Defined.
End InfoExtras.

(* ------------------------------------------------------------------ *)
(** * Colour classification, continued *)

Section ColourExtras.
Import MLDetector.
Local Open Scope string_scope.

Lemma classify_color_palette (r g b : Q) :
  In (classify_color r g b)
     ["white"; "black"; "red"; "green"; "blue"; "yellow"; "gray"; "other"].
Proof.
  unfold classify_color.
  repeat match goal with
         | |- context [if ?c then _ else _] => destruct c
         end; cbn; auto 10.
Qed.

Lemma detect_vehicle_color_names (cropped_image : Image) :
  size cropped_image <> 0%Z ->
  In (detect_vehicle_color cropped_image)
     ["white"; "black"; "red"; "green"; "blue"; "yellow"; "gray"; "other"].
Proof.
  intros H. rewrite detect_vehicle_color_averages by assumption.
  destruct (mean_color (sampled_pixels cropped_image)) as [[r g] b].
  apply classify_color_palette.
Qed.

End ColourExtras.

Section UniformCrop.
Import MLDetector.
Local Open Scope string_scope.

Lemma step_from_in {A} (k c : nat) (l : list A) (x : A) :
  In x (step_from k c l) -> In x l.
Proof.
  revert c. induction l as [|y l IH]; intros c; cbn [step_from]; [tauto|].
  destruct c as [|c'].
  - intros [H|H]; [now left|right; eapply IH; eassumption].
  - intros H. right. eapply IH; eassumption.
Qed.

Lemma sampled_pixels_uniform (p : Pixel) (row : list Pixel) (rows : Image) :
  Forall (Forall (eq p)) ((p :: row) :: rows) ->
  exists rest, sampled_pixels ((p :: row) :: rows) = p :: rest /\ Forall (eq p) rest.
Proof.
  intros H.
  assert (Hall : Forall (eq p) (sampled_pixels ((p :: row) :: rows))).
  { apply Forall_forall. intros x Hx. unfold sampled_pixels in Hx.
    apply in_concat in Hx as (r & Hr & Hx). apply in_map_iff in Hr as (r0 & <- & Hr0).
    apply step_from_in in Hr0. apply step_from_in in Hx.
    rewrite Forall_forall in H. specialize (H r0 Hr0). rewrite Forall_forall in H.
    now apply H. }
  unfold sampled_pixels, step_slice in *. cbn [step_from map List.concat app] in *.
  eexists. split; [reflexivity|]. now inversion Hall.
Qed.

Lemma channel_sum_uniform (ch : Pixel -> Z) (p : Pixel) (pixels : list Pixel) :
  Forall (eq p) pixels ->
  channel_sum ch pixels = (Z.of_nat (List.length pixels) * ch p)%Z.
Proof.
  induction 1 as [|x l Hx _ IH]; [reflexivity|].
  unfold channel_sum in *. cbn [fold_right List.length]. rewrite IH. subst x.
  rewrite Nat2Z.inj_succ. ring.
Qed.

Lemma uniform_quotient (n c : Z) : (0 < n)%Z -> inject_Z (n * c) / inject_Z n == inject_Z c.
Proof.
  intros H. rewrite inject_Z_mult. field.
  intros E. unfold Qeq in E. cbn [Qnum Qden inject_Z] in E. lia.
Qed.

Lemma uniform_crop_averages (p : Pixel) (row : list Pixel) (rows : Image) :
  Forall (Forall (eq p)) ((p :: row) :: rows) ->
  detect_vehicle_color ((p :: row) :: rows)
  = classify_color (inject_Z (fst (fst p))) (inject_Z (snd (fst p))) (inject_Z (snd p)).
Proof.
  intros H. rewrite detect_vehicle_color_averages.
  2:{ unfold size. cbn [List.concat app List.length]. lia. }
  destruct (sampled_pixels_uniform H) as (rest & -> & Hrest).
  assert (Hall : Forall (eq p) (p :: rest)) by (constructor; auto).
  unfold mean_color. rewrite !(channel_sum_uniform _ Hall).
  apply classify_color_comp; apply uniform_quotient; cbn [List.length]; lia.
Qed.

Lemma Qlt_bool_inject (a b : Z) : Qlt_bool (inject_Z a) (inject_Z b) = (a <? b)%Z.
Proof.
  unfold Qlt_bool, Qle_bool. cbn [Qnum Qden inject_Z]. rewrite !Z.mul_1_r.
  rewrite Z.ltb_antisym. reflexivity.
Qed.

Lemma classify_grey (v : Z) :
  classify_color (inject_Z v) (inject_Z v) (inject_Z v)
  = if (200 <? v)%Z then "white"
    else if (v <? 50)%Z then "black"
    else if (100 <? v)%Z then "gray" else "other".
Proof.
  unfold classify_color.
  change 200 with (inject_Z 200). change 50 with (inject_Z 50).
  change 150 with (inject_Z 150). change 100 with (inject_Z 100).
  rewrite !Qlt_bool_inject.
  repeat match goal with
         | |- context [(?a <? ?b)%Z] => destruct (Z.ltb_spec a b)
         end; cbn [andb]; first [reflexivity|lia].
Qed.

(** X4.  A crop of a single colour is classified by the channel values of
    that colour: sampling every fourth pixel and averaging do not change
    them.  A grey crop of level [v] is "white" above 200, "black" below 50,
    "gray" above 100 and "other" from 50 to 100. *)
Theorem uniform_crop_color (p : Pixel) (row : list Pixel) (rows : Image) :
  Forall (Forall (eq p)) ((p :: row) :: rows) ->
  detect_vehicle_color ((p :: row) :: rows)
  = classify_color (inject_Z (fst (fst p))) (inject_Z (snd (fst p))) (inject_Z (snd p))
  /\ (forall v : Z, p = (v, v, v) ->
        detect_vehicle_color ((p :: row) :: rows)
        = if (200 <? v)%Z then "white"
          else if (v <? 50)%Z then "black"
          else if (100 <? v)%Z then "gray" else "other").
Proof.
  intros H. split; [now apply uniform_crop_averages|].
  intros v ->. rewrite (uniform_crop_averages H). cbn [fst snd]. apply classify_grey.
Qed.

Lemma uniform_crop_color_witness :
  detect_vehicle_color (Scenario.frame_of 120)
  = classify_color (inject_Z 120) (inject_Z 120) (inject_Z 120)
  /\ (forall v : Z, (120, 120, 120)%Z = (v, v, v) ->
        detect_vehicle_color (Scenario.frame_of 120)
        = if (200 <? v)%Z then "white"
          else if (v <? 50)%Z then "black"
          else if (100 <? v)%Z then "gray" else "other").
Proof.
  apply (@uniform_crop_color (120, 120, 120)%Z).
  repeat constructor.
Defined.
End UniformCrop.

(* ------------------------------------------------------------------ *)
(** * The vehicle detector, continued *)

Section LoopExtras.
Context {A B : Type}.
Variable body : A -> M (list B) unit.
Variable R : A -> B -> Prop.
Hypothesis body_appends :
  forall x s, fst (body x s) = s
              \/ (exists y, body x s = ((s ++ [y])%list, Ok tt) /\ R x y).

(** A loop whose body appends at most one element per iteration appends
    elements for a subsequence of the iterated list, in order. *)
Lemma for_each_kept (l : list A) :
  forall s, exists kept ys,
    fst (for_each l body s) = (s ++ ys)%list
    /\ subseq kept l /\ Forall2 R kept ys.
Proof.
  induction l as [|x l IH]; intros s; cbn [for_each].
  - exists [], []. rewrite app_nil_r. repeat split; constructor.
  - unfold bind at 1.
    destruct (body_appends x s) as [H|(y & H & Hy)].
    + destruct (body x s) as [s' [[]|e]]; cbn [fst] in H; subst s'.
      * destruct (IH s) as (kept & ys & E & Hs & Hf).
        exists kept, ys. repeat split; [assumption|now constructor|assumption].
      * exists [], []. cbn [fst]. rewrite app_nil_r.
        repeat split; [apply subseq_empty|constructor].
    + rewrite H. destruct (IH (s ++ [y])%list) as (kept & ys & E & Hs & Hf).
      exists (x :: kept), (y :: ys). rewrite E, <- app_assoc.
      repeat split; [now constructor|now constructor].
Qed.
End LoopExtras.

Section DetectorExtras.
Import MLDetector.
Local Open Scope string_scope.

Lemma process_box_reported (frame : Image) (th : pyfloat) (box : Box) (dets : list Detection) :
  fst (process_box frame th box dets) = dets
  \/ (exists d, process_box frame th box dets = ((dets ++ [d])%list, Ok tt)
                /\ reported frame box d).
Proof.
  unfold process_box, bind, lift, ret, modify, reported.
  destruct (py_int (cls box)) as [c|e] eqn:Hc; [|now left].
  destruct (lookup VEHICLE_CLASSES c) as [v|] eqn:L; [|now left].
  destruct (float_ge (conf box) th) eqn:G; [|now left].
  destruct (xyxy box) as [[[fx1 fy1] fx2] fy2].
  destruct (py_int fx1) as [a1|]; [|now left].
  destruct (py_int fy1) as [b1|]; [|now left].
  destruct (py_int fx2) as [a2|]; [|now left].
  destruct (py_int fy2) as [b2|]; [|now left].
  right. eexists. split; [reflexivity|].
  cbn [vehicle_type confidence bounding_box color x1 y1 x2 y2].
  repeat split. exists c. now split.
Qed.

Lemma process_box_finite (frame : Image) (th : pyfloat) (box : Box) (dets : list Detection) :
  finite_box box = true ->
  if qualifies th box
  then exists d, process_box frame th box dets = ((dets ++ [d])%list, Ok tt)
                 /\ reported frame box d
  else process_box frame th box dets = (dets, Ok tt).
Proof.
  unfold finite_box, qualifies, process_box, bind, lift, ret, modify, reported.
  destruct (xyxy box) as [[[fx1 fy1] fx2] fy2].
  destruct (cls box) as [qc| |]; cbn [finite andb]; try discriminate.
  destruct fx1 as [q1| |]; cbn [finite andb]; try discriminate.
  destruct fy1 as [q2| |]; cbn [finite andb]; try discriminate.
  destruct fx2 as [q3| |]; cbn [finite andb]; try discriminate.
  destruct fy2 as [q4| |]; cbn [finite andb]; try discriminate.
  intros _. cbn [py_int].
  destruct (lookup VEHICLE_CLASSES (Qtrunc qc)) as [v|] eqn:L; [|reflexivity].
  destruct (float_ge (conf box) th) eqn:G; [|reflexivity].
  eexists. split; [reflexivity|].
  cbn [vehicle_type confidence bounding_box color x1 y1 x2 y2].
  repeat split. exists (Qtrunc qc). now split.
Qed.

Lemma boxes_reported (frame : Image) (th : pyfloat) (boxes : list Box) :
  forall dets, exists kept ds,
    fst (for_each boxes (process_box frame th) dets) = (dets ++ ds)%list
    /\ subseq kept boxes /\ Forall2 (reported frame) kept ds.
Proof. apply for_each_kept. apply process_box_reported. Qed.

Lemma boxes_finite (frame : Image) (th : pyfloat) (boxes : list Box) :
  Forall (fun box => finite_box box = true) boxes ->
  forall dets, exists ds,
    for_each boxes (process_box frame th) dets = ((dets ++ ds)%list, Ok tt)
    /\ Forall2 (reported frame) (filter (qualifies th) boxes) ds.
Proof.
  induction 1 as [|box boxes Hb _ IH]; intros dets; cbn [for_each filter].
  - exists []. rewrite app_nil_r. split; [reflexivity|constructor].
  - unfold bind at 1. pose proof (process_box_finite frame th box dets Hb) as H.
    destruct (qualifies th box).
    + destruct H as (d & -> & Hd). destruct (IH (dets ++ [d])%list) as (ds & E & Hf).
      exists (d :: ds). rewrite E, <- app_assoc. split; [reflexivity|now constructor].
    + rewrite H. apply IH.
Qed.

Lemma detect_vehicles_boxes (self : MLDetector.t) (frame : Image) (th : pyfloat) :
  detect_vehicles self frame th
  = fst (for_each (model_output self frame) (process_box frame th) []).
Proof.
  unfold detect_vehicles, model_output.
  destruct (model self) as [m|]; [|reflexivity].
  rewrite try_except_pass_fst. unfold detect_body, bind, lift.
  destruct (m frame) as [results|e]; [|reflexivity].
  now rewrite (for_each_concat (process_box frame th) results).
Qed.

(** X5.  The detections that [detect_vehicles] returns correspond, one to
    one and in order, to a subsequence of the boxes of the model: each
    carries the class name of its box, its confidence, its corner
    coordinates truncated to integers, and the colour of the crop of the
    frame at these coordinates.  This also holds when the loop is cut short
    by an exception. *)
Theorem detections_follow_the_boxes (self : MLDetector.t) (frame : Image) (th : pyfloat) :
  exists kept,
    subseq kept (model_output self frame)
    /\ Forall2 (reported frame) kept (detect_vehicles self frame th).
Proof.
  rewrite detect_vehicles_boxes.
  destruct (boxes_reported frame th (model_output self frame) []) as (kept & ds & E & Hs & Hf).
  exists kept. rewrite E. now split.
Qed.

(** X6.  When the class and the coordinates of every box are finite
    numbers, no box is lost: the detections correspond, one to one and in
    order, to all the boxes of a vehicle class whose confidence reaches the
    threshold. *)
Theorem finite_boxes_are_all_examined (self : MLDetector.t) (frame : Image) (th : pyfloat) :
  Forall (fun box => finite_box box = true) (model_output self frame) ->
  Forall2 (reported frame)
    (filter (qualifies th) (model_output self frame))
    (detect_vehicles self frame th).
Proof.
  intros H. rewrite detect_vehicles_boxes.
  destruct (boxes_finite frame th H []) as (ds & E & Hf).
  rewrite E. exact Hf.
Qed.

Lemma finite_boxes_are_all_examined_witness :
  Forall2 (reported (Scenario.frame_of 10))
    (filter (qualifies default_threshold)
       (model_output (init Scenario.yolo "yolov8n.pt") (Scenario.frame_of 10)))
    (detect_vehicles (init Scenario.yolo "yolov8n.pt") (Scenario.frame_of 10)
       default_threshold).
Proof.
  apply (@finite_boxes_are_all_examined (init Scenario.yolo "yolov8n.pt")
           (Scenario.frame_of 10) default_threshold).
  repeat constructor.
Defined.

(** X7.  The colour of a returned detection is never "unknown": the key
    is absent exactly when the crop at the bounding box is empty, and
    otherwise holds one of the eight colour names, computed on that crop. *)
Theorem detection_colours (self : MLDetector.t) (frame : Image) (th : pyfloat) :
  Forall (fun d =>
            match color d with
            | None => size (crop frame (bounding_box d)) = 0%Z
            | Some c =>
                c = detect_vehicle_color (crop frame (bounding_box d))
                /\ In c ["white"; "black"; "red"; "green"; "blue"; "yellow"; "gray"; "other"]
            end)
         (detect_vehicles self frame th).
Proof.
  rewrite detect_vehicles_boxes.
  destruct (boxes_reported frame th (model_output self frame) []) as (kept & ds & E & _ & Hf).
  rewrite E. cbn [app]. clear E.
  induction Hf as [|box d kept ds (_ & _ & _ & Hc) _ IH]; constructor; [|assumption].
  rewrite Hc. set (img := crop frame (bounding_box d)).
  destruct (size img >? 0)%Z eqn:E.
  - split; [reflexivity|].
    apply detect_vehicle_color_names. intros Hz. rewrite Hz in E. discriminate.
  - rewrite Z.gtb_ltb in E. apply Z.ltb_ge in E. unfold size in *. lia.
Qed.

(** X8.  When [ultralytics] is missing or loading the weights raises, the
    constructed detector returns no detection for any frame; when [easyocr]
    is missing or its reader cannot be built, the constructed service locates
    no region and reads no plate. *)
Theorem engines_that_fail_to_load_are_switched_off
    (yolo : option (string -> res Model)) (model_path : string)
    (easyocr : option (list string -> res OCRService.Reader)) (languages : list string) :
  (yolo = None \/ exists load e, yolo = Some load /\ load model_path = Raise e) ->
  (easyocr = None \/ exists mk e, easyocr = Some mk /\ mk languages = Raise e) ->
  (forall frame th, detect_vehicles (init yolo model_path) frame th = [])
  /\ (forall frame,
        OCRService.detect_license_plate (OCRService.init easyocr (Some languages)) frame = [])
  /\ (forall plate_image,
        OCRService.read_plate_text (OCRService.init easyocr (Some languages)) plate_image
        = None).
Proof.
  intros Hy He.
  assert (Hm : model (init yolo model_path) = None).
  { unfold init. cbn [model]. now destruct Hy as [->|(load & e & -> & ->)]. }
  assert (Hr : OCRService.reader (OCRService.init easyocr (Some languages)) = None).
  { unfold OCRService.init. cbn [OCRService.reader].
    now destruct He as [->|(mk & e & -> & ->)]. }
  repeat split.
  - intros frame th. unfold detect_vehicles. now rewrite Hm.
  - intros frame. unfold OCRService.detect_license_plate. now rewrite Hr.
  - intros img. unfold OCRService.read_plate_text. now rewrite Hr.
Qed.

Lemma engines_that_fail_to_load_are_switched_off_witness :
  (forall frame th,
      detect_vehicles (init None "yolov8n.pt") frame th = [])
  /\ (forall frame,
        OCRService.detect_license_plate
          (OCRService.init (Some (fun _ => Raise RuntimeError)) (Some ["en"])) frame = [])
  /\ (forall plate_image,
        OCRService.read_plate_text
          (OCRService.init (Some (fun _ => Raise RuntimeError)) (Some ["en"])) plate_image
        = None).
Proof.
  apply (@engines_that_fail_to_load_are_switched_off None "yolov8n.pt"
           (Some (fun _ => Raise RuntimeError)) ["en"]).
  - now left.
  - right. exists (fun _ => Raise RuntimeError), RuntimeError. split; reflexivity.
Defined.
End DetectorExtras.

(* ------------------------------------------------------------------ *)
(** * Plate boxes and plate location *)

Section HullExtras.
Import OCRService.

Lemma Qtrunc_ceiling (q : Q) : q <= 0 -> Qtrunc q = Qceiling q.
Proof.
  destruct q as [n d]. unfold Qle, Qtrunc, Qceiling, Qfloor, Qopp. cbn [Qnum Qden].
  intros H. rewrite Z.mul_1_r in H. cbn in H.
  rewrite <- (Z.opp_involutive n) at 1. rewrite Z.quot_opp_l by lia.
  f_equal. apply Z.quot_div_nonneg; lia.
Qed.

Lemma Qtrunc_le (a b : Q) : a <= b -> (Qtrunc a <= Qtrunc b)%Z.
Proof.
  intros H. destruct (Qlt_le_dec a 0) as [Ha|Ha]; destruct (Qlt_le_dec b 0) as [Hb|Hb].
  - rewrite !Qtrunc_ceiling by now apply Qlt_le_weak. now apply Qceiling_resp_le.
  - rewrite (Qtrunc_ceiling (Qlt_le_weak _ _ Ha)), (Qtrunc_floor Hb).
    apply Z.le_trans with 0%Z.
    + change 0%Z with (Qceiling 0). apply Qceiling_resp_le. now apply Qlt_le_weak.
    + change 0%Z with (Qfloor 0). now apply Qfloor_resp_le.
  - exfalso. apply (Qlt_irrefl 0). apply Qle_lt_trans with a; [assumption|].
    now apply Qle_lt_trans with b.
  - rewrite !Qtrunc_floor by assumption. now apply Qfloor_resp_le.
Qed.

Lemma Qlt_bool_lt (a b : Q) : Qlt_bool a b = true <-> a < b.
Proof.
  unfold Qlt_bool. rewrite negb_true_iff. split.
  - intros H. apply Qnot_le_lt. intros Hle. apply Qle_bool_iff in Hle. congruence.
  - intros H. destruct (Qle_bool b a) eqn:E; [|reflexivity].
    apply Qle_bool_iff in E. exfalso. now apply (Qlt_not_le _ _ H).
Qed.

Lemma Qlt_bool_ge (a b : Q) : Qlt_bool a b = false <-> b <= a.
Proof.
  unfold Qlt_bool. rewrite negb_false_iff. apply Qle_bool_iff.
Qed.

(** A finite minimum is below the start value and every finite element;
    the start value is then finite or plus infinity. *)
Lemma min_from_finite (xs : list pyfloat) (cur : pyfloat) (m : Q) :
  min_from cur xs = Fin m ->
  (cur = Inf false \/ exists c, cur = Fin c /\ m <= c)
  /\ (forall q, In (Fin q) xs -> m <= q).
Proof.
  revert cur. induction xs as [|x xs IH]; intros cur; cbn [min_from].
  - intros ->. split; [right; exists m; split; [reflexivity|apply Qle_refl]|intros q []].
  - intros H. apply IH in H as (Hcur & Hall).
    destruct (float_lt x cur) eqn:E.
    + destruct Hcur as [->|(c & -> & Hmc)].
      { destruct cur as [k| |[]]; discriminate. }
      destruct cur as [k| |neg]; cbn [float_lt] in E; try discriminate.
      * apply Qlt_bool_lt in E. split.
        -- right. exists k. split; [reflexivity|].
           apply Qle_trans with c; [assumption|now apply Qlt_le_weak].
        -- intros q [Hq|Hq]; [inversion Hq; subst; assumption|now apply Hall].
      * destruct neg; [discriminate|]. split; [now left|].
        intros q [Hq|Hq]; [inversion Hq; subst; assumption|now apply Hall].
    + split; [assumption|].
      intros q [->|Hq]; [|now apply Hall].
      destruct Hcur as [->|(c & -> & Hmc)]; cbn [float_lt] in E; [discriminate|].
      apply Qlt_bool_ge in E. now apply Qle_trans with c.
Qed.

Lemma max_from_finite (xs : list pyfloat) (cur : pyfloat) (m : Q) :
  max_from cur xs = Fin m ->
  (cur = Inf true \/ exists c, cur = Fin c /\ c <= m)
  /\ (forall q, In (Fin q) xs -> q <= m).
Proof.
  revert cur. induction xs as [|x xs IH]; intros cur; cbn [max_from].
  - intros ->. split; [right; exists m; split; [reflexivity|apply Qle_refl]|intros q []].
  - intros H. apply IH in H as (Hcur & Hall). unfold float_gt in *.
    destruct (float_lt cur x) eqn:E.
    + destruct Hcur as [->|(c & -> & Hmc)].
      { destruct cur as [k| |[]]; discriminate. }
      destruct cur as [k| |neg]; cbn [float_lt] in E; try discriminate.
      * apply Qlt_bool_lt in E. split.
        -- right. exists k. split; [reflexivity|].
           apply Qle_trans with c; [now apply Qlt_le_weak|assumption].
        -- intros q [Hq|Hq]; [inversion Hq; subst; assumption|now apply Hall].
      * destruct neg; [|discriminate]. split; [now left|].
        intros q [Hq|Hq]; [inversion Hq; subst; assumption|now apply Hall].
    + split; [assumption|].
      intros q [->|Hq]; [|now apply Hall].
      destruct Hcur as [->|(c & -> & Hmc)]; cbn [float_lt] in E; [discriminate|].
      apply Qlt_bool_ge in E. now apply Qle_trans with c.
Qed.

(** The truncated extremes of a sequence of floats bound the truncation of
    each of its finite elements. *)
Lemma extremes_bound (xs : list pyfloat) (lo hi : Z) :
  rbind (py_min xs) py_int = Ok lo ->
  rbind (py_max xs) py_int = Ok hi ->
  (lo <= hi)%Z /\ (forall q, In (Fin q) xs -> (lo <= Qtrunc q <= hi)%Z).
Proof.
  destruct xs as [|x t]; [discriminate|]. cbn [py_min py_max rbind].
  destruct (min_from x t) as [m| |] eqn:Hmin; try discriminate.
  destruct (max_from x t) as [M| |] eqn:Hmax; try discriminate.
  cbn [py_int]. intros Hlo Hhi. inversion Hlo. inversion Hhi. subst lo hi.
  apply min_from_finite in Hmin as (Hx & Hmin).
  apply max_from_finite in Hmax as (Hx' & Hmax).
  destruct Hx as [->|(c & -> & Hmc)]; [destruct Hx' as [?|(? & ? & _)]; discriminate|].
  destruct Hx' as [?|(c' & Hc' & HcM)]; [discriminate|]. inversion Hc'. subst c'.
  split.
  - apply Qtrunc_le. now apply Qle_trans with c.
  - intros q [Hq|Hq].
    + inversion Hq. subst q. split; now apply Qtrunc_le.
    + split; apply Qtrunc_le; [now apply Hmin|now apply Hmax].
Qed.

Lemma box_of_points_extremes (points : list Point) (b : BBox) :
  box_of_points points = Ok b ->
  rbind (py_min (map fst points)) py_int = Ok (x1 b)
  /\ rbind (py_min (map snd points)) py_int = Ok (y1 b)
  /\ rbind (py_max (map fst points)) py_int = Ok (x2 b)
  /\ rbind (py_max (map snd points)) py_int = Ok (y2 b).
Proof.
  unfold box_of_points.
  destruct (rbind (py_min (map fst points)) py_int) as [bx1|]; [|discriminate].
  cbn [rbind].
  destruct (rbind (py_min (map snd points)) py_int) as [by1|]; [|discriminate].
  cbn [rbind].
  destruct (rbind (py_max (map fst points)) py_int) as [bx2|]; [|discriminate].
  cbn [rbind].
  destruct (rbind (py_max (map snd points)) py_int) as [by2|]; [|discriminate].
  cbn [rbind]. intros H. inversion H. subst b. cbn [x1 y1 x2 y2]. auto.
Qed.

(** X9.  The box computed from the points of a reading or of a candidate
    region is well formed ([x1 <= x2], [y1 <= y2]) and contains the truncated
    coordinates of every finite point. *)
Theorem plate_box_is_the_hull_of_the_points (points : list Point) (b : BBox) :
  box_of_points points = Ok b ->
  (x1 b <= x2 b)%Z /\ (y1 b <= y2 b)%Z
  /\ (forall px py, In (Fin px, Fin py) points ->
        (x1 b <= Qtrunc px <= x2 b)%Z /\ (y1 b <= Qtrunc py <= y2 b)%Z).
Proof.
  intros H. apply box_of_points_extremes in H as (H1 & H2 & H3 & H4).
  destruct (extremes_bound _ H1 H3) as (Hx & Hxs).
  destruct (extremes_bound _ H2 H4) as (Hy & Hys).
  split; [assumption|]. split; [assumption|].
  intros px py Hin. split.
  - apply Hxs. change (Fin px) with (fst (Fin px, Fin py)). now apply in_map.
  - apply Hys. change (Fin py) with (snd (Fin px, Fin py)). now apply in_map.
Qed.

Lemma plate_box_is_the_hull_of_the_points_witness :
  (0 <= 2)%Z /\ (0 <= 1)%Z
  /\ (forall px py, In (Fin px, Fin py) (fst (fst Scenario.reading)) ->
        (0 <= Qtrunc px <= 2)%Z /\ (0 <= Qtrunc py <= 1)%Z).
Proof.
  exact (@plate_box_is_the_hull_of_the_points (fst (fst Scenario.reading))
           (mkBBox 0 0 2 1) eq_refl).
Defined.
End HullExtras.

Section LocatorExtras.
Import OCRService.

Lemma locate_step (candidate : list Point * pyfloat) (regions : list PlateRegion) :
  let body := fun '(box, prob) =>
        if float_gt prob (Fin (1 # 2)) then
          bind (lift (box_of_points box)) (fun b =>
          modify (fun detections : list PlateRegion =>
            (detections ++ [ {| region_bounding_box := b;
                                region_confidence := prob |} ])%list))
        else ret tt in
  fst (body candidate regions) = regions
  \/ (exists rg, body candidate regions = ((regions ++ [rg])%list, Ok tt)
                 /\ located candidate rg).
Proof.
  destruct candidate as [box prob]. cbv zeta. unfold bind, lift, ret, modify, located.
  destruct (float_gt prob (Fin (1 # 2))) eqn:G; [|now left].
  destruct (box_of_points box) as [b|e] eqn:B; [|now left].
  right. eexists. split; [reflexivity|]. cbn. auto.
Qed.

(** X10.  The regions that [detect_license_plate] returns correspond, one
    to one and in order, to a subsequence of the candidates of the
    recogniser: each has the probability of its candidate, which is strictly
    above 0.5, and the hull of its points, which is well formed. *)
Theorem regions_follow_the_candidates (self : OCRService.t) (frame : Image) :
  (exists kept,
      subseq kept (locator_output self frame)
      /\ Forall2 located kept (detect_license_plate self frame))
  /\ Forall (fun rg =>
               float_gt (region_confidence rg) (Fin (1 # 2)) = true
               /\ (x1 (region_bounding_box rg) <= x2 (region_bounding_box rg))%Z
               /\ (y1 (region_bounding_box rg) <= y2 (region_bounding_box rg))%Z)
            (detect_license_plate self frame).
Proof.
  assert (H : exists kept,
             subseq kept (locator_output self frame)
             /\ Forall2 located kept (detect_license_plate self frame)).
  {
  unfold detect_license_plate, locator_output.
  destruct (reader self) as [r|]; [|exists []; split; constructor].
  rewrite try_except_pass_fst. unfold locate_body. unfold bind at 1. unfold lift at 1.
  destruct (detect r frame) as [[[boxes probs]|]|e];
    [|exists []; split; constructor|exists []; split; constructor].
  destruct (for_each_kept _ located locate_step (combine boxes probs) [])
    as (kept & rs & E & Hs & Hf).
  exists kept. split; [assumption|]. cbn beta iota.
  rewrite E. exact Hf. }
  destruct H as (kept & Hs & Hf).
  split; [now exists kept|].
  clear Hs. induction Hf as [|cand rg kept rs (Hg & Hb & Hc) _ IH]; constructor;
    [|assumption].
  rewrite Hc. split; [assumption|].
  apply box_of_points_extremes in Hb as (H1 & H2 & H3 & H4).
  split; [exact (proj1 (extremes_bound _ H1 H3))|exact (proj1 (extremes_bound _ H2 H4))].
Qed.
End LocatorExtras.

(* ------------------------------------------------------------------ *)
(** * Plate text, continued *)

Section FormatExtras.
Import OCRService.
Local Open Scope nat_scope.

Lemma search_weaken (f g : ascii -> bool) (s : string) :
  (forall c, f c = true -> g c = true) ->
  search f s = true -> search g s = true.
Proof.
  intros Hfg. induction s as [|c s IH]; cbn [search]; [discriminate|].
  intros H. apply orb_true_iff in H as [H|H]; apply orb_true_iff; auto.
Qed.

Lemma validate_plate_format_bool (text : string) :
  validate_plate_format text
  = (2 <=? String.length text) && (String.length text <=? 10)
    && search is_digit text
    && (search is_letter text || re_match pattern_generic text).
Proof.
  unfold validate_plate_format.
  rewrite (Nat.ltb_antisym 2 (String.length text)).
  rewrite (Nat.ltb_antisym (String.length text) 10).
  destruct (2 <=? String.length text); cbn [negb orb andb]; [|reflexivity].
  destruct (String.length text <=? 10); cbn [negb orb andb]; [|reflexivity].
  destruct (search is_digit text) eqn:Ed.
  2:{ destruct (search is_alnum text); reflexivity. }
  rewrite (search_weaken is_digit is_alnum text) by
    (try assumption; intros c Hc; unfold is_alnum; rewrite Hc; apply orb_true_r).
  cbn [negb andb]. unfold patterns. cbn [existsb].
  destruct (re_match pattern_letters_digits text) eqn:P1.
  { now rewrite (letters_digits_has_letter _ P1). }
  destruct (re_match pattern_digits_letters text) eqn:P2.
  { now rewrite (digits_letters_has_letter _ P2). }
  cbn [orb]. destruct (re_match pattern_generic text); cbn [orb].
  - now rewrite orb_true_r.
  - now rewrite orb_false_r, andb_true_r.
Qed.

(** X11.  [validate_plate_format] accepts a text exactly when it has 2 to
    10 characters, at least one digit, and either a letter in [A-Z] or the
    shape of 5 to 8 letters and digits.  The two patterns "letters then
    digits" and "digits then letters" never change the outcome. *)
Theorem validate_plate_format_decides (text : string) :
  validate_plate_format text = true
  <-> 2 <= String.length text <= 10
      /\ search is_digit text = true
      /\ (search is_letter text = true \/ re_match pattern_generic text = true).
Proof.
  rewrite validate_plate_format_bool.
  rewrite !andb_true_iff, orb_true_iff, !Nat.leb_le. tauto.
Qed.

Lemma take_class_all (class : ascii -> bool) (n : nat) (s : string) :
  all_chars class s = true ->
  match take_class class n s with
  | Some rest => n + String.length rest = String.length s /\ all_chars class rest = true
  | None => String.length s < n
  end.
Proof.
  revert s. induction n as [|n IH]; intros s H; cbn [take_class].
  - split; [reflexivity|assumption].
  - destruct s as [|c s]; cbn [String.length]; [lia|].
    cbn [all_chars] in H. apply andb_true_iff in H as [Hc Hs]. rewrite Hc.
    specialize (IH s Hs). destruct (take_class class n s); [|lia].
    destruct IH. split; [lia|assumption].
Qed.

Lemma alnum_at_end (s : string) :
  all_chars is_alnum s = true -> at_end s = (String.length s =? 0).
Proof.
  destruct s as [|c [|d s]]; cbn [at_end String.length Nat.eqb]; try reflexivity.
  cbn [all_chars]. rewrite andb_true_r. intros H.
  destruct (Ascii.eqb_spec c "010"%char) as [->|]; [discriminate H|reflexivity].
Qed.

Lemma generic_all_alnum (s : string) :
  all_chars is_alnum s = true ->
  re_match pattern_generic s = (5 <=? String.length s) && (String.length s <=? 8).
Proof.
  intros H. unfold pattern_generic. cbn [re_match Nat.sub Nat.add seq existsb].
  assert (Hn : forall n, match take_class is_alnum n s with
                         | Some rest => at_end rest
                         | None => false
                         end = (n =? String.length s)).
  { intros n. pose proof (take_class_all is_alnum n s H) as Hn.
    destruct (take_class is_alnum n s) as [rest|].
    - destruct Hn as [Hl Ha]. rewrite (alnum_at_end _ Ha).
      destruct (Nat.eqb_spec (String.length rest) 0), (Nat.eqb_spec n (String.length s));
        first [reflexivity|lia].
    - symmetry. apply Nat.eqb_neq. lia. }
  rewrite !Hn.
  destruct (Nat.eqb_spec 5 (String.length s)), (Nat.eqb_spec 6 (String.length s)),
    (Nat.eqb_spec 7 (String.length s)), (Nat.eqb_spec 8 (String.length s)),
    (Nat.leb_spec 5 (String.length s)), (Nat.leb_spec (String.length s) 8);
    cbn [orb andb]; first [reflexivity|lia].
Qed.

Lemma digit_not_letter (c : ascii) : is_digit c = true -> is_letter c = false.
Proof.
  unfold is_digit, is_letter, in_range. intros H.
  apply andb_true_iff in H as [_ H]. apply Nat.leb_le in H.
  apply andb_false_iff. left. apply Nat.leb_gt. lia.
Qed.

Lemma digits_only (s : string) :
  all_chars is_digit s = true ->
  all_chars is_alnum s = true
  /\ search is_letter s = false
  /\ search is_digit s = negb (String.length s =? 0).
Proof.
  induction s as [|c s IH]; cbn [all_chars search String.length Nat.eqb negb];
    [auto|].
  intros H. apply andb_true_iff in H as [Hc Hs]. destruct (IH Hs) as (Ha & Hl & _).
  unfold is_alnum at 1. rewrite Hc, (digit_not_letter _ Hc), Ha, Hl. auto.
Qed.

(** X12.  A text made of digits only is accepted exactly when it has 5 to
    8 characters. *)
Theorem digits_only_text_is_accepted_by_length (text : string) :
  all_chars is_digit text = true ->
  validate_plate_format text = (5 <=? String.length text) && (String.length text <=? 8).
Proof.
  intros H. destruct (digits_only _ H) as (Ha & Hl & Hd).
  rewrite validate_plate_format_bool, Hl, Hd, (generic_all_alnum _ Ha).
  destruct (Nat.leb_spec 2 (String.length text)), (Nat.leb_spec (String.length text) 10),
    (Nat.leb_spec 5 (String.length text)), (Nat.leb_spec (String.length text) 8),
    (Nat.eqb_spec (String.length text) 0);
    cbn [orb andb negb]; first [reflexivity|lia].
Qed.

Lemma digits_only_text_is_accepted_by_length_witness :
  validate_plate_format "1234"%string = false
  /\ validate_plate_format "12345678"%string = true.
Proof.
  split.
  - exact (@digits_only_text_is_accepted_by_length "1234"%string eq_refl).
  - exact (@digits_only_text_is_accepted_by_length "12345678"%string eq_refl).
Defined.
End FormatExtras.

Section CleanExtras.
Import OCRService.

Lemma upper_char_idem (c : ascii) : upper_char (upper_char c) = upper_char c.
Proof. destruct c as [[] [] [] [] [] [] [] []]; reflexivity. Qed.

Lemma upper_idem (s : string) : upper (upper s) = upper s.
Proof.
  induction s as [|c s IH]; cbn [upper]; [reflexivity|].
  now rewrite upper_char_idem, IH.
Qed.

Lemma upper_char_space (c : ascii) :
  Ascii.eqb (upper_char c) " "%char = Ascii.eqb c " "%char.
Proof. destruct c as [[] [] [] [] [] [] [] []]; reflexivity. Qed.

Lemma upper_char_hyphen (c : ascii) :
  Ascii.eqb (upper_char c) "-"%char = Ascii.eqb c "-"%char.
Proof. destruct c as [[] [] [] [] [] [] [] []]; reflexivity. Qed.

Lemma upper_remove_char (c : ascii) (s : string) :
  (forall d, Ascii.eqb (upper_char d) c = Ascii.eqb d c) ->
  upper (remove_char c s) = remove_char c (upper s).
Proof.
  intros Hc. induction s as [|d s IH]; cbn [upper remove_char]; [reflexivity|].
  rewrite Hc. destruct (Ascii.eqb d c); [assumption|].
  cbn [upper]. now rewrite IH.
Qed.

Lemma remove_char_comm (a b : ascii) (s : string) :
  remove_char a (remove_char b s) = remove_char b (remove_char a s).
Proof.
  induction s as [|d s IH]; cbn [remove_char]; [reflexivity|].
  destruct (Ascii.eqb d b) eqn:Eb, (Ascii.eqb d a) eqn:Ea; cbn [remove_char];
    rewrite ?Ea, ?Eb; congruence.
Qed.

Lemma remove_char_idem (a : ascii) (s : string) :
  remove_char a (remove_char a s) = remove_char a s.
Proof.
  induction s as [|d s IH]; cbn [remove_char]; [reflexivity|].
  destruct (Ascii.eqb d a) eqn:Ea; cbn [remove_char]; rewrite ?Ea; congruence.
Qed.

(** X13.  Normalising a recognised text twice gives the same text as
    normalising it once. *)
Theorem clean_text_is_idempotent (text : string) :
  clean_text (clean_text text) = clean_text text.
Proof.
  unfold clean_text.
  rewrite (upper_remove_char "-"%char _ upper_char_hyphen).
  rewrite (upper_remove_char " "%char _ upper_char_space).
  rewrite upper_idem.
  rewrite (remove_char_comm " "%char "-"%char (remove_char " "%char (upper text))).
  rewrite remove_char_idem, remove_char_idem. reflexivity.
Qed.
End CleanExtras.

Section ReaderExtras.
Import OCRService.

Lemma float_gt_step (y x c : pyfloat) :
  float_gt y c = false -> float_gt x c = true -> float_gt y x = false.
Proof.
  unfold float_gt.
  destruct y as [qy| |[]], x as [qx| |[]], c as [qc| |[]]; cbn [float_lt andb negb];
    try reflexivity; try discriminate.
  intros H1 H2. apply Qlt_bool_ge in H1. apply Qlt_bool_lt in H2. apply Qlt_bool_ge.
  apply Qle_trans with qc; [assumption|now apply Qlt_le_weak].
Qed.

Lemma float_gt_irrefl (x : pyfloat) : float_gt x x = false.
Proof.
  unfold float_gt. destruct x as [q| |[]]; cbn [float_lt andb negb]; try reflexivity.
  apply Qlt_bool_ge. apply Qle_refl.
Qed.

(** [max(xs, key=key)] returns an element that no element exceeds. *)
Lemma max_by_best {A} (key : A -> pyfloat) (xs : list A) (cur : A) (seen : list A) :
  In cur seen ->
  Forall (fun y => float_gt (key y) (key cur) = false) seen ->
  In (max_by key cur xs) (seen ++ xs)
  /\ Forall (fun y => float_gt (key y) (key (max_by key cur xs)) = false) (seen ++ xs).
Proof.
  revert cur seen. induction xs as [|x xs IH]; intros cur seen Hin Hall; cbn [max_by].
  - rewrite app_nil_r. now split.
  - replace (seen ++ x :: xs)%list with ((seen ++ [x]) ++ xs)%list
      by (now rewrite <- app_assoc).
    apply IH.
    + destruct (float_gt (key x) (key cur)); apply in_or_app; [right; now left|now left].
    + apply Forall_app. destruct (float_gt (key x) (key cur)) eqn:E.
      * split.
        -- eapply Forall_impl; [|exact Hall]. cbv beta. intros y Hy.
           now apply float_gt_step with (key cur).
        -- constructor; [apply float_gt_irrefl|constructor].
      * split; [assumption|]. constructor; [assumption|constructor].
Qed.

(** X14.  A plate that [read_plate_text] returns comes from one reading
    of the recogniser: its confidence is that of the reading, which no other
    reading exceeds, its number is the normalised text of the reading and
    its box is the hull of the reading's points. *)
Theorem plate_comes_from_the_best_reading (self : OCRService.t) (plate_image : Image)
    (pr : PlateResult) :
  read_plate_text self plate_image = Some pr ->
  exists rd results points raw,
    reader self = Some rd
    /\ readtext rd plate_image = Ok results
    /\ In (points, raw, confidence pr) results
    /\ Forall (fun x => float_gt (snd x) (confidence pr) = false) results
    /\ plate_number pr = clean_text raw
    /\ box_of_points points = Ok (bounding_box pr).
Proof.
  unfold read_plate_text.
  destruct (reader self) as [rd|]; [|discriminate].
  destruct (size plate_image =? 0)%Z; [discriminate|].
  unfold read_body.
  destruct (readtext rd plate_image) as [[|first others]|e] eqn:Hrt;
    cbn [rbind]; [discriminate| |discriminate].
  match goal with
  | |- context [max_by ?k first others] =>
      destruct (@max_by_best _ k others first [first]) as (Hin & Hall);
        [now left|constructor; [apply float_gt_irrefl|constructor]|];
        cbn [app] in Hin, Hall;
        destruct (max_by k first others) as [[bbox text] c]
  end.
  destruct (validate_plate_format (clean_text text)); cbn [negb]; [|discriminate].
  destruct (box_of_points bbox) as [b|e] eqn:Hb; cbn [rbind]; [|discriminate].
  intros H. inversion H; subst. cbn [confidence plate_number bounding_box].
  exists rd, (first :: others), bbox, text. cbn [snd] in Hall. repeat split; auto.
Qed.

Lemma plate_comes_from_the_best_reading_witness :
  exists rd results points raw,
    reader (OCRService.init Scenario.easyocr None) = Some rd
    /\ readtext rd (Scenario.frame_of 10) = Ok results
    /\ In (points, raw, confidence Scenario.plate) results
    /\ Forall (fun x => float_gt (snd x) (confidence Scenario.plate) = false) results
    /\ plate_number Scenario.plate = clean_text raw
    /\ box_of_points points = Ok (bounding_box Scenario.plate).
Proof.
  exact (@plate_comes_from_the_best_reading (OCRService.init Scenario.easyocr None)
           (Scenario.frame_of 10) Scenario.plate eq_refl).
Defined.

(** X15.  There is no second choice: when the text of the most confident
    reading is not a valid plate, [read_plate_text] returns nothing, whatever
    the other readings are. *)
Theorem rejected_best_reading_gives_no_plate (self : OCRService.t) (plate_image : Image)
    (rd : Reader) (first : Reading) (others : list Reading) :
  reader self = Some rd ->
  readtext rd plate_image = Ok (first :: others) ->
  validate_plate_format
    (clean_text (snd (fst (max_by (fun x => snd x) first others)))) = false ->
  read_plate_text self plate_image = None.
Proof.
  intros Hr Hrt Hv. unfold read_plate_text. rewrite Hr.
  destruct (size plate_image =? 0)%Z; [reflexivity|].
  unfold read_body. rewrite Hrt. cbn [rbind].
  destruct (max_by (fun x => snd x) first others) as [[bbox text] c].
  cbn [fst snd] in Hv. rewrite Hv. reflexivity.
Qed.
End ReaderExtras.

Lemma rejected_best_reading_gives_no_plate_witness :
  OCRService.read_plate_text Cases.word_first_service (Scenario.frame_of 10) = None.
Proof.
  exact (@rejected_best_reading_gives_no_plate Cases.word_first_service
           (Scenario.frame_of 10) Cases.word_first_reader _ _ eq_refl eq_refl eq_refl).
Defined.

(* ------------------------------------------------------------------ *)
(** * The rows of a run, continued *)

Section RowsExtras.
Import Rows Phase.
Local Open Scope nat_scope.
Variable env : Task.Env.
Variable incident_id : string.

Let svc : Task.Services := Task.services env.

Lemma vehicles_of_app (a b : list Row) :
  vehicles_of (a ++ b) = vehicles_of a ++ vehicles_of b.
Proof.
  induction a as [|[v|p] a IH]; cbn; [reflexivity| |assumption]. now rewrite IH.
Qed.

Lemma plates_of_app (a b : list Row) :
  plates_of (a ++ b) = plates_of a ++ plates_of b.
Proof.
  induction a as [|[v|p] a IH]; cbn; [reflexivity|assumption|]. now rewrite IH.
Qed.

(** An OCR attempt adds no row or one plate row, with the next UUID. *)
Lemma plate_attempt_shape (did : option string) (frame : Image) (ts : pyfloat)
    (bbox : BBox) (n : nat) :
  fst (plate_attempt env incident_id did frame ts bbox n) = []
  \/ exists pr,
       fst (plate_attempt env incident_id did frame ts bbox n)
       = [Task.plate_row (Task.uuid4 env n) incident_id did pr ts].
Proof.
  unfold plate_attempt.
  destruct (size (crop frame bbox) >? 0)%Z; [|now left].
  destruct (Task.read_plate_text (Task.services env) (crop frame bbox)) as [[pr|]|e];
    [right; now exists pr|now left|now left].
Qed.

(** *** Identifiers *)

Lemma plate_attempt_ids (did : option string) (frame : Image) (ts : pyfloat)
    (bbox : BBox) (n : nat) :
  let rows := fst (plate_attempt env incident_id did frame ts bbox n) in
  map row_id rows = map (Task.uuid4 env) (seq n (List.length rows)).
Proof.
  cbv zeta. destruct (plate_attempt_shape did frame ts bbox n) as [->|(pr & ->)];
    reflexivity.
Qed.

Lemma vehicle_rows_ids (frame : Image) (ts : pyfloat) (n : nat) (d : MLDetector.Detection) :
  let rows := vehicle_rows env incident_id frame ts n d in
  map row_id rows = map (Task.uuid4 env) (seq n (List.length rows)).
Proof.
  cbv zeta. unfold vehicle_rows. cbn [map List.length seq row_id Task.vehicle_row v_detection_id].
  f_equal. apply plate_attempt_ids.
Qed.

Lemma ids_app (n : nat) (a b : list Row) :
  map row_id a = map (Task.uuid4 env) (seq n (List.length a)) ->
  map row_id b = map (Task.uuid4 env) (seq (n + List.length a) (List.length b)) ->
  map row_id (a ++ b) = map (Task.uuid4 env) (seq n (List.length (a ++ b))).
Proof.
  intros Ha Hb. now rewrite length_app, seq_app, !map_app, Ha, Hb.
Qed.

Lemma vehicles_rows_ids (frame : Image) (ts : pyfloat) (dets : list MLDetector.Detection)
    (n : nat) :
  let rows := vehicles_rows env incident_id frame ts n dets in
  map row_id rows = map (Task.uuid4 env) (seq n (List.length rows)).
Proof.
  cbv zeta. revert n. induction dets as [|d dets IH]; intros n; cbn [vehicles_rows];
    [reflexivity|].
  apply ids_app; [apply vehicle_rows_ids|apply IH].
Qed.

Lemma regions_rows_ids (frame : Image) (ts : pyfloat)
    (regions : list OCRService.PlateRegion) (n : nat) :
  let rows := regions_rows env incident_id frame ts n regions in
  map row_id rows = map (Task.uuid4 env) (seq n (List.length rows)).
Proof.
  cbv zeta. revert n. induction regions as [|rg regions IH]; intros n;
    cbn [regions_rows]; [reflexivity|].
  destruct (snd (plate_attempt env incident_id None frame ts
                   (OCRService.region_bounding_box rg) n)).
  - apply ids_app; [apply plate_attempt_ids|apply IH].
  - apply plate_attempt_ids.
Qed.

Lemma frame_rows_ids (n : nat) (x : nat * Image) :
  let rows := frame_rows env incident_id n x in
  map row_id rows = map (Task.uuid4 env) (seq n (List.length rows)).
Proof.
  cbv zeta. destruct x as [i frame]. unfold frame_rows.
  destruct (Task.detect_vehicles (Task.services env) frame) as [dets|e]; [|reflexivity].
  apply ids_app; [apply vehicles_rows_ids|].
  unfold general_rows.
  destruct (Task.detect_license_plate (Task.services env) frame) as [regions|e];
    [apply regions_rows_ids|reflexivity].
Qed.

Lemma frames_rows_ids (l : list (nat * Image)) (n : nat) :
  let rows := frames_rows env incident_id n l in
  map row_id rows = map (Task.uuid4 env) (seq n (List.length rows)).
Proof.
  cbv zeta. revert n. induction l as [|x l IH]; intros n; cbn [frames_rows];
    [reflexivity|].
  apply ids_app; [apply frame_rows_ids|apply IH].
Qed.

(** *** Vehicle rows *)

Lemma plate_attempt_vehicles (did : option string) (frame : Image) (ts : pyfloat)
    (bbox : BBox) (n : nat) :
  vehicles_of (fst (plate_attempt env incident_id did frame ts bbox n)) = [].
Proof.
  destruct (plate_attempt_shape did frame ts bbox n) as [->|(pr & ->)]; reflexivity.
Qed.

Lemma regions_rows_vehicles (frame : Image) (ts : pyfloat)
    (regions : list OCRService.PlateRegion) (n : nat) :
  vehicles_of (regions_rows env incident_id frame ts n regions) = [].
Proof.
  revert n. induction regions as [|rg regions IH]; intros n; cbn [regions_rows];
    [reflexivity|].
  destruct (snd (plate_attempt env incident_id None frame ts
                   (OCRService.region_bounding_box rg) n)).
  - now rewrite vehicles_of_app, plate_attempt_vehicles, IH.
  - apply plate_attempt_vehicles.
Qed.

Lemma vehicles_rows_vehicles (frame : Image) (i : nat)
    (dets : list MLDetector.Detection) (n : nat) :
  Forall2 (is_row_of incident_id)
    (vehicles_of (vehicles_rows env incident_id frame (Task.timestamp_of i) n dets))
    (map (pair i) dets).
Proof.
  revert n. induction dets as [|d dets IH]; intros n; cbn [vehicles_rows map];
    [constructor|].
  rewrite vehicles_of_app. unfold vehicle_rows at 1. cbn [vehicles_of].
  rewrite plate_attempt_vehicles. cbn [app].
  constructor; [now exists (Task.uuid4 env n)|apply IH].
Qed.

Lemma frames_rows_vehicles (frames : list Image) (i n : nat) :
  Forall2 (is_row_of incident_id)
    (vehicles_of (frames_rows env incident_id n (enumerate_from i frames)))
    (flat_map (fun indexed : nat * Image =>
                 match Task.detect_vehicles svc (snd indexed) with
                 | Ok dets => map (pair (fst indexed)) dets
                 | Raise _ => []
                 end)
              (enumerate_from i frames)).
Proof.
  revert i n. induction frames as [|frame frames IH]; intros i n;
    cbn [enumerate_from frames_rows flat_map]; [constructor|].
  rewrite vehicles_of_app. apply Forall2_app; [|apply IH].
  unfold frame_rows. cbn [fst snd]. fold svc.
  destruct (Task.detect_vehicles svc frame) as [dets|e]; [|constructor].
  rewrite vehicles_of_app. unfold general_rows.
  replace (vehicles_of _ ++ vehicles_of _)
    with (vehicles_of (vehicles_rows env incident_id frame (Task.timestamp_of i) n dets)).
  - apply vehicles_rows_vehicles.
  - destruct (Task.detect_license_plate (Task.services env) frame);
      [now rewrite regions_rows_vehicles, app_nil_r|now rewrite app_nil_r].
Qed.

(** *** Plates attached to vehicles *)

Lemma plate_attempt_none_attached (frame : Image) (ts : pyfloat) (bbox : BBox) (n : nat) :
  filter attached (plates_of (fst (plate_attempt env incident_id None frame ts bbox n))) = [].
Proof.
  destruct (plate_attempt_shape None frame ts bbox n) as [->|(pr & ->)]; reflexivity.
Qed.

Lemma regions_rows_none_attached (frame : Image) (ts : pyfloat)
    (regions : list OCRService.PlateRegion) (n : nat) :
  filter attached (plates_of (regions_rows env incident_id frame ts n regions)) = [].
Proof.
  revert n. induction regions as [|rg regions IH]; intros n; cbn [regions_rows];
    [reflexivity|].
  destruct (snd (plate_attempt env incident_id None frame ts
                   (OCRService.region_bounding_box rg) n)).
  - now rewrite plates_of_app, filter_app, plate_attempt_none_attached, IH.
  - apply plate_attempt_none_attached.
Qed.

Lemma vehicle_rows_attached (frame : Image) (ts : pyfloat) (n : nat)
    (d : MLDetector.Detection) :
  let rows := vehicle_rows env incident_id frame ts n d in
  List.length (filter attached (plates_of rows)) <= 1
  /\ List.length (vehicles_of rows) = 1.
Proof.
  cbv zeta. unfold vehicle_rows. cbn [plates_of vehicles_of List.length].
  rewrite plate_attempt_vehicles.
  destruct (plate_attempt_shape (Some (Task.uuid4 env n)) frame ts
              (MLDetector.bounding_box d) (S n)) as [->|(pr & ->)]; cbn; lia.
Qed.

Lemma vehicles_rows_attached (frame : Image) (ts : pyfloat)
    (dets : list MLDetector.Detection) (n : nat) :
  let rows := vehicles_rows env incident_id frame ts n dets in
  List.length (filter attached (plates_of rows)) <= List.length (vehicles_of rows).
Proof.
  cbv zeta. revert n. induction dets as [|d dets IH]; intros n; cbn [vehicles_rows];
    [cbn; lia|].
  rewrite plates_of_app, vehicles_of_app, filter_app, !length_app.
  specialize (IH (n + List.length (vehicle_rows env incident_id frame ts n d))).
  pose proof (vehicle_rows_attached frame ts n d) as H. cbv zeta in H. lia.
Qed.

Lemma frames_rows_attached (l : list (nat * Image)) (n : nat) :
  let rows := frames_rows env incident_id n l in
  List.length (filter attached (plates_of rows)) <= List.length (vehicles_of rows).
Proof.
  cbv zeta. revert n. induction l as [|[i frame] l IH]; intros n; cbn [frames_rows];
    [cbn; lia|].
  rewrite plates_of_app, vehicles_of_app, filter_app, !length_app.
  specialize (IH (n + List.length (frame_rows env incident_id n (i, frame)))).
  enough (List.length (filter attached (plates_of (frame_rows env incident_id n (i, frame))))
          <= List.length (vehicles_of (frame_rows env incident_id n (i, frame)))) by lia.
  unfold frame_rows.
  destruct (Task.detect_vehicles (Task.services env) frame) as [dets|e]; [|cbn; lia].
  rewrite plates_of_app, vehicles_of_app, filter_app, !length_app.
  pose proof (vehicles_rows_attached frame (Task.timestamp_of i) dets n) as H.
  cbv zeta in H. unfold general_rows.
  destruct (Task.detect_license_plate (Task.services env) frame) as [regions|e'].
  - rewrite regions_rows_none_attached. cbn [List.length]. lia.
  - cbn [plates_of filter List.length]. lia.
Qed.

(** *** Timestamps *)






Lemma NoDup_map_injective {A B} (f : A -> B) (l : list A) :
  (forall a b, f a = f b -> a = b) -> NoDup l -> NoDup (map f l).
Proof.
  intros Hf H. induction H as [|a l Ha H IH]; cbn; constructor; [|assumption].
  intros Hin. apply in_map_iff in Hin as (b & Hb & Hin).
  apply Hf in Hb. now subst.
Qed.

(** *** Frames that produce nothing *)

Lemma frames_rows_nothing (l : list (nat * Image)) (n : nat) :
  (forall frame, Task.detect_vehicles svc frame = Ok []
                 \/ exists e, Task.detect_vehicles svc frame = Raise e) ->
  (forall frame, Task.detect_license_plate svc frame = Ok []
                 \/ exists e, Task.detect_license_plate svc frame = Raise e) ->
  frames_rows env incident_id n l = [].
Proof.
  intros Hd Hl. revert n. induction l as [|[i frame] l IH]; intros n;
    cbn [frames_rows]; [reflexivity|].
  assert (E : frame_rows env incident_id n (i, frame) = []).
  { unfold frame_rows, general_rows. fold svc.
    destruct (Hd frame) as [->|(e & ->)]; [|reflexivity].
    cbn [vehicles_rows app]. now destruct (Hl frame) as [->|(e & ->)]. }
  rewrite E. apply IH.
Qed.
End RowsExtras.

(* ------------------------------------------------------------------ *)
(** * The task, continued *)

Section TaskExtras.
Import Rows Phase.
Local Open Scope nat_scope.
Variable env : Task.Env.
Variable incident_id : string.

Lemma ids_update_status (id : string) (s : ProcessingStatus) (l : list Incident) :
  map Models.incident_id (update_status id s l) = map Models.incident_id l.
Proof.
  unfold update_status. rewrite map_map. apply map_ext.
  intros i. now destruct (String.eqb (Models.incident_id i) id).
Qed.

Lemma paths_update_status (id : string) (s : ProcessingStatus) (l : list Incident) :
  map video_path (update_status id s l) = map video_path l.
Proof.
  unfold update_status. rewrite map_map. apply map_ext.
  intros i. now destruct (String.eqb (Models.incident_id i) id).
Qed.

Lemma find_other_update_status (id other : string) (s : ProcessingStatus)
    (l : list Incident) :
  other <> id ->
  find_incident other (update_status id s l) = find_incident other l.
Proof.
  intros Hne. induction l as [|i l IH]; [reflexivity|].
  change (update_status id s (i :: l))
    with ((if String.eqb (Models.incident_id i) id
           then mkIncident (Models.incident_id i) (video_path i) s else i)
          :: update_status id s l).
  cbn [find_incident]. rewrite IH.
  destruct (String.eqb (Models.incident_id i) id) eqn:E; [|reflexivity].
  cbn [Models.incident_id]. apply String.eqb_eq in E.
  destruct (String.eqb (Models.incident_id i) other) eqn:E'; [|reflexivity].
  apply String.eqb_eq in E'. congruence.
Qed.

Ltac task_step :=
  match goal with
  | |- context [find_incident _ (update_status _ _ _)] => rewrite find_update_status
  | |- context [Task.db_fails env ?n] => destruct (Task.db_fails env n) eqn:?
  | |- context [find_incident ?i ?l] => destruct (find_incident i l) eqn:?
  | |- context [Task.extract_frames ?s ?p ?f] =>
      destruct (Task.extract_frames s p f) eqn:?
  | |- context [Task.process_frames env ?i ?f ?w] =>
      rewrite (process_frames_run env i f w)
  | |- context [Task.thumbnail env ?i ?w] => rewrite (thumbnail_run env i w)
  end;
  cbn [fst snd stored dirty added db_calls uuid_calls trace incidents option_map].

Ltac task_cases :=
  cbv zeta;
  unfold Task.process_incident_video, Task.task_body, Task.on_error, try_except,
    bind, query_incident, commit, set_status, modify, ret, fresh;
  cbn [fst snd stored dirty added db_calls uuid_calls trace incidents];
  repeat task_step;
  unfold close, flush, extend;
  cbn [fst snd stored dirty added db_calls uuid_calls trace incidents
       detected_vehicles license_plates app vehicles_of plates_of];
  rewrite <- ?app_assoc;
  cbn [app].

(** X16.  A task started for an incident that is not in the database
    leaves the database as it is, sets no status, adds no row and draws no
    identifier. *)
Theorem missing_incident_changes_nothing (db : Database) :
  find_incident incident_id (incidents db) = None ->
  let w := Task.process_incident_video env incident_id (fresh db) in
  stored w = db /\ trace w = [] /\ uuid_calls w = 0.
Proof.
  intros Hnone. task_cases; try congruence; repeat split.
Qed.

(** X17.  Whatever happens during a run, the identifiers and the video
    paths of all incidents stay as they are, and so does the status of every
    incident other than the one being processed. *)
Theorem task_changes_one_status_only (db : Database) :
  let w := Task.process_incident_video env incident_id (fresh db) in
  map Models.incident_id (incidents (stored w)) = map Models.incident_id (incidents db)
  /\ map video_path (incidents (stored w)) = map video_path (incidents db)
  /\ forall other, other <> incident_id ->
       status_of other (stored w) = status_of other db.
Proof.
  task_cases.
  all: rewrite ?ids_update_status, ?paths_update_status.
  all: split; [reflexivity|]; split; [reflexivity|].
  all: intros other Hne; unfold status_of; cbn [incidents];
    now rewrite ?(find_other_update_status _ _ Hne).
Qed.

(** X18.  The rows of a run are stored together or not at all: the tables
    grow by every row that the run added to the session, in the order of the
    additions, or by none. *)
Theorem rows_stored_all_or_none (db : Database) :
  let w := Task.process_incident_video env incident_id (fresh db) in
  exists rows,
    detected_vehicles (stored w) = detected_vehicles db ++ vehicles_of rows
    /\ license_plates (stored w) = license_plates db ++ plates_of rows
    /\ (rows = [] \/ rows = added_rows (trace w)).
Proof.
  task_cases.
  all: rewrite ?app_nil_r.
  all: first
    [ exists []; cbn [vehicles_of plates_of]; rewrite ?app_nil_r;
      solve [repeat split; auto]
    | eexists; split; [reflexivity|]; split; [reflexivity|]; right;
      cbn [added_rows]; rewrite added_rows_app, added_rows_map;
      cbn [added_rows]; now rewrite app_nil_r ].
Qed.

(** X19.  A run makes at most six round trips to the database, and draws
    exactly one identifier for each row that it adds to the session. *)
Theorem round_trips_are_bounded (db : Database) :
  let w := Task.process_incident_video env incident_id (fresh db) in
  db_calls w <= 6 /\ uuid_calls w = List.length (added_rows (trace w)).
Proof.
  task_cases.
  all: cbn [added_rows]; rewrite ?added_rows_app, ?added_rows_map, ?length_app;
    cbn [added_rows List.length]; split; lia.
Qed.
End TaskExtras.

Lemma missing_incident_changes_nothing_witness :
  stored (Task.process_incident_video Scenario.flaky_env "inc-2" (fresh Scenario.db))
  = Scenario.db
  /\ trace (Task.process_incident_video Scenario.flaky_env "inc-2" (fresh Scenario.db)) = []
  /\ uuid_calls (Task.process_incident_video Scenario.flaky_env "inc-2" (fresh Scenario.db))
     = 0%nat.
Proof.
  exact (@missing_incident_changes_nothing Scenario.flaky_env "inc-2" Scenario.db eq_refl).
Defined.

Section Thumb.
Import Rows Phase.
Local Open Scope nat_scope.

Variable db_fails : nat -> bool.

Ltac any_step :=
  match goal with
  | |- context [find_incident _ (update_status _ _ _)] => rewrite find_update_status
  | |- context [db_fails ?n] => destruct (db_fails n) eqn:?
  | |- context [find_incident ?i ?l] => destruct (find_incident i l) eqn:?
  | |- context [Task.extract_frames ?s ?p ?f] =>
      destruct (Task.extract_frames s p f) eqn:?
  | |- context [Task.process_frames ?e ?i ?f ?w] =>
      rewrite (process_frames_run e i f w); unfold extend
  | |- context [Task.thumbnail ?e ?i ?w] => rewrite (thumbnail_run e i w)
  end;
  cbn [fst snd stored dirty added db_calls uuid_calls trace incidents option_map
       Task.db_fails Task.services Task.uuid4 Task.extract_frames with_thumbnail].

(** X20.  The thumbnail step has no effect on the outcome: replacing
    [generate_thumbnail] by any other function, raising or not, gives the
    same final database and the same trace. *)
Theorem thumbnail_outcome_is_irrelevant (uuid4 : nat -> string)
    (svc : Task.Services) (generate_thumbnail : string -> string -> res string)
    (incident_id : string) (db : Database) :
  Task.process_incident_video
    (Task.mkEnv db_fails uuid4 (with_thumbnail svc generate_thumbnail)) incident_id (fresh db)
  = Task.process_incident_video (Task.mkEnv db_fails uuid4 svc) incident_id (fresh db).
Proof.
  unfold Task.process_incident_video, Task.task_body, Task.on_error, try_except,
    bind, query_incident, commit, set_status, modify, ret, fresh, flush.
  cbn [fst snd stored dirty added db_calls uuid_calls trace incidents
       Task.db_fails Task.services Task.uuid4 Task.extract_frames with_thumbnail].
  repeat any_step; first [reflexivity | congruence].
Qed.
End Thumb.

Section RunExtras.
Import Rows Phase.
Local Open Scope nat_scope.

(** X21.  The identifiers of the rows that a run stores are the successive
    values of the UUID source, in storage order; they are pairwise distinct
    when the source never repeats itself. *)
Theorem row_identifiers_follow_the_uuid_source (env : Task.Env) (incident_id : string)
    (db : Database) :
  let w := Task.process_incident_video env incident_id (fresh db) in
  exists rows,
    detected_vehicles (stored w) = detected_vehicles db ++ vehicles_of rows
    /\ license_plates (stored w) = license_plates db ++ plates_of rows
    /\ map row_id rows = map (Task.uuid4 env) (seq 0 (List.length rows))
    /\ ((forall a b, Task.uuid4 env a = Task.uuid4 env b -> a = b) ->
        NoDup (map row_id rows)).
Proof.
  cbv zeta. destruct (run_rows env incident_id db) as (rows & Hv & Hp & _ & Hrows).
  exists rows. split; [exact Hv|]. split; [exact Hp|].
  assert (Hids : map row_id rows = map (Task.uuid4 env) (seq 0 (List.length rows))).
  { destruct Hrows as [->|(inc & frames & _ & _ & ->)]; [reflexivity|].
    apply frames_rows_ids. }
  split; [exact Hids|].
  intros Hinj. rewrite Hids. apply NoDup_map_injective; [exact Hinj|apply seq_NoDup].
Qed.


(** X23.  Among the rows that a run stores, the plates that refer to a
    vehicle are at most as many as the vehicles: at most one plate is read
    per detected vehicle. *)
Theorem attached_plates_do_not_outnumber_vehicles (env : Task.Env) (incident_id : string)
    (db : Database) :
  let w := Task.process_incident_video env incident_id (fresh db) in
  exists rows,
    detected_vehicles (stored w) = detected_vehicles db ++ vehicles_of rows
    /\ license_plates (stored w) = license_plates db ++ plates_of rows
    /\ List.length (filter attached (plates_of rows)) <= List.length (vehicles_of rows).
Proof.
  cbv zeta. destruct (run_rows env incident_id db) as (rows & Hv & Hp & _ & Hrows).
  exists rows. split; [exact Hv|]. split; [exact Hp|].
  destruct Hrows as [->|(inc & frames & _ & _ & ->)]; [cbn; lia|].
  apply frames_rows_attached.
Qed.

(** X24.  When the database does not fail and the frames are extracted,
    the vehicle rows that the run stores correspond, one to one and in order,
    to the detections of the frames whose detection step returned: each row
    holds the type, confidence, box and colour of its detection and the index
    of its frame. *)
Theorem vehicle_rows_follow_detections (env : Task.Env) (incident_id : string)
    (db : Database) (inc : Incident) (frames : list Image) :
  (forall n, Task.db_fails env n = false) ->
  find_incident incident_id (incidents db) = Some inc ->
  Task.extract_frames (Task.services env) (video_path inc) 1 = Ok frames ->
  let w := Task.process_incident_video env incident_id (fresh db) in
  exists vehicles,
    detected_vehicles (stored w) = detected_vehicles db ++ vehicles
    /\ Forall2
         (fun v x =>
            exists vid,
              v = Task.vehicle_row vid incident_id (snd x) (Task.timestamp_of (fst x)))
         vehicles (detections_of (Task.services env) frames).
Proof.
  intros Hdb Hfind Hext w. subst w.
  rewrite (run_completed env incident_id db Hdb Hfind Hext). cbn [stored detected_vehicles].
  eexists. split; [reflexivity|].
  exact (frames_rows_vehicles env incident_id frames 0 0).
Qed.

Lemma vehicle_rows_follow_detections_witness :
  let w := Task.process_incident_video Scenario.flaky_env "inc-1" (fresh Scenario.db) in
  List.length (detected_vehicles (stored w))
  = List.length (detections_of Scenario.flaky_services Scenario.three_frames).
Proof.
  destruct (@vehicle_rows_follow_detections Scenario.flaky_env "inc-1" Scenario.db
              Scenario.incident Scenario.three_frames (fun _ => eq_refl) eq_refl eq_refl)
    as (vehicles & Hv & Hall).
  cbv zeta. rewrite Hv. exact (Forall2_length Hall).
Defined.

(** X25.  On a worker where neither engine could be loaded, a run over a
    readable video completes and stores no row. *)
Theorem run_without_engines_stores_nothing (fs : VideoProcessor.FileSystem)
    (yolo : option (string -> res MLDetector.Model))
    (easyocr : option (list string -> res OCRService.Reader))
    (db_fails : nat -> bool) (uuid4 : nat -> string)
    (incident_id : string) (db : Database) (inc : Incident) (frames : list Image) :
  MLDetector.model (MLDetector.init yolo Task.YOLO_MODEL) = None ->
  OCRService.reader (OCRService.init easyocr (Some [Task.OCR_LANGUAGES])) = None ->
  (forall n, db_fails n = false) ->
  find_incident incident_id (incidents db) = Some inc ->
  VideoProcessor.extract_frames fs (video_path inc) 1 = Ok frames ->
  let env := Task.mkEnv db_fails uuid4 (Task.repository_services fs yolo easyocr) in
  let w := Task.process_incident_video env incident_id (fresh db) in
  status_of incident_id (stored w) = Some COMPLETED
  /\ detected_vehicles (stored w) = detected_vehicles db
  /\ license_plates (stored w) = license_plates db.
Proof.
  intros Hm Hr Hdb Hfind Hext env w. subst w.
  rewrite (@run_completed env incident_id db inc frames Hdb Hfind Hext). cbn [stored].
  rewrite (status_after_updates incident_id db PROCESSING COMPLETED _ _ Hfind).
  rewrite frames_rows_nothing.
  - cbn. now rewrite !app_nil_r.
  - intros frame. left. cbn. unfold MLDetector.detect_vehicles. now rewrite Hm.
  - intros frame. left. cbn. unfold OCRService.detect_license_plate. now rewrite Hr.
Qed.

Lemma run_without_engines_stores_nothing_witness :
  let env := Task.mkEnv (fun _ => false) Scenario.uuid4
               (Task.repository_services Scenario.one_frame_fs None None) in
  let w := Task.process_incident_video env "inc-1" (fresh Scenario.db) in
  status_of "inc-1" (stored w) = Some COMPLETED
  /\ detected_vehicles (stored w) = []
  /\ license_plates (stored w) = [].
Proof.
  exact (@run_without_engines_stores_nothing Scenario.one_frame_fs None None
           (fun _ => false) Scenario.uuid4 "inc-1" Scenario.db Scenario.incident
           [Scenario.frame_of 10] eq_refl eq_refl (fun _ => eq_refl) eq_refl eq_refl).
Defined.

(** X26.  When the video file is missing or cannot be opened, the run
    marks the incident FAILED in two commits (PROCESSING, then FAILED) and
    stores no row. *)
Theorem unreadable_video_fails_the_run (fs : VideoProcessor.FileSystem)
    (yolo : option (string -> res MLDetector.Model))
    (easyocr : option (list string -> res OCRService.Reader))
    (db_fails : nat -> bool) (uuid4 : nat -> string)
    (incident_id : string) (db : Database) (inc : Incident) :
  (forall n, db_fails n = false) ->
  find_incident incident_id (incidents db) = Some inc ->
  (fs (video_path inc) = VideoProcessor.Absent
   \/ fs (video_path inc) = VideoProcessor.Unopenable) ->
  let env := Task.mkEnv db_fails uuid4 (Task.repository_services fs yolo easyocr) in
  let w := Task.process_incident_video env incident_id (fresh db) in
  status_of incident_id (stored w) = Some FAILED
  /\ detected_vehicles (stored w) = detected_vehicles db
  /\ license_plates (stored w) = license_plates db
  /\ trace w = [EvStatus PROCESSING; EvCommit; EvStatus FAILED; EvCommit].
Proof.
  intros Hdb Hfind Hfs env w. subst w.
  assert (Hext : exists e,
            Task.extract_frames (Task.services env) (video_path inc) 1 = Raise e).
  { cbn. unfold VideoProcessor.extract_frames.
    destruct Hfs as [->| ->]; eexists; reflexivity. }
  destruct Hext as (e & Hext).
  rewrite (@run_failed env incident_id db inc e Hdb Hfind Hext). cbn [stored trace].
  rewrite (status_after_updates incident_id db PROCESSING FAILED _ _ Hfind).
  repeat split.
Qed.

Lemma unreadable_video_fails_the_run_witness :
  let env := Task.mkEnv (fun _ => false) Scenario.uuid4
               (Task.repository_services (fun _ => VideoProcessor.Absent)
                  Scenario.yolo Scenario.easyocr) in
  let w := Task.process_incident_video env "inc-1" (fresh Scenario.db) in
  status_of "inc-1" (stored w) = Some FAILED /\ detected_vehicles (stored w) = [].
Proof.
  destruct (@unreadable_video_fails_the_run (fun _ => VideoProcessor.Absent)
              Scenario.yolo Scenario.easyocr (fun _ => false) Scenario.uuid4 "inc-1"
              Scenario.db Scenario.incident (fun _ => eq_refl) eq_refl
              (or_introl eq_refl)) as (Hs & Hv & _).
  split; [exact Hs|exact Hv].
Defined.
End RunExtras.

